(** * PhishGuard URL threat-scoring core: a shallow embedding and its properties

    The development embeds the scoring core of the PhishGuard services:

    - [python_services/app/phish_core.py]   (class [PhishGuardCore]),
    - [python_services/app/database.py]     (class [PhishGuardDatabase]),
    - [python_services/ai_training/urlhaus_integration.py]
                                            (class [URLhausClient]).

    Conventions of the embedding.

    - Python [str] values are Rocq [string]s, read as sequences of code points
      below 256 (ASCII and Latin-1).  Fixed message texts that contain other
      characters are kept as their UTF-8 bytes; they are payloads only.
    - Python [float] values are the kernel's binary64 floats ([PrimFloat]), so
      that sums such as [0.2 + 0.4] round exactly as they do in CPython.
    - [urllib.parse.urlparse] is embedded from CPython 3.11.
    - The SQLite file is an in-memory value: one finite map per table with a
      UNIQUE key, one list per append-only table.  The engine itself is taken
      to be available, so the [except] branches that only guard [sqlite3]
      failures have no counterpart.
    - The remote services (URLhaus, PhishTank) and the clocks are an
      environment [env] given to every call; what the code distinguishes in a
      reply is what the environment may answer.
    - Exceptions are an explicit outcome; [analyze_url] wraps its body in the
      handler of the source.  A ghost trace records which collaborators a call
      invoked. *)

From Stdlib Require Import ZArith NArith List String Ascii Bool Lia Floats DecimalString.
From stdpp Require Import base option gmap strings list.

Set Warnings "-inexact-float".

Open Scope string_scope.

(* ===================================================================== *)
(** * Python primitives used by the sources                               *)
(* ===================================================================== *)

Module Py.

(** ** Characters and strings *)

Definition ord (c : ascii) : N := N_of_ascii c.

Definition in_range (lo hi : N) (c : ascii) : bool :=
  ((lo <=? ord c) && (ord c <=? hi))%N.

(** [str.lower] on one code point: A-Z, and the Latin-1 capitals
    U+00C0..U+00DE without the multiplication sign U+00D7. *)
Definition char_lower (c : ascii) : ascii :=
  if in_range 65 90 c || (in_range 192 222 c && negb (ord c =? 215)%N)
  then ascii_of_N (ord c + 32)
  else c.

Fixpoint lower (s : string) : string :=
  match s with
  | EmptyString => EmptyString
  | String c s' => String (char_lower c) (lower s')
  end.

(** [str.isspace] on one code point. *)
Definition isspace (c : ascii) : bool :=
  in_range 9 13 c || in_range 28 32 c || (ord c =? 133)%N || (ord c =? 160)%N.

Definition isdigit (c : ascii) : bool := in_range 48 57 c.

Definition isalpha_ascii (c : ascii) : bool :=
  in_range 65 90 c || in_range 97 122 c.

Definition isalnum_ascii (c : ascii) : bool := isalpha_ascii c || isdigit c.

Fixpoint lstrip_by (p : ascii -> bool) (s : string) : string :=
  match s with
  | EmptyString => EmptyString
  | String c s' => if p c then lstrip_by p s' else s
  end.

Definition rstrip_by (p : ascii -> bool) (s : string) : string :=
  String.rev (lstrip_by p (String.rev s)).

(** [s.strip()] *)
Definition strip (s : string) : string :=
  rstrip_by isspace (lstrip_by isspace s).

(** [s.startswith(p)] *)
Definition startswith (s p : string) : bool := String.prefix p s.

(** [sub in s] for strings *)
Fixpoint str_in (sub s : string) : bool :=
  String.prefix sub s
  || match s with
     | EmptyString => false
     | String _ s' => str_in sub s'
     end.

(** [c in s] for one character *)
Fixpoint char_in (c : ascii) (s : string) : bool :=
  match s with
  | EmptyString => false
  | String a s' => Ascii.eqb a c || char_in c s'
  end.

(** [s.split(c, 1)]: the text before the first [c], and the text after it
    when there is one. *)
Fixpoint split_once (c : ascii) (s : string) : string * option string :=
  match s with
  | EmptyString => (EmptyString, None)
  | String a s' =>
      if Ascii.eqb a c then (EmptyString, Some s')
      else let '(h, t) := split_once c s' in (String a h, t)
  end.

(** The text before the last [c] and the text after it, when there is one
    (the two outer parts of [s.rpartition(c)]). *)
Fixpoint rsplit_once (c : ascii) (s : string) : option (string * string) :=
  match s with
  | EmptyString => None
  | String a s' =>
      match rsplit_once c s' with
      | Some (h, t) => Some (String a h, t)
      | None => if Ascii.eqb a c then Some (EmptyString, s') else None
      end
  end.

(** [s.split(c)] *)
Fixpoint split (c : ascii) (s : string) : list string :=
  match s with
  | EmptyString => [EmptyString]
  | String a s' =>
      if Ascii.eqb a c then EmptyString :: split c s'
      else match split c s' with
           | h :: t => String a h :: t
           | [] => [String a EmptyString]
           end
  end.

(** [sep.join(l)] *)
Fixpoint join (sep : string) (l : list string) : string :=
  match l with
  | [] => EmptyString
  | [x] => x
  | x :: l' => x ++ sep ++ join sep l'
  end.

(** Removing every character that satisfies [p]. *)
Fixpoint remove_chars (p : ascii -> bool) (s : string) : string :=
  match s with
  | EmptyString => EmptyString
  | String a s' => if p a then remove_chars p s' else String a (remove_chars p s')
  end.

Fixpoint count_chars (p : ascii -> bool) (s : string) : nat :=
  match s with
  | EmptyString => 0
  | String a s' => (if p a then 1 else 0) + count_chars p s'
  end.

(** Number of occurrences of the character [c], that is
    [len(s.split(c)) - 1]. *)
Definition count_char (c : ascii) (s : string) : nat :=
  count_chars (Ascii.eqb c) s.

(** ** Floats *)

(** [min(a, b)]: the builtin keeps its first argument unless the second
    compares strictly smaller. *)
Definition min (a b : float) : float := if (b <? a)%float then b else a.

(** [max(a, b)]: the builtin keeps its first argument unless the second
    compares strictly greater. *)
Definition max (a b : float) : float := if (a <? b)%float then b else a.

(** [float(n)] for a length; exact below 2^53. *)
Definition float_of_nat (n : nat) : float :=
  PrimFloat.of_uint63 (Uint63.of_Z (Z.of_nat n)).

(** ** Exceptions *)

Inductive exn : Type :=
| ValueError (msg : string)
| ZeroDivisionError (msg : string)
| IndexError (msg : string).

(** [str(e)] *)
Definition str_of_exn (e : exn) : string :=
  match e with
  | ValueError m | ZeroDivisionError m | IndexError m => m
  end.

Inductive outcome (A : Type) : Type :=
| Normal (a : A)
| Raise (e : exn).
Arguments Normal {A} a.
Arguments Raise {A} e.

End Py.

(* ===================================================================== *)
(** * The fragment of [re] that the sources use                           *)
(* ===================================================================== *)

Module Re.

(** Patterns: literals, [.], [\d], concatenation, [|], [*] and [+]. *)
Inductive regex : Type :=
| Void                      (* matches nothing; only produced by derivatives *)
| Eps
| Chr (c : ascii)
| Dot                       (* any character but a newline *)
| Digit                     (* \d *)
| Seq (r1 r2 : regex)
| Alt (r1 r2 : regex)
| Star (r : regex).

Definition Plus (r : regex) : regex := Seq r (Star r).

Fixpoint Lit (s : string) : regex :=
  match s with
  | EmptyString => Eps
  | String c s' => Seq (Chr c) (Lit s')
  end.

Fixpoint nullable (r : regex) : bool :=
  match r with
  | Void | Chr _ | Dot | Digit => false
  | Eps | Star _ => true
  | Seq r1 r2 => nullable r1 && nullable r2
  | Alt r1 r2 => nullable r1 || nullable r2
  end.

Definition seq (r1 r2 : regex) : regex :=
  match r1, r2 with
  | Void, _ | _, Void => Void
  | Eps, r | r, Eps => r
  | _, _ => Seq r1 r2
  end.

Definition alt (r1 r2 : regex) : regex :=
  match r1, r2 with
  | Void, r | r, Void => r
  | _, _ => Alt r1 r2
  end.

(** One character against a pattern character; with [re.IGNORECASE] the two
    are compared after case folding. *)
Definition chr_matches (ignorecase : bool) (p a : ascii) : bool :=
  if ignorecase then Ascii.eqb (Py.char_lower p) (Py.char_lower a)
  else Ascii.eqb p a.

(** Brzozowski derivative of [r] by the character [a]. *)
Fixpoint deriv (ignorecase : bool) (a : ascii) (r : regex) : regex :=
  match r with
  | Void | Eps => Void
  | Chr p => if chr_matches ignorecase p a then Eps else Void
  | Dot => if Ascii.eqb a "010"%char then Void else Eps
  | Digit => if Py.isdigit a then Eps else Void
  | Seq r1 r2 =>
      let d := seq (deriv ignorecase a r1) r2 in
      if nullable r1 then alt d (deriv ignorecase a r2) else d
  | Alt r1 r2 => alt (deriv ignorecase a r1) (deriv ignorecase a r2)
  | Star r1 => seq (deriv ignorecase a r1) (Star r1)
  end.

(** [re.match(r, s)] is not [None]: some prefix of [s] matches [r]. *)
Fixpoint match_ (ignorecase : bool) (r : regex) (s : string) : bool :=
  nullable r
  || match s with
     | EmptyString => false
     | String a s' => match_ ignorecase (deriv ignorecase a r) s'
     end.

(** [re.search(r, s)] is not [None]: [r] matches at some position of [s]. *)
Fixpoint search (ignorecase : bool) (r : regex) (s : string) : bool :=
  match_ ignorecase r s
  || match s with
     | EmptyString => false
     | String _ s' => search ignorecase r s'
     end.

End Re.

(* ===================================================================== *)
(** * Data: parse results, database rows, service replies, verdicts       *)
(* ===================================================================== *)

(** [urllib.parse.ParseResult] *)
Record ParseResult : Type := mkParseResult {
  scheme : string;
  netloc : string;
  path : string;
  params : string;
  query : string;
  fragment : string
}.

(** A row of the table [scam_urls].  [su_tags] is the JSON text column, kept
    as the list it encodes; [None] is SQL NULL. *)
Record scam_url : Type := mkScamUrl {
  su_id : Z;
  su_url_hash : string;
  su_original_url : string;
  su_domain : string;
  su_threat_type : string;
  su_confidence : float;
  su_source : string;
  su_tags : option (list string);
  su_first_seen : Z;
  su_last_seen : Z;
  su_report_count : Z;
  su_is_active : bool
}.

(** A row of the table [user_reports]. *)
Record user_report : Type := mkUserReport {
  ur_id : Z;
  ur_url_hash : string;
  ur_original_url : string;
  ur_description : string;
  ur_user_id : option string;
  ur_report_type : string;
  ur_status : string;
  ur_created_at : Z;
  ur_reviewed_at : option Z;
  ur_reviewed_by : option string
}.

(** A row of the table [detection_history]. *)
Record detection : Type := mkDetection {
  dh_id : Z;
  dh_url_hash : string;
  dh_original_url : string;
  dh_threat_level : string;
  dh_confidence : float;
  dh_detection_methods : list string;
  dh_is_suspicious : bool;
  dh_response_time_ms : option Z;
  dh_timestamp : Z
}.

(** The database file.  [scam_urls] is keyed by its UNIQUE column
    [url_hash]; the other two tables are only ever appended to.
    [scam_urls_seq] is the row of [sqlite_sequence] for [scam_urls]: the
    largest id that SQLite has handed out for the table, 0 before the
    first. *)
Record database : Type := mkDatabase {
  scam_urls : gmap string scam_url;
  user_reports : list user_report;
  detection_history : list detection;
  scam_urls_seq : Z
}.

Definition empty_database : database :=
  {| scam_urls := ∅; user_reports := []; detection_history := [];
     scam_urls_seq := 0%Z |}.

(** The dictionary returned by [check_url_in_database] on a hit. *)
Record DbResult : Type := mkDbResult {
  dr_is_malicious : bool;
  dr_url_hash : string;
  dr_original_url : string;
  dr_domain : string;
  dr_threat_type : string;
  dr_confidence : float;
  dr_source : string;
  dr_tags : list string;
  dr_first_seen : Z;
  dr_report_count : Z;
  dr_detection_method : string
}.

(** The dictionary returned by [add_user_report]. *)
Record ReportResult : Type := mkReportResult {
  rr_success : bool;
  rr_message : string;
  rr_report_id : option Z;
  rr_url_hash : option string
}.

(** What [session.post] may do: raise, or answer with a status code and a
    body that [response.json()] either decodes or rejects. *)
Inductive http_reply (J : Type) : Type :=
| RaiseTimeout                               (* requests.exceptions.Timeout *)
| RaiseConnectionError                       (* requests.exceptions.ConnectionError *)
| RaiseOther (msg : string)                  (* any other exception *)
| Response (status_code : Z) (json : string + J).
Arguments RaiseTimeout {J}.
Arguments RaiseConnectionError {J}.
Arguments RaiseOther {J} msg.
Arguments Response {J} status_code json.

(** The keys that the code reads in the JSON bodies; [None] is a missing key. *)
Record UrlInfo : Type := mkUrlInfo {
  ui_threat : option string
}.

Record urlhaus_url_json : Type := mkUrlhausUrlJson {
  uq_query_status : option string;
  uq_urls : option (list UrlInfo)
}.

Record urlhaus_host_json : Type := mkUrlhausHostJson {
  hq_query_status : option string;
  hq_url_count : option string
}.

Record phish_tank_json : Type := mkPhishTankJson {
  pt_in_database : option bool;
  pt_phish_id : option string;
  pt_verified : option bool
}.

(** The world around one call. *)
Record env : Type := mkEnv {
  auth_key : option string;          (* self.apis['urlhaus']['auth_key'] *)
  urlhaus_url_post : string -> http_reply urlhaus_url_json;
  urlhaus_host_post : string -> http_reply urlhaus_host_json;
  phish_tank_post : string -> http_reply phish_tank_json;
  time_time : float;                 (* time.time() *)
  current_timestamp : Z              (* SQLite's CURRENT_TIMESTAMP *)
}.

(** The dictionaries returned by the three service wrappers. *)
Record UrlhausResult : Type := mkUrlhausResult {
  uh_is_malicious : bool;
  uh_details : string;
  uh_threat : option string;
  uh_status : string
}.

Record HostResult : Type := mkHostResult {
  hr_success : bool;
  hr_is_malicious : option bool;     (* host_result.get('is_malicious') *)
  hr_url_count : option string       (* host_result.get('url_count') *)
}.

Record PhishTankResult : Type := mkPhishTankResult {
  pk_is_phishing : bool;
  pk_details : string;
  pk_verified : bool
}.

(** Ghost trace: the collaborators that a call of [analyze_url] invoked. *)
Inductive event : Type :=
| UrlhausUrlQuery (url : string)
| UrlhausHostQuery (host : string)
| PhishTankQuery (url : string)
| PatternAnalysis (url : string)
| StructureAnalysis (url : string)
| MyanmarAnalysis (url : string).

Record state : Type := mkState {
  db : database;
  trace : list event
}.

Definition empty_state : state := {| db := empty_database; trace := [] |}.

(** Threat levels, and the severity order
    critical > high > medium > safe > unknown. *)
Inductive level : Type := unknown | safe | medium | high | critical.

Definition severity (l : level) : nat :=
  match l with
  | unknown => 0 | safe => 1 | medium => 2 | high => 3 | critical => 4
  end.

Definition level_str (l : level) : string :=
  match l with
  | unknown => "unknown" | safe => "safe" | medium => "medium"
  | high => "high" | critical => "critical"
  end.

Definition level_eqb (a b : level) : bool := Nat.eqb (severity a) (severity b).

(** The more severe of two levels. *)
Definition level_max (a b : level) : level :=
  if Nat.ltb (severity a) (severity b) then b else a.

(** The working dictionary [results] of [analyze_url]. *)
Record Results : Type := mkResults {
  url : string;
  is_suspicious : bool;
  threat_level : level;
  detection_methods : list string;
  warnings : list string;
  confidence : float;
  analysis_time : float;
  message : option string
}.

(** Values stored in the dictionary that [analyze_url] returns. *)
Inductive pyval : Type :=
| VStr (s : string)
| VBool (b : bool)
| VFloat (x : float)
| VList (l : list string).

(** The returned [results] as a dictionary; [message] is set on every
    returning path before the dictionary leaves the function. *)
Definition results_dict (r : Results) : gmap string pyval :=
  let d : gmap string pyval :=
    <["url" := VStr (url r)]>
    (<["is_suspicious" := VBool (is_suspicious r)]>
    (<["threat_level" := VStr (level_str (threat_level r))]>
    (<["detection_methods" := VList (detection_methods r)]>
    (<["warnings" := VList (warnings r)]>
    (<["confidence" := VFloat (confidence r)]>
    (<["analysis_time" := VFloat (analysis_time r)]> ∅)))))) in
  match message r with
  | Some m => <["message" := VStr m]> d
  | None => d
  end.

(** [analyze_url] returns either the finished [results] or the dictionary
    built by its exception handler. *)
Inductive verdict : Type :=
| Analysed (r : Results)
| Failed (raw_url : string) (error : string).

Definition verdict_dict (v : verdict) : gmap string pyval :=
  match v with
  | Analysed r => results_dict r
  | Failed raw_url error =>
      <["url" := VStr raw_url]>
      (<["is_suspicious" := VBool false]>
      (<["threat_level" := VStr "unknown"]>
      (<["error" := VStr error]>
      (<["message" := VStr "Unable to analyze this URL at the moment."]> ∅))))
  end.


(** Updates of single keys of [results]. *)
Definition set_is_suspicious (b : bool) (r : Results) : Results :=
  {| url := url r; is_suspicious := b; threat_level := threat_level r;
     detection_methods := detection_methods r; warnings := warnings r;
     confidence := confidence r; analysis_time := analysis_time r;
     message := message r |}.

Definition set_threat_level (l : level) (r : Results) : Results :=
  {| url := url r; is_suspicious := is_suspicious r; threat_level := l;
     detection_methods := detection_methods r; warnings := warnings r;
     confidence := confidence r; analysis_time := analysis_time r;
     message := message r |}.

Definition append_method (m : string) (r : Results) : Results :=
  {| url := url r; is_suspicious := is_suspicious r; threat_level := threat_level r;
     detection_methods := detection_methods r ++ [m]; warnings := warnings r;
     confidence := confidence r; analysis_time := analysis_time r;
     message := message r |}.

Definition append_warning (w : string) (r : Results) : Results :=
  {| url := url r; is_suspicious := is_suspicious r; threat_level := threat_level r;
     detection_methods := detection_methods r; warnings := warnings r ++ [w];
     confidence := confidence r; analysis_time := analysis_time r;
     message := message r |}.

Definition set_confidence (c : float) (r : Results) : Results :=
  {| url := url r; is_suspicious := is_suspicious r; threat_level := threat_level r;
     detection_methods := detection_methods r; warnings := warnings r;
     confidence := c; analysis_time := analysis_time r;
     message := message r |}.

(** [results['confidence'] += x] *)
Definition add_confidence (x : float) (r : Results) : Results :=
  set_confidence (confidence r + x)%float r.

Definition set_message (m : string) (r : Results) : Results :=
  {| url := url r; is_suspicious := is_suspicious r; threat_level := threat_level r;
     detection_methods := detection_methods r; warnings := warnings r;
     confidence := confidence r; analysis_time := analysis_time r;
     message := Some m |}.

(** Truthiness of a string, and comparison of an optional JSON string. *)
Definition nonempty (s : string) : bool :=
  match s with EmptyString => false | String _ _ => true end.

Definition is_str (o : option string) (s : string) : bool :=
  match o with Some x => String.eqb x s | None => false end.

(** [x in l] for a list of strings *)
Definition list_in (x : string) (l : list string) : bool :=
  existsb (String.eqb x) l.

(** [str(n)] for an integer *)
Definition str_of_Z (n : Z) : string :=
  DecimalString.NilZero.string_of_int (Z.to_int n).

(** The state and exception monad of [analyze_url]. *)
Definition M (A : Type) : Type := state -> Py.outcome A * state.

#[global] Instance M_ret : MRet M :=
  fun A (a : A) (st : state) => (Py.Normal a, st).

#[global] Instance M_bind : MBind M :=
  fun A B (f : A -> M B) (m : M A) (st : state) =>
    match m st with
    | (Py.Normal a, st') => f a st'
    | (Py.Raise e, st') => (Py.Raise e, st')
    end.

(** A pure computation that may raise. *)
Definition lift {A : Type} (o : Py.outcome A) : M A := fun st => (o, st).

(** A database operation; none of them raises. *)
Definition on_db {A : Type} (f : database -> A * database) : M A :=
  fun st =>
    let '(a, d) := f (db st) in
    (Py.Normal a, {| db := d; trace := trace st |}).

(** Recording an invocation in the ghost trace. *)
Definition invoke (ev : event) : M unit :=
  fun st => (Py.Normal tt, {| db := db st; trace := trace st ++ [ev] |}).

(** [try: m  except Exception as e: h e] *)
Definition try_except {A : Type} (m : M A) (h : Py.exn -> M A) : M A :=
  fun st =>
    match m st with
    | (Py.Normal a, st') => (Py.Normal a, st')
    | (Py.Raise e, st') => h e st'
    end.

(* ===================================================================== *)
(** * The code                                                            *)
(* ===================================================================== *)

Section Model.

(** Three library functions are taken as given:
    [hashlib.sha256(s.encode()).hexdigest()];
    [urllib.parse._check_bracketed_netloc], which answers with the message of
    the [ValueError] it raises, if any; and
    [datetime.strptime(s, '%Y-%m-%d %H:%M:%S')], which answers with the
    parsed instant in microseconds, or nothing where it raises [ValueError]. *)
Variable sha256_hexdigest : string -> string.
Variable check_bracketed_netloc : string -> option string.
Variable strptime : string -> option Z.

(** ** [urllib.parse] (CPython 3.11) *)

Definition c0_control_or_space (c : ascii) : bool := (Py.ord c <=? 32)%N.

Definition unsafe_url_byte (c : ascii) : bool :=
  Ascii.eqb c "009"%char || Ascii.eqb c "013"%char || Ascii.eqb c "010"%char.

Definition scheme_char (c : ascii) : bool :=
  Py.isalnum_ascii c || Py.char_in c "+-.".

Fixpoint forall_chars (p : ascii -> bool) (s : string) : bool :=
  match s with
  | EmptyString => true
  | String a s' => p a && forall_chars p s'
  end.

Definition uses_params : list string :=
  [""; "ftp"; "hdl"; "prospero"; "http"; "imap"; "https"; "shttp"; "rtsp";
   "rtspu"; "sip"; "sips"; "mms"; "sftp"; "tel"].

(** [_splitnetloc(url, 2)], given [url[2:]]: the text up to the first of
    [/], [?] and [#], and the text from that delimiter on. *)
Fixpoint _splitnetloc (s : string) : string * string :=
  match s with
  | EmptyString => (EmptyString, EmptyString)
  | String a s' =>
      if Py.char_in a "/?#" then (EmptyString, s)
      else let '(h, t) := _splitnetloc s' in (String a h, t)
  end.

(** The scheme of [url] and the text after its colon, when the text before
    the first colon is a well-formed scheme. *)
Definition split_scheme (url : string) : string * string :=
  match Py.split_once ":" url with
  | (String c0 pre, Some rest) =>
      if Py.isalpha_ascii c0 && forall_chars scheme_char (String c0 pre)
      then (Py.lower (String c0 pre), rest)
      else (EmptyString, url)
  | _ => (EmptyString, url)
  end.

(** The tail of [urlsplit]: fragment first, then query. *)
Definition split_fragment_query (url : string) : string * string * string :=
  let '(url, fragment) := Py.split_once "#" url in
  let '(url, query) := Py.split_once "?" url in
  (url, default EmptyString query, default EmptyString fragment).

(** [urlsplit(url)]: scheme, netloc, path, query, fragment.  The final
    [_checknetloc] never raises on code points below 256. *)
Definition urlsplit (url : string)
  : Py.outcome (string * string * string * string * string) :=
  let url := Py.lstrip_by c0_control_or_space url in
  let url := Py.remove_chars unsafe_url_byte url in
  let '(scheme, url) := split_scheme url in
  let finish (netloc url : string) :=
    let '(path, query, fragment) := split_fragment_query url in
    Py.Normal (scheme, netloc, path, query, fragment) in
  match url with
  | String "/" (String "/" rest) =>
      let '(netloc, url) := _splitnetloc rest in
      let has_open := Py.char_in "[" netloc in
      let has_close := Py.char_in "]" netloc in
      if (has_open && negb has_close) || (has_close && negb has_open)
      then Py.Raise (Py.ValueError "Invalid IPv6 URL")
      else if has_open && has_close
      then match check_bracketed_netloc netloc with
           | Some msg => Py.Raise (Py.ValueError msg)
           | None => finish netloc url
           end
      else finish netloc url
  | _ => finish EmptyString url
  end.

(** [_splitparams(url)] *)
Definition _splitparams (url : string) : string * string :=
  if Py.char_in "/" url
  then
    (* i = url.find(';', url.rfind('/')) *)
    match Py.rsplit_once "/" url with
    | Some (head, last) =>
        match Py.split_once ";" last with
        | (before, Some after) => (head ++ "/" ++ before, after)
        | (_, None) => (url, EmptyString)
        end
    | None => (url, EmptyString)
    end
  else
    (* i = url.find(';') *)
    match Py.split_once ";" url with
    | (before, Some after) => (before, after)
    | (_, None) =>
        (String.substring 0 (String.length url - 1) url, url)
    end.

(** [urlparse(url)] *)
Definition urlparse (url : string) : Py.outcome ParseResult :=
  match urlsplit url with
  | Py.Raise e => Py.Raise e
  | Py.Normal (scheme, netloc, url, query, fragment) =>
      let '(url, params) :=
        if list_in scheme uses_params && Py.char_in ";" url
        then _splitparams url
        else (url, EmptyString) in
      Py.Normal {| scheme := scheme; netloc := netloc; path := url;
                   params := params; query := query; fragment := fragment |}
  end.

(** ** [database.py] *)

(** [PhishGuardDatabase._hash_url] *)
Definition _hash_url (url : string) : string :=
  let normalized := Py.strip (Py.lower url) in
  let normalized :=
    if negb (Py.startswith normalized "http://" || Py.startswith normalized "https://")
    then "https://" ++ normalized
    else normalized in
  sha256_hexdigest normalized.

(** The largest [id] of [scam_urls], 0 for an empty table. *)
Definition largest_scam_url_id (d : database) : Z :=
  map_fold (fun _ row largest => Z.max (su_id row) largest) 0%Z (scam_urls d).

(** AUTOINCREMENT ids.  An INSERT into [scam_urls] takes an id one larger
    than every id of the table and than the sequence, and the sequence keeps
    it, also when the statement is an INSERT OR IGNORE that writes no row.
    The other two tables are written by plain INSERTs only, and no row of
    them is ever deleted by the core. *)
Definition next_scam_url_id (d : database) : Z :=
  Z.max (scam_urls_seq d) (largest_scam_url_id d) + 1.
Definition next_user_report_id (d : database) : Z := Z.of_nat (length (user_reports d)) + 1.
Definition next_detection_id (d : database) : Z := Z.of_nat (length (detection_history d)) + 1.

(** [INSERT OR IGNORE INTO scam_urls (url_hash, original_url, domain,
    threat_type, source, tags, confidence) VALUES ...]; the unnamed columns
    take their declared defaults.  The flag tells whether a row was written;
    the id is consumed either way. *)
Definition insert_or_ignore_scam_url (e : env)
    (url_hash original_url domain threat_type source : string)
    (tags : option (list string)) (conf : float) (d : database)
  : bool * database :=
  match scam_urls d !! url_hash with
  | Some _ =>
      (false, {| scam_urls := scam_urls d;
                 user_reports := user_reports d;
                 detection_history := detection_history d;
                 scam_urls_seq := next_scam_url_id d |})
  | None =>
      let row :=
        {| su_id := next_scam_url_id d;
           su_url_hash := url_hash;
           su_original_url := original_url;
           su_domain := domain;
           su_threat_type := threat_type;
           su_confidence := conf;
           su_source := source;
           su_tags := tags;
           su_first_seen := current_timestamp e;
           su_last_seen := current_timestamp e;
           su_report_count := 1;
           su_is_active := true |} in
      (true, {| scam_urls := <[url_hash := row]> (scam_urls d);
                user_reports := user_reports d;
                detection_history := detection_history d;
                scam_urls_seq := next_scam_url_id d |})
  end.

(** One row after [SET last_seen = CURRENT_TIMESTAMP,
    report_count = report_count + 1]. *)
Definition bump (e : env) (row : scam_url) : scam_url :=
  {| su_id := su_id row;
     su_url_hash := su_url_hash row;
     su_original_url := su_original_url row;
     su_domain := su_domain row;
     su_threat_type := su_threat_type row;
     su_confidence := su_confidence row;
     su_source := su_source row;
     su_tags := su_tags row;
     su_first_seen := su_first_seen row;
     su_last_seen := current_timestamp e;
     su_report_count := su_report_count row + 1;
     su_is_active := su_is_active row |}.

(** [UPDATE scam_urls SET last_seen = ..., report_count = ... WHERE url_hash = ?] *)
Definition update_seen (e : env) (url_hash : string) (d : database) : database :=
  {| scam_urls := alter (bump e) url_hash (scam_urls d);
     user_reports := user_reports d;
     detection_history := detection_history d;
     scam_urls_seq := scam_urls_seq d |}.

Definition default_scams : list (string * string * string * list string) :=
  [ ("https://kbz-verify-account.secure-banking.cf", "phishing", "kbz_bank", ["myanmar"; "bank"; "kbz"]);
    ("https://myanmar-lottery-winner.com", "scam", "lottery", ["myanmar"; "lottery"; "fake"]);
    ("https://kbz-bank-secure-login.tk", "phishing", "kbz_bank", ["myanmar"; "bank"; "kbz"]);
    ("https://myanmar-inheritance-claim.ml", "scam", "inheritance", ["myanmar"; "inheritance"; "fake"]);
    ("https://police-myanmar-court-case.cf", "scam", "police", ["myanmar"; "police"; "court"]);
    ("https://facebook-login-secure.com", "phishing", "facebook", ["social"; "login"; "fake"]);
    ("https://google-account-verify.tk", "phishing", "google", ["google"; "account"; "fake"]);
    ("https://paypal-secure-login.ml", "phishing", "paypal", ["payment"; "paypal"; "fake"]);
    ("https://amazon-account-verify.cf", "phishing", "amazon", ["shopping"; "amazon"; "fake"]);
    ("https://free-software-download.tk", "malware", "software", ["malware"; "fake_software"]);
    ("https://cracked-games-free.ml", "malware", "games", ["malware"; "piracy"; "fake"]);
    ("https://adult-content-free.cf", "malware", "adult", ["malware"; "adult"; "fake"]) ].

(** [add_default_scam_urls]: one transaction; an exception rolls it back and
    is logged. *)
Definition add_default_scam_urls (e : env) (d : database) : database :=
  let step (acc : Py.outcome database) (item : string * string * string * list string) :=
    match acc with
    | Py.Raise ex => Py.Raise ex
    | Py.Normal d =>
        let '(url, threat_type, source, tags) := item in
        let url_hash := _hash_url url in
        match urlparse url with
        | Py.Raise ex => Py.Raise ex
        | Py.Normal parsed =>
            Py.Normal (insert_or_ignore_scam_url e url_hash url (netloc parsed)
                         threat_type source (Some tags) 0.9%float d).2
        end
    end in
  match fold_left step default_scams (Py.Normal d) with
  | Py.Normal d' => d'
  | Py.Raise _ => d
  end.

(** The dictionary of a hit, as [check_url_in_database] builds it from a row. *)
Definition db_result_of (result : scam_url) : DbResult :=
  {| dr_is_malicious := true;
     dr_url_hash := su_url_hash result;
     dr_original_url := su_original_url result;
     dr_domain := su_domain result;
     dr_threat_type := su_threat_type result;
     dr_confidence := su_confidence result;
     dr_source := su_source result;
     dr_tags := default [] (su_tags result);
     dr_first_seen := su_first_seen result;
     dr_report_count := su_report_count result;
     dr_detection_method := "local_database" |}.

(** [check_url_in_database] *)
Definition check_url_in_database (e : env) (url : string) (d : database)
  : option DbResult * database :=
  let url_hash := _hash_url url in
  (* SELECT ... FROM scam_urls WHERE url_hash = ? AND is_active = 1 *)
  match scam_urls d !! url_hash with
  | Some result =>
      if su_is_active result then
        (Some (db_result_of result),
         update_seen e url_hash d)
      else (None, d)
  | None => (None, d)
  end.

(** [add_user_report] *)
Definition add_user_report (e : env) (url description : string)
    (user_id : option string) (d : database) : ReportResult * database :=
  let url_hash := _hash_url url in
  match urlparse url with
  | Py.Raise ex =>
      ({| rr_success := false;
          rr_message := "Error adding report: " ++ Py.str_of_exn ex;
          rr_report_id := None;
          rr_url_hash := None |}, d)
  | Py.Normal parsed =>
      let domain := netloc parsed in
      (* Add to user_reports table *)
      let report :=
        {| ur_id := next_user_report_id d;
           ur_url_hash := url_hash;
           ur_original_url := url;
           ur_description := description;
           ur_user_id := user_id;
           ur_report_type := "scam";
           ur_status := "pending";
           ur_created_at := current_timestamp e;
           ur_reviewed_at := None;
           ur_reviewed_by := None |} in
      let d1 :=
        {| scam_urls := scam_urls d;
           user_reports := user_reports d ++ [report];
           detection_history := detection_history d;
           scam_urls_seq := scam_urls_seq d |} in
      (* Add to scam_urls table if not exists *)
      let '(inserted, d2) :=
        insert_or_ignore_scam_url e url_hash url domain
          "user_reported" "user_report" None 0.7%float d1 in
      (* If URL already exists, update report count *)
      let d3 := update_seen e url_hash d2 in
      (* cursor.lastrowid: the row id of the last INSERT that wrote a row *)
      let lastrowid := if inserted then next_scam_url_id d1 else ur_id report in
      ({| rr_success := true;
          rr_message := "Report added successfully";
          rr_report_id := Some lastrowid;
          rr_url_hash := Some url_hash |}, d3)
  end.

(** [log_detection] *)
Definition log_detection (e : env) (url : string) (threat_level : string)
    (confidence : float) (detection_methods : list string) (is_suspicious : bool)
    (response_time_ms : option Z) (d : database) : database :=
  let url_hash := _hash_url url in
  let row :=
    {| dh_id := next_detection_id d;
       dh_url_hash := url_hash;
       dh_original_url := url;
       dh_threat_level := threat_level;
       dh_confidence := confidence;
       dh_detection_methods := detection_methods;
       dh_is_suspicious := is_suspicious;
       dh_response_time_ms := response_time_ms;
       dh_timestamp := current_timestamp e |} in
  {| scam_urls := scam_urls d;
     user_reports := user_reports d;
     detection_history := detection_history d ++ [row];
     scam_urls_seq := scam_urls_seq d |}.

(** ** [urlhaus_integration.py] *)

(** [status_modifiers.get(url_status, -0.2)] *)
Definition status_modifiers : list (string * float) :=
  [ ("online", 0.0%float); ("offline", (-0.1)%float); ("unknown", (-0.2)%float) ].

Fixpoint dict_get {V : Type} (d : list (string * V)) (k : string) (dflt : V) : V :=
  match d with
  | [] => dflt
  | (k', v) :: d' => if String.eqb k' k then v else dict_get d' k dflt
  end.

Definition high_risk_tags : list string :=
  ["exe"; "dll"; "zip"; "rar"; "malware"; "trojan"; "ransomware"].

(** [(datetime.now() - added_date).days], instants in microseconds. *)
Definition timedelta_days (now added : Z) : Z := (now - added) / 86400000000.

(** [URLhausClient._calculate_confidence]; [now] is [datetime.now()]. *)
Definition _calculate_confidence (now : Z) (url_status date_added : string)
    (tags : list string) : float :=
  let base_confidence := 0.9%float in
  let confidence := (base_confidence + dict_get status_modifiers url_status (-0.2))%float in
  let confidence :=
    if nonempty date_added then
      match strptime date_added with
      | Some added_date =>
          let days_old := timedelta_days now added_date in
          if (days_old >? 30)%Z then (confidence - 0.1)%float else confidence
      | None => confidence
      end
    else confidence in
  let confidence :=
    if existsb (fun tag => list_in tag tags) high_risk_tags
    then Py.min 0.95%float (confidence + 0.05)%float
    else confidence in
  Py.max 0.0%float (Py.min 1.0%float confidence).

(** ** [phish_core.py] *)

(** [a.*b] *)
Definition gap (a b : string) : Re.regex :=
  Re.Seq (Re.Lit a) (Re.Seq (Re.Star Re.Dot) (Re.Lit b)).

(** [self.threat_patterns] *)
Definition threat_patterns : list Re.regex :=
  [ Re.Alt (Re.Lit "bit.ly") (Re.Alt (Re.Lit "goo.gl") (Re.Lit "tinyurl.com"));
    Re.Alt (gap "facebook" "login") (gap "fb" "login");
    Re.Alt (gap "bank" "verify") (gap "account" "secure");
    Re.Alt (gap "free" "gift") (gap "win" "prize");
    Re.Alt (gap "urgent" "action") (gap "immediate" "response");
    Re.Alt (gap "myanmar" "bank") (gap "kbz" "verify");
    Re.Alt (gap "game" "hack") (gap "free" "diamonds");
    Re.Alt (gap "investment" "profit") (gap "money" "double") ].

(** [self.myanmar_scam_keywords] *)
Definition myanmar_scam_keywords : list string :=
  [ "kbz"; "ayeyarwady"; "cb"; "mab"; "uab"; "yoma"; "kanbawza";
    "myanmar"; "burma"; "yangon"; "mandalay"; "naypyidaw";
    "kyat"; "mmk"; "myanmar kyat"; "dollar"; "usd";
    "lottery"; "sweepstakes"; "inheritance"; "refund";
    "tax"; "customs"; "immigration"; "police"; "court" ].

(** The local list [myanmar_patterns] of both analyzers that use it. *)
Definition myanmar_patterns : list Re.regex :=
  [ Re.Alt (gap "kbz" "verify") (gap "kbz" "secure");
    Re.Seq (Re.Lit "myanmar")
      (Re.Seq (Re.Star Re.Dot)
         (Re.Seq (Re.Lit "bank") (Re.Seq (Re.Star Re.Dot) (Re.Lit "login"))));
    Re.Alt (gap "lottery" "myanmar") (gap "sweepstakes" "burma");
    Re.Alt (gap "inheritance" "myanmar") (gap "refund" "kyat");
    Re.Alt (gap "police" "myanmar") (gap "court" "yangon") ].

Definition suspicious_tlds : list string := [".tk"; ".ml"; ".ga"; ".cf"; ".gq"].

(** [for pattern in patterns: if re.search(pattern, s, re.IGNORECASE):
    score += step] *)
Definition add_per_match (patterns : list Re.regex) (s : string) (step : float)
    (score : float) : float :=
  fold_left
    (fun score pattern =>
       if Re.search true pattern s then (score + step)%float else score)
    patterns score.

(** A character matched by [[^a-zA-Z0-9./-]] *)
Definition special_char (c : ascii) : bool :=
  negb (Py.isalnum_ascii c || Py.char_in c "./-").

(** [_normalize_url] *)
Definition tracking_params : list string :=
  ["utm_source"; "utm_medium"; "utm_campaign"; "ref"; "source"].

Definition _normalize_url (url : string) : Py.outcome string :=
  let url :=
    if negb (Py.startswith url "http://" || Py.startswith url "https://")
    then "https://" ++ url
    else url in
  (* Remove common tracking parameters *)
  match urlparse url with
  | Py.Raise e => Py.Raise e
  | Py.Normal parsed =>
      let query_params :=
        if nonempty (query parsed) then Py.split "&" (query parsed) else [] in
      let filtered_params :=
        List.filter
          (fun p => negb (existsb (fun tp => Py.str_in tp p) tracking_params))
          query_params in
      let clean_query :=
        match filtered_params with
        | [] => EmptyString
        | _ => Py.join "&" filtered_params
        end in
      let clean_url := scheme parsed ++ "://" ++ netloc parsed ++ path parsed in
      Py.Normal (if nonempty clean_query then clean_url ++ "?" ++ clean_query
                 else clean_url)
  end.

(** [_pattern_analysis] *)
Definition _pattern_analysis (url : string) : Py.outcome float :=
  let score := 0.0%float in
  let url_lower := Py.lower url in
  (* Check for URL shorteners *)
  let score :=
    if existsb (fun pattern => Py.str_in pattern url_lower)
         ["bit.ly"; "goo.gl"; "tinyurl.com"; "t.co"]
    then (score + 0.3)%float else score in
  (* Check for suspicious keywords *)
  let score := add_per_match threat_patterns url_lower 0.2%float score in
  (* Check for excessive special characters *)
  match String.length url with
  | O => Py.Raise (Py.ZeroDivisionError "division by zero")
  | S _ =>
      let special_char_ratio :=
        (Py.float_of_nat (Py.count_chars special_char url)
         / Py.float_of_nat (String.length url))%float in
      let score :=
        if (0.3 <? special_char_ratio)%float then (score + 0.2)%float else score in
      (* Check for suspicious TLDs *)
      let score :=
        if existsb (fun tld => Py.str_in tld url_lower) suspicious_tlds
        then (score + 0.4)%float else score in
      (* Check for Myanmar-specific scam patterns *)
      let score := add_per_match myanmar_patterns url_lower 0.5%float score in
      Py.Normal (Py.min score 1.0%float)
  end.

(** The pattern [\d+\.\d+\.\d+\.\d+] *)
Definition dotted_quad : Re.regex :=
  Re.Seq (Re.Plus Re.Digit)
    (Re.Seq (Re.Chr ".")
       (Re.Seq (Re.Plus Re.Digit)
          (Re.Seq (Re.Chr ".")
             (Re.Seq (Re.Plus Re.Digit)
                (Re.Seq (Re.Chr ".") (Re.Plus Re.Digit)))))).

(** [_analyze_url_structure] *)
Definition _analyze_url_structure (url : string) : Py.outcome float :=
  let score := 0.0%float in
  match urlparse url with
  | Py.Raise e => Py.Raise e
  | Py.Normal parsed =>
      (* Check domain length *)
      let score :=
        if (50 <? String.length (netloc parsed))%nat then (score + 0.2)%float else score in
      (* Check for IP addresses instead of domains *)
      let score :=
        if Re.match_ false dotted_quad (netloc parsed) then (score + 0.4)%float else score in
      (* Check for suspicious TLDs *)
      let score :=
        if existsb (fun tld => Py.str_in tld (netloc parsed)) suspicious_tlds
        then (score + 0.3)%float else score in
      (* Check for excessive subdomains *)
      let subdomain_count := Py.count_char "." (netloc parsed) in
      let score := if (3 <? subdomain_count)%nat then (score + 0.2)%float else score in
      Py.Normal (Py.min score 1.0%float)
  end.

(** [_detect_myanmar_scams] *)
Definition _detect_myanmar_scams (url : string) : float :=
  let score := 0.0%float in
  let url_lower := Py.lower url in
  (* Check for Myanmar-specific keywords *)
  let myanmar_matches :=
    length (List.filter (fun keyword => Py.str_in keyword url_lower) myanmar_scam_keywords) in
  let score := if (0 <? myanmar_matches)%nat then (score + 0.3)%float else score in
  (* Check for common Myanmar scam patterns *)
  let score := add_per_match myanmar_patterns url_lower 0.4%float score in
  Py.min score 1.0%float.

(** [if not auth_key] *)
Definition auth_key_set (e : env) : bool :=
  match auth_key e with
  | Some k => nonempty k
  | None => false
  end.

Definition not_malicious (details status : string) : UrlhausResult :=
  {| uh_is_malicious := false; uh_details := details; uh_threat := None;
     uh_status := status |}.

Definition unexpected_error (msg : string) : UrlhausResult :=
  not_malicious ("Unexpected error: " ++ msg ++ " - falling back to other methods") "error".

(** [_check_urlhaus] *)
Definition _check_urlhaus (e : env) (url : string) : M UrlhausResult :=
  if negb (auth_key_set e)
  then mret (not_malicious "URLhaus not configured" "not_configured")
  else
    _ ← invoke (UrlhausUrlQuery url);
    mret
      match urlhaus_url_post e url with
      | RaiseTimeout =>
          not_malicious "API timeout - falling back to other methods" "timeout"
      | RaiseConnectionError =>
          not_malicious "Connection error - falling back to other methods" "connection_error"
      | RaiseOther msg => unexpected_error msg
      | Response status_code body =>
          if (status_code =? 200)%Z then
            match body with
            | inl msg => unexpected_error msg
            | inr result =>
                if is_str (uq_query_status result) "ok" then
                  (* url_info = result.get('urls', [{}])[0] *)
                  let detected (url_info : UrlInfo) :=
                    {| uh_is_malicious := true;
                       uh_details := "🚨 MALWARE DETECTED - Threat: "
                                     ++ default "unknown" (ui_threat url_info);
                       uh_threat := ui_threat url_info;
                       uh_status := "detected" |} in
                  match uq_urls result with
                  | None => detected {| ui_threat := None |}
                  | Some [] => unexpected_error "list index out of range"
                  | Some (url_info :: _) => detected url_info
                  end
                else if is_str (uq_query_status result) "no_results" then
                  not_malicious "✅ URL not found in malware database" "clean"
                else
                  not_malicious
                    ("API error: " ++ default "None" (uq_query_status result))
                    "api_error"
            end
          else if (status_code =? 401)%Z then
            not_malicious "Invalid auth key - check configuration" "auth_error"
          else if (status_code =? 429)%Z then
            not_malicious "Rate limit exceeded - falling back to other methods" "rate_limited"
          else
            not_malicious
              ("HTTP error " ++ str_of_Z status_code ++ " - falling back to other methods")
              "http_error"
      end.

Definition host_failed : HostResult :=
  {| hr_success := false; hr_is_malicious := None; hr_url_count := None |}.

(** [check_urlhaus_host] *)
Definition check_urlhaus_host (e : env) (host : string) : M HostResult :=
  if negb (auth_key_set e)
  then mret host_failed
  else
    _ ← invoke (UrlhausHostQuery host);
    mret
      match urlhaus_host_post e host with
      | Response status_code (inr result) =>
          if (status_code =? 200)%Z then
            if is_str (hq_query_status result) "ok" then
              {| hr_success := true; hr_is_malicious := Some true;
                 hr_url_count := Some (default "0" (hq_url_count result)) |}
            else if is_str (hq_query_status result) "no_results" then
              {| hr_success := true; hr_is_malicious := Some false;
                 hr_url_count := None |}
            else host_failed
          else host_failed
      | _ => host_failed
      end.

(** [_check_phish_tank] *)
Definition _check_phish_tank (e : env) (url : string) : M PhishTankResult :=
  _ ← invoke (PhishTankQuery url);
  mret
    match phish_tank_post e url with
    | Response status_code (inr result) =>
        if (status_code =? 200)%Z then
          {| pk_is_phishing := default false (pt_in_database result);
             pk_details := default "Unknown" (pt_phish_id result);
             pk_verified := default false (pt_verified result) |}
        else
          {| pk_is_phishing := false; pk_details := "API unavailable"; pk_verified := false |}
    | _ =>
        {| pk_is_phishing := false; pk_details := "API unavailable"; pk_verified := false |}
    end.

(** [_generate_response_message] *)
Definition _generate_response_message (results : Results) : string :=
  let detection_methods := detection_methods results in
  match threat_level results with
  | critical =>
      if list_in "urlhaus" detection_methods then
        "🚨 CRITICAL WARNING: This link has been confirmed as MALWARE by URLhaus! Do NOT click it. Report it immediately."
      else if list_in "phish_tank" detection_methods then
        "🚨 CRITICAL WARNING: This link has been confirmed as a phishing scam! Do NOT click it. Report it immediately."
      else
        "🚨 CRITICAL WARNING: This link has been confirmed as dangerous! Do NOT click it. Report it immediately."
  | high =>
      if list_in "urlhaus_host" detection_methods then
        "⚠️ HIGH RISK: This domain hosts multiple malware URLs. We strongly recommend avoiding this link."
      else if list_in "myanmar_specific" detection_methods then
        "⚠️ HIGH RISK: This link matches Myanmar-specific scam patterns. We recommend avoiding it and reporting it."
      else
        "⚠️ HIGH RISK: This link shows strong signs of being a scam. We recommend avoiding it and reporting it."
  | medium =>
      if list_in "pattern_analysis" detection_methods then
        "⚠️ SUSPICIOUS: This link has concerning characteristics (URL shortener, suspicious patterns). Please be very careful and verify the source."
      else
        "⚠️ SUSPICIOUS: This link has some concerning characteristics. Please be very careful and verify the source."
  | safe =>
      if list_in "urlhaus" detection_methods then
        "✅ SAFE: This link has been checked against URLhaus malware database and appears safe, but always remain cautious."
      else
        "✅ SAFE: This link appears to be safe, but always remain cautious and verify the source."
  | unknown =>
      "❓ UNKNOWN: We couldn't determine the safety of this link. Please use caution and verify the source."
  end.

(** *** [analyze_url]

    The body of [analyze_url] is one sequence of methods.  Each method's
    update of [results] is named here, so that it can be talked about on its
    own; [analyze_url_body] below strings them together in source order. *)

Definition initial_results (normalized_url : string) (now : float) : Results :=
  {| url := normalized_url;
     is_suspicious := false;
     threat_level := safe;
     detection_methods := [];
     warnings := [];
     confidence := 0.0%float;
     analysis_time := now;
     message := None |}.

(** Method 1: Local Database Check *)
Definition method1_local_database (db_result : DbResult) (results : Results) : Results :=
  let results := set_is_suspicious true results in
  let results := set_threat_level critical results in
  let results := append_method "local_database" results in
  let results := add_confidence (dr_confidence db_result) results in
  append_warning
    ("🚨 Local DB: " ++ dr_threat_type db_result ++ " - " ++ dr_source db_result)
    results.

(** Method 2: URLhaus API check, entered when [is_malicious] holds *)
Definition method2_urlhaus (urlhaus_result : UrlhausResult) (results : Results) : Results :=
  let results := set_is_suspicious true results in
  let results := set_threat_level critical results in
  let results := append_method "urlhaus" results in
  let results := add_confidence 0.95%float results in
  append_warning ("🚨 URLhaus: " ++ uh_details urlhaus_result) results.

(** [host_result.get('success') and host_result.get('is_malicious')] *)
Definition host_is_malicious (host_result : HostResult) : bool :=
  hr_success host_result
  && match hr_is_malicious host_result with Some b => b | None => false end.

(** Method 2, the host check made after a URLhaus detection *)
Definition method2_host_extra (host_result : HostResult) (results : Results) : Results :=
  if host_is_malicious host_result then
    let results :=
      if negb (list_in "urlhaus_host" (detection_methods results)) then
        let results := append_method "urlhaus_host" results in
        add_confidence 0.1%float results
      else results in
    let url_count := default "0" (hr_url_count host_result) in
    append_warning
      ("URLhaus Host: " ++ url_count ++ " malware URLs found on this domain") results
  else results.

(** Method 2: URLhaus host check *)
Definition method2_urlhaus_host (host_result : HostResult) (results : Results) : Results :=
  if host_is_malicious host_result then
    let results := set_is_suspicious true results in
    let results := set_threat_level high results in
    let results := append_method "urlhaus_host" results in
    let results := add_confidence 0.85%float results in
    let url_count := default "0" (hr_url_count host_result) in
    append_warning
      ("⚠️ URLhaus Host: " ++ url_count ++ " malware URLs found on this domain") results
  else results.

(** Method 3: PhishTank API check *)
Definition method3_phish_tank (phish_tank_result : PhishTankResult) (results : Results)
  : Results :=
  if pk_is_phishing phish_tank_result then
    let results := set_is_suspicious true results in
    let results :=
      if level_eqb (threat_level results) safe then set_threat_level critical results
      else if level_eqb (threat_level results) high then set_threat_level critical results
      else results in
    let results := append_method "phish_tank" results in
    let results := add_confidence 0.8%float results in
    append_warning ("PhishTank: " ++ pk_details phish_tank_result) results
  else results.

(** Method 4: Pattern-based detection *)
Definition method4_pattern (pattern_score : float) (results : Results) : Results :=
  if (0.3 <? pattern_score)%float then
    let results := set_is_suspicious true results in
    let results :=
      if level_eqb (threat_level results) safe then
        if (0.7 <? pattern_score)%float then set_threat_level high results
        else set_threat_level medium results
      else results in
    let results := append_method "pattern_analysis" results in
    add_confidence (pattern_score * 0.4)%float results
  else results.

(** Method 5: URL structure analysis *)
Definition method5_structure (structure_score : float) (results : Results) : Results :=
  if (0.6 <? structure_score)%float then
    let results := set_is_suspicious true results in
    let results :=
      if level_eqb (threat_level results) safe then set_threat_level medium results
      else results in
    let results := append_method "url_structure" results in
    add_confidence 0.2%float results
  else results.

(** Method 6: Myanmar-specific scam detection *)
Definition method6_myanmar (myanmar_score : float) (results : Results) : Results :=
  if (0.7 <? myanmar_score)%float then
    let results := set_is_suspicious true results in
    let results :=
      if level_eqb (threat_level results) safe then set_threat_level high results
      else if level_eqb (threat_level results) medium then set_threat_level high results
      else results in
    let results := append_method "myanmar_specific" results in
    let results := add_confidence 0.4%float results in
    append_warning "🇲🇲 Myanmar-specific scam pattern detected" results
  else results.

(** Cap confidence at 1.0, then generate the response message *)
Definition finish (results : Results) : Results :=
  let results := set_confidence (Py.min (confidence results) 1.0%float) results in
  set_message (_generate_response_message results) results.

(** [self.db.log_detection(normalized_url, results['threat_level'], ...)] *)
Definition log_results (e : env) (normalized_url : string) (results : Results) : M unit :=
  on_db (fun d =>
    (tt, log_detection e normalized_url (level_str (threat_level results))
           (confidence results) (detection_methods results)
           (is_suspicious results) None d)).

(** The host check of either branch: [urlparse], then the query when the
    netloc is not empty. *)
Definition host_check (e : env) (normalized_url : string)
    (method : HostResult -> Results -> Results) (results : Results) : M Results :=
  parsed_url ← lift (urlparse normalized_url);
  if nonempty (netloc parsed_url) then
    host_result ← check_urlhaus_host e (netloc parsed_url);
    mret (method host_result results)
  else mret results.

(** The [try] block of [analyze_url] *)
Definition analyze_url_body (e : env) (url : string) : M Results :=
  (* Normalize URL *)
  normalized_url ← lift (_normalize_url url);
  (* Initialize results *)
  let results := initial_results normalized_url (time_time e) in
  (* Method 1: Local Database Check *)
  db_result ← on_db (check_url_in_database e normalized_url);
  match db_result with
  | Some db_result =>
      let results := method1_local_database db_result results in
      _ ← log_results e normalized_url results;
      mret (finish results)
  | None =>
      (* Method 2: URLhaus API check *)
      urlhaus_result ← _check_urlhaus e normalized_url;
      if uh_is_malicious urlhaus_result then
        let results := method2_urlhaus urlhaus_result results in
        (* Add to database for future fast lookup *)
        _ ← on_db (add_user_report e normalized_url
                     ("Detected by URLhaus: " ++ uh_details urlhaus_result) None);
        results ← host_check e normalized_url method2_host_extra results;
        _ ← log_results e normalized_url results;
        mret (finish results)
      else
        (* Method 2: URLhaus host check *)
        results ← host_check e normalized_url method2_urlhaus_host results;
        (* Method 3: PhishTank API check *)
        phish_tank_result ← _check_phish_tank e normalized_url;
        let results := method3_phish_tank phish_tank_result results in
        (* Method 4: Pattern-based detection *)
        _ ← invoke (PatternAnalysis normalized_url);
        pattern_score ← lift (_pattern_analysis normalized_url);
        let results := method4_pattern pattern_score results in
        (* Method 5: URL structure analysis *)
        _ ← invoke (StructureAnalysis normalized_url);
        structure_score ← lift (_analyze_url_structure normalized_url);
        let results := method5_structure structure_score results in
        (* Method 6: Myanmar-specific scam detection *)
        _ ← invoke (MyanmarAnalysis normalized_url);
        let myanmar_score := _detect_myanmar_scams normalized_url in
        let results := method6_myanmar myanmar_score results in
        mret (finish results)
  end.

(** [analyze_url]: the [try] block under its [except Exception] handler. *)
Definition analyze_url (e : env) (url : string) : M verdict :=
  try_except
    (results ← analyze_url_body e url; mret (Analysed results))
    (fun ex => mret (Failed url (Py.str_of_exn ex))).

End Model.

(* ===================================================================== *)
(** * The rest of the core: construction, status, reports, statistics     *)
(* ===================================================================== *)

Section Operations.

Variable sha256_hexdigest : string -> string.
Variable check_bracketed_netloc : string -> option string.

Local Abbreviation add_user_report := (add_user_report sha256_hexdigest check_bracketed_netloc).
Local Abbreviation add_default_scam_urls :=
  (add_default_scam_urls sha256_hexdigest check_bracketed_netloc).

(** ** [phish_core.py]: [PhishGuardCore.__init__]

    The object under construction is the record of the attributes assigned
    so far; reading an attribute that has not been assigned raises
    [AttributeError].  [file] is the content of [phishguard.db], which
    [PhishGuardDatabase()] opens and leaves as it is (every table is created
    [IF NOT EXISTS]). *)
Record object : Type := mkObject {
  self_session : option unit;                       (* requests.Session() *)
  self_db : option database;                        (* PhishGuardDatabase() *)
  self_apis : option (option string);               (* apis['urlhaus']['auth_key'] *)
  self_threat_patterns : option (list Re.regex);
  self_myanmar_scam_keywords : option (list string)
}.

(** What a constructor call ends with. *)
Inductive constructed : Type :=
| Built (self : object)
| AttributeError (msg : string).

Definition no_attribute (name : string) : string :=
  "'PhishGuardCore' object has no attribute '" ++ name ++ "'".

(** [if urlhaus_auth_key] *)
Definition key_given (urlhaus_auth_key : option string) : bool :=
  match urlhaus_auth_key with
  | Some k => nonempty k
  | None => false
  end.

Definition set_apis (urlhaus_auth_key : option string) (self : object) : object :=
  {| self_session := self_session self;
     self_db := self_db self;
     self_apis := Some urlhaus_auth_key;
     self_threat_patterns := self_threat_patterns self;
     self_myanmar_scam_keywords := self_myanmar_scam_keywords self |}.

Definition __init__ (file : database) (urlhaus_auth_key : option string) : constructed :=
  let self :=
    {| self_session := Some tt;
       self_db := None;
       self_apis := None;
       self_threat_patterns := None;
       self_myanmar_scam_keywords := None |} in
  (* Initialize database *)
  let self :=
    {| self_session := self_session self;
       self_db := Some file;
       self_apis := self_apis self;
       self_threat_patterns := self_threat_patterns self;
       self_myanmar_scam_keywords := self_myanmar_scam_keywords self |} in
  (* Set URLhaus auth key if provided *)
  let assigned :=
    if key_given urlhaus_auth_key then
      (* self.apis['urlhaus']['auth_key'] = urlhaus_auth_key *)
      match self_apis self with
      | None => inl (no_attribute "apis")
      | Some _ => inr (set_apis urlhaus_auth_key self)
      end
    else inr self in
  match assigned with
  | inl msg => AttributeError msg
  | inr self =>
      (* API endpoints and configurations *)
      let self := set_apis None self in
      Built
        {| self_session := self_session self;
           self_db := self_db self;
           self_apis := self_apis self;
           (* Local threat patterns *)
           self_threat_patterns := Some threat_patterns;
           (* Myanmar-specific scam keywords *)
           self_myanmar_scam_keywords := Some myanmar_scam_keywords |}
  end.

(** The key that the methods of a constructed object read:
    [self.apis['urlhaus'].get('auth_key')]. *)
Definition auth_key_of (self : object) : option string :=
  match self_apis self with
  | Some k => k
  | None => None
  end.

(** ** [phish_core.py]: [get_detection_status] *)

Record MethodStatus : Type := mkMethodStatus {
  ms_enabled : bool;
  ms_priority : string;
  ms_description : string
}.

Definition get_detection_status (e : env) : list (string * MethodStatus) :=
  [ ("urlhaus",
     {| ms_enabled := auth_key_set e;
        ms_priority := "PRIMARY";
        ms_description := "URLhaus malware database (most accurate)" |});
    ("phish_tank",
     {| ms_enabled := true;
        ms_priority := "FALLBACK";
        ms_description := "PhishTank phishing database" |});
    ("pattern_analysis",
     {| ms_enabled := true;
        ms_priority := "FALLBACK";
        ms_description := "Local pattern matching" |});
    ("url_structure",
     {| ms_enabled := true;
        ms_priority := "FALLBACK";
        ms_description := "URL structure analysis" |});
    ("myanmar_specific",
     {| ms_enabled := true;
        ms_priority := "FALLBACK";
        ms_description := "Myanmar-specific scam detection" |}) ].

(** [status[name]['enabled']] *)
Definition enabled (status : list (string * MethodStatus)) (name : string) : bool :=
  match List.find (fun entry => String.eqb entry.1 name) status with
  | Some entry => ms_enabled entry.2
  | None => false
  end.

(** ** [phish_core.py]: [initialize_database] and [report_scam] *)

(** [initialize_database]: [add_default_scam_urls] handles its own
    exceptions, so the call always answers [True]. *)
Definition initialize_database (e : env) (d : database) : bool * database :=
  (true, add_default_scam_urls e d).

(** [report_scam]: [add_user_report] handles its own exceptions, so the
    handler of [report_scam] is never entered. *)
Definition report_scam (e : env) (url description : string) (user_id : option string)
    (d : database) : ReportResult * database :=
  (* Add to database *)
  let '(result, d) := add_user_report e url description user_id d in
  if rr_success result then
    ({| rr_success := true;
        rr_message := "Scam reported successfully. Thank you for helping protect others!";
        rr_report_id := rr_report_id result;
        rr_url_hash := rr_url_hash result |}, d)
  else (result, d).

(** ** [database.py]: [get_database_stats]

    Timestamps count seconds; [datetime('now', '-1 day')] is the current
    timestamp less 86400. *)
Record DatabaseStats : Type := mkDatabaseStats {
  total_scam_urls : nat;
  by_source : gmap string nat;
  recent_detections_24h : nat;
  pending_user_reports : nat
}.

(** [SELECT source, COUNT( * ) FROM scam_urls WHERE is_active = 1
    GROUP BY source], as the dictionary that [dict(cursor.fetchall())]
    builds. *)
Definition count_by_source (rows : list scam_url) : gmap string nat :=
  fold_right
    (fun row acc =>
       if su_is_active row
       then <[su_source row := S (default 0 (acc !! su_source row))]> acc
       else acc)
    ∅ rows.

Definition get_database_stats (e : env) (d : database) : DatabaseStats :=
  let rows := (map_to_list (scam_urls d)).*2 in
  {| (* Total scam URLs *)
     total_scam_urls := length (List.filter su_is_active rows);
     (* URLs by source *)
     by_source := count_by_source rows;
     (* Recent detections (last 24 hours) *)
     recent_detections_24h :=
       length (List.filter
                 (fun ev => (current_timestamp e - 86400 <? dh_timestamp ev)%Z)
                 (detection_history d));
     (* User reports (pending review) *)
     pending_user_reports :=
       length (List.filter (fun r => String.eqb (ur_status r) "pending")
                 (user_reports d)) |}.

End Operations.

(* ===================================================================== *)
(** * The URLhaus client and its analysis                                 *)
(* ===================================================================== *)

(** A key of a JSON object as [dict.get] meets it: absent, present with the
    value [null], or present with a value. *)
Inductive field (A : Type) : Type :=
| Missing
| Null
| Val (a : A).
Arguments Missing {A}.
Arguments Null {A}.
Arguments Val {A} a.

(** [d.get(key, default)]; the answer [None] is Python's [None]. *)
Definition get {A : Type} (f : field A) (dflt : option A) : option A :=
  match f with
  | Missing => dflt
  | Null => None
  | Val a => Some a
  end.

(** What [_make_request] hands back: [None], an empty object, or an object
    with the keys that the callers read.  The bodies of the service are JSON
    objects or [null], and their keys have the types that the callers'
    annotations give them. *)
Inductive response (J : Type) : Type :=
| NoResponse
| EmptyDict
| Dict (keys : J).
Arguments NoResponse {J}.
Arguments EmptyDict {J}.
Arguments Dict {J} keys.

(** What [session.post] does: it raises a [RequestException], or answers
    with a status code and a body that [response.json()] decodes; [None] is
    a body that is not JSON. *)
Inductive answer (J : Type) : Type :=
| RequestException (msg : string)
| Answer (status_code : Z) (json : option (response J)).
Arguments RequestException {J} msg.
Arguments Answer {J} status_code json.

(** The body of a URL query. *)
Record UrlQueryJson : Type := mkUrlQueryJson {
  uj_query_status : field string;
  uj_url_status : field string;
  uj_threat : field string;
  uj_date_added : field string;
  uj_tags : field (list string)
}.

(** The body of a host query, and one entry of its list [urls]. *)
Record HostUrlJson : Type := mkHostUrlJson {
  hu_url_status : field string
}.

Record HostQueryJson : Type := mkHostQueryJson {
  hj_query_status : field string;
  hj_urls : field (list HostUrlJson)
}.

(** A [URLhausClient] and the world around it: its key, the two endpoints it
    posts form data to, and the clock. *)
Record client : Type := mkClient {
  client_auth_key : option string;                          (* self.auth_key *)
  post_url : gmap string string -> answer UrlQueryJson;     (* POST base_url/url/ *)
  post_host : gmap string string -> answer HostQueryJson;   (* POST base_url/host/ *)
  datetime_now : Z                                          (* datetime.now() *)
}.

(** The dictionary returned by [query_url], without the [details] that it
    copies from the answer. *)
Record UrlReport : Type := mkUrlReport {
  qr_status : string;
  qr_is_malicious : bool;
  qr_confidence : float;
  qr_message : option string;
  qr_threat_type : option string;
  qr_url_status : option string;
  qr_date_added : option string;
  qr_tags : list string;
  qr_source : option string
}.

(** The dictionary returned by [query_host]. *)
Record HostReport : Type := mkHostReport {
  qh_status : string;
  qh_message : option string;
  qh_is_malicious : bool;
  qh_confidence : float;
  qh_total_urls : option nat;
  qh_active_threats : option nat;
  qh_source : option string;
  qh_urls : list HostUrlJson
}.

(** A call of the client returns, or raises the [TypeError] of a membership
    test on [None]. *)
Inductive returned (A : Type) : Type :=
| Returns (a : A)
| TypeError.
Arguments Returns {A} a.
Arguments TypeError {A}.

(** The dictionary returned by [_analyze_patterns]. *)
Record PatternReport : Type := mkPatternReport {
  pr_is_suspicious : bool;
  pr_confidence : float;
  pr_suspicious_score : nat;
  pr_matched_patterns : list Re.regex;
  pr_total_patterns_checked : nat
}.

(** The dictionary returned by [analyze_url_comprehensive], without its
    timestamp. *)
Record Comprehensive : Type := mkComprehensive {
  ca_url : string;
  ca_is_malicious : bool;
  ca_confidence : float;
  ca_urlhaus : UrlReport;
  ca_pattern_analysis : PatternReport;
  ca_recommendation : string
}.

Section Client.

Variable strptime : string -> option Z.

Local Abbreviation _calculate_confidence := (_calculate_confidence strptime).

(** ** [URLhausClient]

    [_make_request], from the request on; [_rate_limit], which only waits,
    has no counterpart.  [data] is the dictionary of form data. *)
Definition _make_request {J : Type} (auth_key : option string)
    (post : gmap string string -> answer J) (data : gmap string string)
  : response J :=
  (* if data and self.auth_key: data['auth-key'] = self.auth_key *)
  let data :=
    match auth_key with
    | Some key =>
        if negb (bool_decide (data = ∅)) && nonempty key
        then <["auth-key" := key]> data
        else data
    | None => data
    end in
  match post data with
  | RequestException _ => NoResponse
  | Answer status_code json =>
      (* response.raise_for_status() *)
      if (400 <=? status_code)%Z && (status_code <? 600)%Z then NoResponse
      else
        (* return response.json() *)
        match json with
        | None => NoResponse
        | Some r => r
        end
  end.

(** [query_url] *)
Definition query_url (c : client) (url : string) : returned UrlReport :=
  let data : gmap string string := {["url" := url]} in
  match _make_request (client_auth_key c) (post_url c) data with
  | NoResponse | EmptyDict =>
      Returns {| qr_status := "error";
                 qr_is_malicious := false;
                 qr_confidence := 0.0%float;
                 qr_message := Some "Failed to query URLhaus";
                 qr_threat_type := None; qr_url_status := None;
                 qr_date_added := None; qr_tags := []; qr_source := None |}
  | Dict response =>
      let query_status := get (uj_query_status response) (Some "no_results") in
      if is_str query_status "ok" then
        (* URL found in URLhaus database *)
        let url_status := get (uj_url_status response) (Some "unknown") in
        let threat := get (uj_threat response) (Some "unknown") in
        let date_added := get (uj_date_added response) (Some "") in
        let tags := get (uj_tags response) (Some []) in
        (* Determine confidence based on status and recency; [None] is no
           key of [status_modifiers] and is falsy as a date, like [""] *)
        match tags with
        | None => TypeError   (* tag in None *)
        | Some tags =>
            let confidence :=
              _calculate_confidence (datetime_now c) (default "" url_status)
                (default "" date_added) tags in
            Returns {| qr_status := "found";
                       qr_is_malicious := true;
                       qr_confidence := confidence;
                       qr_message := None;
                       qr_threat_type := threat;
                       qr_url_status := url_status;
                       qr_date_added := date_added;
                       qr_tags := tags;
                       qr_source := Some "URLhaus" |}
        end
      else if is_str query_status "no_results" then
        (* URL not found - potentially safe *)
        Returns {| qr_status := "not_found";
                   qr_is_malicious := false;
                   qr_confidence := 0.8%float;
                   qr_message := Some "URL not found in URLhaus database";
                   qr_threat_type := None; qr_url_status := None;
                   qr_date_added := None; qr_tags := [];
                   qr_source := Some "URLhaus" |}
      else
        (* Error or invalid URL *)
        Returns {| qr_status := "error";
                   qr_is_malicious := false;
                   qr_confidence := 0.0%float;
                   qr_message :=
                     Some ("URLhaus query status: " ++ default "None" query_status);
                   qr_threat_type := None; qr_url_status := None;
                   qr_date_added := None; qr_tags := [];
                   qr_source := Some "URLhaus" |}
  end.

(** [query_host] *)
Definition query_host (c : client) (hostname : string) : HostReport :=
  let data : gmap string string := {["host" := hostname]} in
  let not_found :=
    {| qh_status := "not_found";
       qh_message := Some "Host not found in URLhaus database";
       qh_is_malicious := false;
       qh_confidence := 0.8%float;
       qh_total_urls := None; qh_active_threats := None;
       qh_source := Some "URLhaus";
       qh_urls := [] |} in
  match _make_request (client_auth_key c) (post_host c) data with
  | NoResponse | EmptyDict =>
      {| qh_status := "error";
         qh_message := Some "Failed to query URLhaus for host";
         qh_is_malicious := false;
         qh_confidence := 0.0%float;
         qh_total_urls := None; qh_active_threats := None;
         qh_source := None;
         qh_urls := [] |}
  | Dict response =>
      let query_status := get (hj_query_status response) (Some "no_results") in
      if is_str query_status "ok" then
        match get (hj_urls response) (Some []) with
        | Some (url :: urls') =>
            let urls := url :: urls' in
            (* Calculate overall threat level based on URLs *)
            let active_threats :=
              length (List.filter
                        (fun url => is_str (get (hu_url_status url) None) "online")
                        urls) in
            let total_urls := length urls in
            let confidence :=
              Py.min 0.9%float
                (0.7 + (Py.float_of_nat active_threats / Py.float_of_nat total_urls) * 0.2)%float in
            {| qh_status := "found";
               qh_message := None;
               qh_is_malicious := true;
               qh_confidence := confidence;
               qh_total_urls := Some total_urls;
               qh_active_threats := Some active_threats;
               qh_source := Some "URLhaus";
               qh_urls := firstn 5 urls |}  (* Return first 5 URLs *)
        | _ => not_found
        end
      else not_found
  end.

(** ** [URLhausEnhancedAnalysis] *)

(** A character class, as the alternative of its members. *)
Fixpoint one_of (members : string) : Re.regex :=
  match members with
  | EmptyString => Re.Void
  | String c members' => Re.Alt (Re.Chr c) (one_of members')
  end.

(** [[a-zA-Z0-9]] and [[a-zA-Z0-9-]] *)
Definition alnum : Re.regex :=
  one_of "abcdefghijklmnopqrstuvwxyzABCDEFGHIJKLMNOPQRSTUVWXYZ0123456789".

Definition alnum_dash : Re.regex :=
  one_of "abcdefghijklmnopqrstuvwxyzABCDEFGHIJKLMNOPQRSTUVWXYZ0123456789-".

(** [[0-9]{1,3}] *)
Definition digits_1_3 : Re.regex :=
  Re.Seq Re.Digit (Re.Seq (Re.Alt Re.Eps Re.Digit) (Re.Alt Re.Eps Re.Digit)).

(** [[a-zA-Z0-9-]+\.<tld>/] *)
Definition free_tld (tld : string) : Re.regex :=
  Re.Seq (Re.Plus alnum_dash) (Re.Lit ("." ++ tld ++ "/")).

(** [self.suspicious_patterns] *)
Definition suspicious_patterns : list Re.regex :=
  [ Re.Seq (Re.Lit "bit.ly/") (Re.Plus alnum);
    Re.Lit "tinyurl.com/";
    Re.Seq digits_1_3
      (Re.Seq (Re.Chr ".")
         (Re.Seq digits_1_3
            (Re.Seq (Re.Chr ".")
               (Re.Seq digits_1_3 (Re.Seq (Re.Chr ".") digits_1_3)))));
    free_tld "tk";
    free_tld "ml";
    free_tld "ga";
    free_tld "cf";
    gap "secure" "update";
    gap "verify" "account";
    gap "suspend" "account";
    Re.Seq (Re.Lit "click")
      (Re.Seq (Re.Star Re.Dot)
         (Re.Seq (Re.Lit "here") (Re.Seq (Re.Star Re.Dot) (Re.Lit "now")))) ].

(** [_analyze_patterns] *)
Definition _analyze_patterns (url : string) : PatternReport :=
  let matched_patterns :=
    List.filter (fun pattern => Re.search true pattern url) suspicious_patterns in
  let suspicious_score := length matched_patterns in
  (* Calculate confidence based on pattern matches *)
  let confidence := Py.min 0.7%float (Py.float_of_nat suspicious_score * 0.15)%float in
  let is_suspicious := (0 <? suspicious_score)%nat in
  {| pr_is_suspicious := is_suspicious;
     pr_confidence := confidence;
     pr_suspicious_score := suspicious_score;
     pr_matched_patterns := matched_patterns;
     pr_total_patterns_checked := length suspicious_patterns |}.

(** [_get_recommendation] *)
Definition _get_recommendation (is_malicious : bool) (confidence : float) : string :=
  if is_malicious then
    if (0.8 <=? confidence)%float then "🚨 HIGH RISK: Block this URL immediately"
    else if (0.6 <=? confidence)%float then
      "⚠️ MEDIUM RISK: Exercise caution, consider blocking"
    else "❓ LOW RISK: Potentially suspicious, monitor closely"
  else
    if (0.8 <=? confidence)%float then "✅ SAFE: URL appears to be legitimate"
    else "❔ UNKNOWN: Insufficient data for confident assessment".

(** [analyze_url_comprehensive] *)
Definition analyze_url_comprehensive (c : client) (url : string) : returned Comprehensive :=
  (* Get URLhaus analysis *)
  match query_url c url with
  | TypeError => TypeError
  | Returns urlhaus_result =>
      (* Perform pattern analysis *)
      let pattern_result := _analyze_patterns url in
      (* Combine results *)
      let is_malicious :=
        qr_is_malicious urlhaus_result || pr_is_suspicious pattern_result in
      (* Calculate combined confidence *)
      let urlhaus_confidence := qr_confidence urlhaus_result in
      let pattern_confidence := pr_confidence pattern_result in
      (* Weight URLhaus higher than pattern matching *)
      let combined_confidence :=
        (urlhaus_confidence * 0.8 + pattern_confidence * 0.2)%float in
      let combined_confidence :=
        if String.eqb (qr_status urlhaus_result) "found"
        then Py.max combined_confidence 0.85%float
        else combined_confidence in
      Returns {| ca_url := url;
                 ca_is_malicious := is_malicious;
                 ca_confidence := combined_confidence;
                 ca_urlhaus := urlhaus_result;
                 ca_pattern_analysis := pattern_result;
                 ca_recommendation := _get_recommendation is_malicious combined_confidence |}
  end.

End Client.

(* ===================================================================== *)
(** * The core's threat intelligence                                      *)
(* ===================================================================== *)

(** What [session.get] does: it raises an exception [e], kept as [str(e)],
    or answers with a status code and a body that [response.json()]
    decodes, or rejects with an exception kept the same way. *)
Inductive get_reply (J : Type) : Type :=
| GetRaises (msg : string)
| GetResponse (status_code : Z) (json : string + J).
Arguments GetRaises {J} msg.
Arguments GetResponse {J} status_code json.

(** The keys that the code reads in the two feeds. *)
Record UrlData : Type := mkUrlData {
  ud_threat : field string;
  ud_host : field string;
  ud_tags : field (list string)
}.

Record RecentUrlsJson : Type := mkRecentUrlsJson {
  ru_query_status : field string;
  ru_urls : field (list UrlData)
}.

Record PayloadData : Type := mkPayloadData {
  pd_file_type : field string;
  pd_signature : field string
}.

Record RecentPayloadsJson : Type := mkRecentPayloadsJson {
  rp_query_status : field string;
  rp_payloads : field (list PayloadData)
}.

(** The two feeds of the service.  A request carries the key in its header
    [Auth-Key], and the limit in its path when the limit is at most 1000. *)
Record feeds : Type := mkFeeds {
  urls_recent : string -> option Z -> get_reply RecentUrlsJson;
  payloads_recent : string -> option Z -> get_reply RecentPayloadsJson
}.

(** The dictionary returned by [get_recent_urlhaus_urls] and by
    [get_recent_urlhaus_payloads], without its timestamp. *)
Inductive fetched (A : Type) : Type :=
| Fetched (items : list A) (count : nat)       (* 'success': True *)
| NotFetched (error : string).                 (* 'success': False *)
Arguments Fetched {A} items count.
Arguments NotFetched {A} error.

(** A dictionary of counters, in insertion order. *)
Definition counters (K : Type) : Type := list (K * nat).

(** The dictionary returned by [get_urlhaus_intelligence_summary], without
    its timestamp. *)
Record Summary : Type := mkSummary {
  sm_threats : counters (option string);
  sm_top_domains : counters string;
  sm_top_tags : counters string;
  sm_file_types : counters (option string);
  sm_signatures : counters string;
  st_recent_urls : nat;
  st_recent_payloads : nat;
  st_total_threats : nat;
  st_unique_domains : nat;
  st_unique_tags : nat
}.

Inductive summarized : Type :=
| Summarized (summary : Summary)               (* 'success': True *)
| NotSummarized (error : string).              (* 'success': False *)

Section Intelligence.

Context {K : Type} `{EqDecision K}.

(** [d[k] = d.get(k, 0) + 1]: a known key keeps its place, a new one goes
    last. *)
Fixpoint increment (k : K) (d : counters K) : counters K :=
  match d with
  | [] => [(k, 1)]
  | (k', n) :: d' =>
      if decide (k' = k) then (k', n + 1) :: d' else (k', n) :: increment k d'
  end.

(** [sorted(d.items(), key=lambda x: x[1], reverse=True)]: by falling count,
    items of equal count in their order in [d]. *)
Fixpoint insert_item (x : K * nat) (l : list (K * nat)) : list (K * nat) :=
  match l with
  | [] => [x]
  | y :: l' => if (y.2 <=? x.2)%nat then x :: l else y :: insert_item x l'
  end.

Definition sorted_by_count (d : counters K) : list (K * nat) :=
  fold_right insert_item [] d.

(** [dict(sorted(...)[:n])] *)
Definition top (n : nat) (d : counters K) : counters K :=
  firstn n (sorted_by_count d).

(** [sum(d.values())] *)
Definition sum_counts (d : counters K) : nat :=
  fold_right (fun item total => item.2 + total) 0 d.

End Intelligence.

(** [limit <= 1000] decides between the two paths of a feed. *)
Definition limited (limit : Z) : option Z :=
  if (limit <=? 1000)%Z then Some limit else None.

(** [get_recent_urlhaus_urls]; [self] is a constructed object. *)
Definition get_recent_urlhaus_urls (w : feeds) (self : object) (limit : Z)
  : fetched UrlData :=
  match auth_key_of self with
  | None => NotFetched "No URLhaus auth key"
  | Some auth_key =>
      if negb (nonempty auth_key) then NotFetched "No URLhaus auth key"
      else
        match urls_recent w auth_key (limited limit) with
        | GetRaises e => NotFetched e
        | GetResponse status_code json =>
            if (status_code =? 200)%Z then
              match json with
              | inl e => NotFetched e
              | inr data =>
                  if is_str (get (ru_query_status data) None) "ok" then
                    match get (ru_urls data) (Some []) with
                    | Some urls => Fetched urls (length urls)
                    | None => NotFetched "object of type 'NoneType' has no len()"
                    end
                  else NotFetched "API request failed"
              end
            else NotFetched "API request failed"
        end
  end.

(** [get_recent_urlhaus_payloads] *)
Definition get_recent_urlhaus_payloads (w : feeds) (self : object) (limit : Z)
  : fetched PayloadData :=
  match auth_key_of self with
  | None => NotFetched "No URLhaus auth key"
  | Some auth_key =>
      if negb (nonempty auth_key) then NotFetched "No URLhaus auth key"
      else
        match payloads_recent w auth_key (limited limit) with
        | GetRaises e => NotFetched e
        | GetResponse status_code json =>
            if (status_code =? 200)%Z then
              match json with
              | inl e => NotFetched e
              | inr data =>
                  if is_str (get (rp_query_status data) None) "ok" then
                    match get (rp_payloads data) (Some []) with
                    | Some payloads => Fetched payloads (length payloads)
                    | None => NotFetched "object of type 'NoneType' has no len()"
                    end
                  else NotFetched "API request failed"
              end
            else NotFetched "API request failed"
        end
  end.

(** The three dictionaries that the loop over the URLs fills. *)
Record url_counts : Type := mkUrlCounts {
  uc_threats : counters (option string);
  uc_domains : counters string;
  uc_tags : counters string
}.

(** One turn of the loop over the URLs; [None] is the [TypeError] of
    iterating over a null [tags]. *)
Definition process_url (acc : url_counts) (url_data : UrlData) : option url_counts :=
  let threat_type := get (ud_threat url_data) (Some "unknown") in
  let threats := increment threat_type (uc_threats acc) in
  let host := get (ud_host url_data) (Some "") in
  let domains :=
    match host with
    | Some host => if nonempty host then increment host (uc_domains acc) else uc_domains acc
    | None => uc_domains acc
    end in
  match get (ud_tags url_data) (Some []) with
  | None => None
  | Some url_tags =>
      Some {| uc_threats := threats;
              uc_domains := domains;
              uc_tags := fold_left (fun tags tag => increment tag tags) url_tags (uc_tags acc) |}
  end.

Fixpoint process_urls (acc : url_counts) (urls : list UrlData) : option url_counts :=
  match urls with
  | [] => Some acc
  | url_data :: urls' =>
      match process_url acc url_data with
      | None => None
      | Some acc' => process_urls acc' urls'
      end
  end.

(** The two dictionaries that the loop over the payloads fills. *)
Record payload_counts : Type := mkPayloadCounts {
  pc_file_types : counters (option string);
  pc_signatures : counters string
}.

Definition process_payload (acc : payload_counts) (payload : PayloadData) : payload_counts :=
  let file_type := get (pd_file_type payload) (Some "unknown") in
  let file_types := increment file_type (pc_file_types acc) in
  let signature := get (pd_signature payload) None in
  {| pc_file_types := file_types;
     pc_signatures :=
       match signature with
       | Some signature =>
           if nonempty signature then increment signature (pc_signatures acc)
           else pc_signatures acc
       | None => pc_signatures acc
       end |}.

(** [get_urlhaus_intelligence_summary] *)
Definition get_urlhaus_intelligence_summary (w : feeds) (self : object) : summarized :=
  (* Get recent URLs and payloads for threat intelligence *)
  let recent_urls := get_recent_urlhaus_urls w self 50 in
  let recent_payloads := get_recent_urlhaus_payloads w self 20 in
  match recent_urls, recent_payloads with
  | Fetched urls _, Fetched payloads _ =>
      (* Process URLs *)
      match process_urls {| uc_threats := []; uc_domains := []; uc_tags := [] |} urls with
      | None => NotSummarized "'NoneType' object is not iterable"
      | Some counted =>
          (* Process payloads *)
          let payload_counted :=
            fold_left process_payload payloads {| pc_file_types := []; pc_signatures := [] |} in
          Summarized
            {| sm_threats := top 10 (uc_threats counted);
               sm_top_domains := top 10 (uc_domains counted);
               sm_top_tags := top 10 (uc_tags counted);
               sm_file_types := top 5 (pc_file_types payload_counted);
               sm_signatures := top 5 (pc_signatures payload_counted);
               st_recent_urls := length urls;
               st_recent_payloads := length payloads;
               st_total_threats := sum_counts (uc_threats counted);
               st_unique_domains := length (uc_domains counted);
               st_unique_tags := length (uc_tags counted) |}
      end
  | _, _ => NotSummarized "Failed to fetch threat intelligence"
  end.


(* ===================================================================== *)
(** * Vocabulary of the properties                                        *)
(* ===================================================================== *)

(** A float that is not NaN. *)
Definition is_number (c : float) : bool := (c =? c)%float.

(** A float in the closed interval [0, 1]. *)
Definition in_unit_interval (c : float) : bool :=
  ((0 <=? c) && (c <=? 1))%float.

(** The data-model invariant of the table [scam_urls]: every stored
    confidence lies in [0, 1]. *)
Definition store_ok (d : database) : Prop :=
  forall h row, scam_urls d !! h = Some row ->
    in_unit_interval (su_confidence row) = true.

(** The key of a query parameter [key=value]. *)
Definition param_key (p : string) : string := (Py.split_once "=" p).1.

(** [s.endswith(suffix)] *)
Definition endswith (s suffix : string) : bool :=
  String.prefix (String.rev suffix) (String.rev s).

(** [re.fullmatch(r, s)] is not [None]. *)
Fixpoint fullmatch (r : Re.regex) (s : string) : bool :=
  match s with
  | EmptyString => Re.nullable r
  | String a s' => fullmatch (Re.deriv false a r) s'
  end.

(** The severity that a tier contributes when it fires, by the tag it leaves
    in [detection_methods]; [u] is the normalized URL, on which the pattern
    tier decides between high and medium. *)
Definition tier_level (u : string) (method : string) : level :=
  if String.eqb method "local_database" then critical
  else if String.eqb method "urlhaus" then critical
  else if String.eqb method "urlhaus_host" then high
  else if String.eqb method "phish_tank" then critical
  else if String.eqb method "pattern_analysis" then
    match _pattern_analysis u with
    | Py.Normal score => if (0.7 <? score)%float then high else medium
    | Py.Raise _ => medium
    end
  else if String.eqb method "url_structure" then medium
  else if String.eqb method "myanmar_specific" then high
  else unknown.

(** The maximum severity among the fired tiers; a run in which no tier fired
    keeps the initial level, safe. *)
Definition max_level (ls : list level) : level := fold_right level_max safe ls.

(** The updates of [results] that [analyze_url] is made of. *)
Inductive method_step : (Results -> Results) -> Prop :=
| step_local_database db_result : method_step (method1_local_database db_result)
| step_urlhaus urlhaus_result : method_step (method2_urlhaus urlhaus_result)
| step_host_extra host_result : method_step (method2_host_extra host_result)
| step_urlhaus_host host_result : method_step (method2_urlhaus_host host_result)
| step_phish_tank phish_tank_result : method_step (method3_phish_tank phish_tank_result)
| step_pattern pattern_score : method_step (method4_pattern pattern_score)
| step_structure structure_score : method_step (method5_structure structure_score)
| step_myanmar myanmar_score : method_step (method6_myanmar myanmar_score)
| step_finish : method_step finish.

(** The successive values of [results] when [steps] are applied in order. *)
Fixpoint run_steps (steps : list (Results -> Results)) (r : Results) : list Results :=
  match steps with
  | [] => [r]
  | f :: steps' => r :: run_steps steps' (f r)
  end.

Fixpoint nondecreasing (l : list nat) : Prop :=
  match l with
  | a :: (b :: _) as l' => a <= b /\ nondecreasing l'
  | _ => True
  end.

(** The confidence formula of the threat-intel client as the specification
    words it: base 0.9; -0.1 if the status is "offline"; -0.2 if it is
    "unknown"; -0.1 more if the record's date is more than 30 days in the
    past; +0.05, capped at 0.95, if a tag is high-risk; the result clamped to
    [0, 1].  [date_of] reads the moment that the text of a date denotes,
    in microseconds. *)
Definition more_than_30_days_in_the_past (date_of : string -> option Z) (now : Z)
    (date_added : string) : bool :=
  match date_of date_added with
  | Some added_date => (30 * 86400000000 <? now - added_date)%Z
  | None => false
  end.

Definition has_high_risk_tag (tags : list string) : bool :=
  existsb (fun tag => list_in tag tags) high_risk_tags.

Definition clamp01 (c : float) : float := Py.max 0.0%float (Py.min 1.0%float c).

Definition claimed_confidence (date_of : string -> option Z) (now : Z)
    (url_status date_added : string) (tags : list string) : float :=
  let c := 0.9%float in
  let c :=
    if String.eqb url_status "offline" then (c - 0.1)%float
    else if String.eqb url_status "unknown" then (c - 0.2)%float
    else c in
  let c :=
    if more_than_30_days_in_the_past date_of now date_added then (c - 0.1)%float
    else c in
  let c := if has_high_risk_tag tags then Py.min 0.95%float (c + 0.05)%float else c in
  clamp01 c.

(** The age rule of the amended formula: the date is a non-empty text that
    [strptime] accepts in the format of the client, and the whole days from
    it to now, counted as [timedelta.days] counts them, are more than 30:
    the record is at least 31 days old. *)
Definition counts_more_than_30_days (strptime : string -> option Z) (now : Z)
    (date_added : string) : bool :=
  nonempty date_added
  && match strptime date_added with
     | Some added_date => (30 <? timedelta_days now added_date)%Z
     | None => false
     end.

(** The amended formula: -0.2 for every status other than "online" and
    "offline", and the age rule above. *)
Definition amended_confidence (strptime : string -> option Z) (now : Z)
    (url_status date_added : string) (tags : list string) : float :=
  let c := 0.9%float in
  let c :=
    if String.eqb url_status "online" then c
    else if String.eqb url_status "offline" then (c - 0.1)%float
    else (c - 0.2)%float in
  let c :=
    if counts_more_than_30_days strptime now date_added then (c - 0.1)%float
    else c in
  let c := if has_high_risk_tag tags then Py.min 0.95%float (c + 0.05)%float else c in
  clamp01 c.

(** The tag that a method appends when it fires. *)
Definition tag_if (b : bool) (tag : string) : list string := if b then [tag] else [].

(** [score += step], [k] times over. *)
Fixpoint add_times (k : nat) (step score : float) : float :=
  match k with
  | O => score
  | S k' => add_times k' step (score + step)%float
  end.

(** The arithmetic of [_pattern_analysis], by which of its tests succeed:
    the shortener test, [k] threat patterns, the special-character test, the
    TLD test and [j] Myanmar patterns. *)
Definition pattern_score_of (shortener : bool) (k : nat) (special tld : bool)
    (j : nat) : float :=
  let score := 0.0%float in
  let score := if shortener then (score + 0.3)%float else score in
  let score := add_times k 0.2%float score in
  let score := if special then (score + 0.2)%float else score in
  let score := if tld then (score + 0.4)%float else score in
  let score := add_times j 0.5%float score in
  Py.min score 1.0%float.

(** The confidence on the fall-through path, by which methods fire. *)
Definition fallthrough_confidence (host phish : bool) (pattern_score : float)
    (structure myanmar : bool) : float :=
  let c := 0.0%float in
  let c := if host then (c + 0.85)%float else c in
  let c := if phish then (c + 0.8)%float else c in
  let c := if (0.3 <? pattern_score)%float then (c + pattern_score * 0.4)%float else c in
  let c := if structure then (c + 0.2)%float else c in
  let c := if myanmar then (c + 0.4)%float else c in
  Py.min c 1.0%float.

Definition bools : list bool := [true; false].

(** Every fall-through confidence lies in [0, 1]: a finite check. *)
Definition fallthrough_confidences_ok : bool :=
  forallb (fun shortener =>
  forallb (fun k =>
  forallb (fun special =>
  forallb (fun tld =>
  forallb (fun j =>
  forallb (fun host =>
  forallb (fun phish =>
  forallb (fun structure =>
  forallb (fun myanmar =>
    in_unit_interval
      (fallthrough_confidence host phish
         (pattern_score_of shortener k special tld j) structure myanmar))
  bools) bools) bools) bools) (seq 0 6)) bools) bools) (seq 0 9)) bools.

(** A computation that keeps the store invariant, however it ends. *)
Definition preserves_store {A : Type} (m : M A) : Prop :=
  forall st o st', m st = (o, st') -> store_ok (db st) -> store_ok (db st').

(** The states that the public operations reach from an empty database. *)
Inductive reachable (sha256_hexdigest : string -> string)
    (check_bracketed_netloc : string -> option string) : state -> Prop :=
| reach_empty : reachable sha256_hexdigest check_bracketed_netloc empty_state
| reach_seed e st :
    reachable sha256_hexdigest check_bracketed_netloc st ->
    reachable sha256_hexdigest check_bracketed_netloc
      {| db := add_default_scam_urls sha256_hexdigest check_bracketed_netloc e (db st);
         trace := trace st |}
| reach_report e url description user_id st :
    reachable sha256_hexdigest check_bracketed_netloc st ->
    reachable sha256_hexdigest check_bracketed_netloc
      {| db := (add_user_report sha256_hexdigest check_bracketed_netloc e url
                  description user_id (db st)).2;
         trace := trace st |}
| reach_analyze e url st :
    reachable sha256_hexdigest check_bracketed_netloc st ->
    reachable sha256_hexdigest check_bracketed_netloc
      (analyze_url sha256_hexdigest check_bracketed_netloc e url st).2.

(** ** Vocabulary for re-parsing a normalized URL *)

(** A character that [urlsplit] does not strip out. *)
Definition safe_char (c : ascii) : bool := negb (unsafe_url_byte c).

(** A character that ends the netloc. *)
Definition delimiter (c : ascii) : bool := Py.char_in c "/?#".

Definition starts_with_delimiter (s : string) : bool :=
  match s with
  | EmptyString => true
  | String c _ => delimiter c
  end.

(** A URL that starts with "http://" or "https://". *)
Definition http_prefix (p : string) : Prop := p = "http" \/ p = "https".

(** What [urlsplit] does once the scheme is known and the text after the
    colon is [rest]. *)
Definition after_scheme (check_bracketed_netloc : string -> option string)
    (scheme rest : string)
  : Py.outcome (string * string * string * string * string) :=
  let finish (netloc url : string) :=
    let '(path, query, fragment) := split_fragment_query url in
    Py.Normal (scheme, netloc, path, query, fragment) in
  match rest with
  | String "/" (String "/" rest) =>
      let '(netloc, url) := _splitnetloc rest in
      let has_open := Py.char_in "[" netloc in
      let has_close := Py.char_in "]" netloc in
      if (has_open && negb has_close) || (has_close && negb has_open)
      then Py.Raise (Py.ValueError "Invalid IPv6 URL")
      else if has_open && has_close
      then match check_bracketed_netloc netloc with
           | Some msg => Py.Raise (Py.ValueError msg)
           | None => finish netloc url
           end
      else finish netloc url
  | _ => finish EmptyString rest
  end.

(** The netloc tests of [urlsplit] let [netloc] through. *)
Definition netloc_accepted (check_bracketed_netloc : string -> option string)
    (netloc : string) : bool :=
  let has_open := Py.char_in "[" netloc in
  let has_close := Py.char_in "]" netloc in
  if (has_open && negb has_close) || (has_close && negb has_open) then false
  else if has_open && has_close
  then match check_bracketed_netloc netloc with Some _ => false | None => true end
  else true.

(** A path is empty or starts with a slash. *)
Definition slash_or_empty (s : string) : bool :=
  match s with
  | EmptyString => true
  | String c _ => Ascii.eqb c "/"
  end.

(** ** Sample worlds, for the concrete instances below *)

(** Any function will do for the digest; this one keeps its input. *)
Definition sample_digest (s : string) : string := s.

(** A bracket check that accepts every netloc. *)
Definition sample_bracket_check (s : string) : option string := None.

(** A date parser that rejects every text. *)
Definition sample_strptime (s : string) : option Z := None.

(** The first second of 1970 in the format of the client, as
    [datetime.strptime] reads it, and the dates that a reader of the feed
    understands: the service writes them with the suffix " UTC". *)
Definition epoch_strptime (s : string) : option Z :=
  if String.eqb s "1970-01-01 00:00:00" then Some 0%Z else None.

Definition epoch_date_of (s : string) : option Z :=
  if String.eqb s "1970-01-01 00:00:00" || String.eqb s "1970-01-01 00:00:00 UTC"
  then Some 0%Z
  else None.

(** One hour, and one day, in microseconds. *)
Definition an_hour : Z := 3600000000.
Definition a_day : Z := 86400000000.

(** No key configured, and no service reachable. *)
Definition offline_env : env :=
  {| auth_key := None;
     urlhaus_url_post := fun _ => RaiseConnectionError;
     urlhaus_host_post := fun _ => RaiseConnectionError;
     phish_tank_post := fun _ => RaiseConnectionError;
     time_time := 1700000000%float;
     current_timestamp := 1700000000 |}.

(** A configured key, and a URLhaus that knows every URL and every host. *)
Definition hostile_env : env :=
  {| auth_key := Some "key";
     urlhaus_url_post := fun _ =>
       Response 200 (inr {| uq_query_status := Some "ok";
                            uq_urls := Some [ {| ui_threat := Some "malware_download" |} ] |});
     urlhaus_host_post := fun _ =>
       Response 200 (inr {| hq_query_status := Some "ok"; hq_url_count := Some "3" |});
     phish_tank_post := fun _ => RaiseConnectionError;
     time_time := 1700000000%float;
     current_timestamp := 1700000000 |}.

(** The store after [add_default_scam_urls]. *)
Definition seeded_state : state :=
  {| db := add_default_scam_urls sample_digest sample_bracket_check offline_env empty_database;
     trace := [] |}.

(** The row that [add_default_scam_urls] stores for the PayPal lure. *)
Definition paypal_row : scam_url :=
  {| su_id := 8;
     su_url_hash := "https://paypal-secure-login.ml";
     su_original_url := "https://paypal-secure-login.ml";
     su_domain := "paypal-secure-login.ml";
     su_threat_type := "phishing";
     su_confidence := 0.9%float;
     su_source := "paypal";
     su_tags := Some ["payment"; "paypal"; "fake"];
     su_first_seen := 1700000000;
     su_last_seen := 1700000000;
     su_report_count := 1;
     su_is_active := true |}.

(** The store after one user report against an empty database. *)
Definition reported_state : state :=
  {| db := (add_user_report sample_digest sample_bracket_check offline_env
              "https://scam.example" "fake login" None empty_database).2;
     trace := [] |}.



(* ===================================================================== *)
(** * Vocabulary of the further properties                                *)
(* ===================================================================== *)

(** How a record of [scam_urls] may change: only [last_seen] and
    [report_count] do, and the count does not go down. *)
Definition row_extends (row row' : scam_url) : Prop :=
  su_id row' = su_id row
  /\ su_url_hash row' = su_url_hash row
  /\ su_original_url row' = su_original_url row
  /\ su_domain row' = su_domain row
  /\ su_threat_type row' = su_threat_type row
  /\ su_confidence row' = su_confidence row
  /\ su_source row' = su_source row
  /\ su_tags row' = su_tags row
  /\ su_first_seen row' = su_first_seen row
  /\ su_is_active row' = su_is_active row
  /\ (su_report_count row <= su_report_count row')%Z.

(** The database [d'] keeps what [d] holds: every record of [scam_urls] is
    still there, changed at most as [row_extends] allows, and the two other
    tables have only been appended to. *)
Definition evolves (d d' : database) : Prop :=
  (forall h row, scam_urls d !! h = Some row ->
     exists row', scam_urls d' !! h = Some row' /\ row_extends row row')
  /\ user_reports d `prefix_of` user_reports d'
  /\ detection_history d `prefix_of` detection_history d'.

(** A record as [add_default_scam_urls] writes it, and one as
    [add_user_report] writes it. *)
Definition default_record (row : scam_url) : Prop :=
  exists url threat_type source tags,
    In (url, threat_type, source, tags) default_scams
    /\ su_original_url row = url /\ su_threat_type row = threat_type
    /\ su_source row = source /\ su_tags row = Some tags
    /\ su_confidence row = 0.9%float.

Definition reported_record (row : scam_url) : Prop :=
  su_confidence row = 0.7%float /\ su_tags row = None
  /\ su_threat_type row = "user_reported" /\ su_source row = "user_report".

(** What the invariant of the store says of one record under its key. *)
Definition row_wf (sha256_hexdigest : string -> string) (h : string) (row : scam_url)
  : Prop :=
  su_is_active row = true
  /\ su_url_hash row = h
  /\ h = _hash_url sha256_hexdigest (su_original_url row)
  /\ (1 <= su_report_count row)%Z
  /\ (default_record row \/ reported_record row).

(** The invariant of the databases that the core builds. *)
Definition store_wf (sha256_hexdigest : string -> string) (d : database) : Prop :=
  (forall h row, scam_urls d !! h = Some row -> row_wf sha256_hexdigest h row)
  /\ (forall r, In r (user_reports d) ->
        ur_status r = "pending" /\ ur_report_type r = "scam"
        /\ exists row, scam_urls d !! ur_url_hash r = Some row).

(** The sum of the values of a counting dictionary. *)
Definition sum_values (m : gmap string nat) : nat :=
  map_fold (fun _ v acc => v + acc) 0 m.

(** The number of patterns of a list that [re.search] finds in [s]. *)
Definition count_matches (patterns : list Re.regex) (s : string) : nat :=
  length (List.filter (fun pattern => Re.search true pattern s) patterns).

(** ** Vocabulary for the parts of a normalized URL *)

(** Characters of a path: kept by [urlsplit], and neither [?] nor [#]. *)
Definition path_char (c : ascii) : bool :=
  safe_char c && negb (Ascii.eqb c "?") && negb (Ascii.eqb c "#").

(** Characters of a query: kept by [urlsplit], and not [#]. *)
Definition query_char (c : ascii) : bool :=
  safe_char c && negb (Ascii.eqb c "#").

(** The last segment of a path holds no parameters. *)
Definition params_free (pth : string) : Prop :=
  forall h last, Py.rsplit_once "/" pth = Some (h, last) -> Py.char_in ";" last = false.

(** [scheme://netloc/path?query], as [_normalize_url] puts it together. *)
Definition assemble (sch nl pth cq : string) : string :=
  let clean_url := sch ++ "://" ++ nl ++ pth in
  if nonempty cq then clean_url ++ "?" ++ cq else clean_url.

(** A parameter that the filter of [_normalize_url] keeps. *)
Definition kept_param (p : string) : bool :=
  negb (existsb (fun tp => Py.str_in tp p) tracking_params).

(** A computation whose effect on the database lies in the relation [R],
    however it ends. *)
Definition respects (R : database -> database -> Prop) {A : Type} (m : M A) : Prop :=
  forall st o st', m st = (o, st') -> R (db st) (db st').

(** The databases that the operations of the two classes build from an empty
    file. *)
Inductive built (sha256_hexdigest : string -> string)
    (check_bracketed_netloc : string -> option string) : database -> Prop :=
| built_empty : built sha256_hexdigest check_bracketed_netloc empty_database
| built_seed e d :
    built sha256_hexdigest check_bracketed_netloc d ->
    built sha256_hexdigest check_bracketed_netloc
      (add_default_scam_urls sha256_hexdigest check_bracketed_netloc e d)
| built_report e url description user_id d :
    built sha256_hexdigest check_bracketed_netloc d ->
    built sha256_hexdigest check_bracketed_netloc
      (add_user_report sha256_hexdigest check_bracketed_netloc e url description user_id d).2
| built_check e url d :
    built sha256_hexdigest check_bracketed_netloc d ->
    built sha256_hexdigest check_bracketed_netloc
      (check_url_in_database sha256_hexdigest e url d).2
| built_log e url threat_level confidence detection_methods is_suspicious response_time_ms d :
    built sha256_hexdigest check_bracketed_netloc d ->
    built sha256_hexdigest check_bracketed_netloc
      (log_detection sha256_hexdigest e url threat_level confidence detection_methods
         is_suspicious response_time_ms d)
| built_analyze e raw st :
    built sha256_hexdigest check_bracketed_netloc (db st) ->
    built sha256_hexdigest check_bracketed_netloc
      (db (analyze_url sha256_hexdigest check_bracketed_netloc e raw st).2).

(** The collaborators that the URLhaus checks of [analyze_url] invoke. *)
Definition urlhaus_events (e : env) (n : string) : list event :=
  if auth_key_set e then [UrlhausUrlQuery n] else [].

Definition host_events (e : env) (host : string) : list event :=
  if nonempty host && auth_key_set e then [UrlhausHostQuery host] else [].

(** The collaborators of the methods that follow the URLhaus checks. *)
Definition fallback_events (n : string) : list event :=
  [PhishTankQuery n; PatternAnalysis n; StructureAnalysis n; MyanmarAnalysis n].

(** The texts of [_generate_response_message] for a link that nothing
    flagged, for one that URLhaus cleared, and for an unknown level. *)
Definition safe_message : string :=
  "✅ SAFE: This link appears to be safe, but always remain cautious and verify the source.".

Definition urlhaus_safe_message : string :=
  "✅ SAFE: This link has been checked against URLhaus malware database and appears safe, but always remain cautious.".

Definition unknown_message : string :=
  "❓ UNKNOWN: We couldn't determine the safety of this link. Please use caution and verify the source.".

(** [1] for [True], [0] for [False]. *)
Definition b2n (b : bool) : nat := if b then 1 else 0.

(** The score of [_detect_myanmar_scams], by whether a keyword occurs and by
    the number [k] of patterns that match. *)
Definition myanmar_score_of (keyword : bool) (k : nat) : float :=
  let score := 0.0%float in
  let score := if keyword then (score + 0.3)%float else score in
  Py.min (add_times k 0.4%float score) 1.0%float.

(** The score of [_analyze_url_structure], by which of its four tests
    succeed. *)
Definition structure_score_of (long ip tld dots : bool) : float :=
  let score := 0.0%float in
  let score := if long then (score + 0.2)%float else score in
  let score := if ip then (score + 0.4)%float else score in
  let score := if tld then (score + 0.3)%float else score in
  let score := if dots then (score + 0.2)%float else score in
  Py.min score 1.0%float.

(** The two thresholds of the pattern tier agree with exact arithmetic on
    the weights 3, 2, 2, 4 and 5 (tenths): a finite check. *)
Definition pattern_thresholds_ok : bool :=
  forallb (fun shortener =>
  forallb (fun k =>
  forallb (fun special =>
  forallb (fun tld =>
  forallb (fun j =>
    let weight := 3 * b2n shortener + 2 * (k + b2n special) + 4 * b2n tld + 5 * j in
    let score := pattern_score_of shortener k special tld j in
    Bool.eqb (0.3 <? score)%float (3 <? weight)%nat
    && Bool.eqb (0.7 <? score)%float (7 <? weight)%nat)
  (seq 0 6)) bools) bools) (seq 0 9)) bools.


(** ** Vocabulary for the URLhaus client *)

(** The form that [query_url] and [query_host] hand to [_make_request]. *)
Definition url_form (url : string) : gmap string string := {["url" := url]}.
Definition host_form (hostname : string) : gmap string string := {["host" := hostname]}.

(** [lo <= c <= hi] on floats. *)
Definition between (lo hi c : float) : bool :=
  (lo <=? c)%float && (c <=? hi)%float.

(** The five recommendations of [_get_recommendation]. *)
Definition high_risk : string := "🚨 HIGH RISK: Block this URL immediately".
Definition medium_risk : string := "⚠️ MEDIUM RISK: Exercise caution, consider blocking".
Definition low_risk : string := "❓ LOW RISK: Potentially suspicious, monitor closely".
Definition safe_url : string := "✅ SAFE: URL appears to be legitimate".
Definition unknown_risk : string := "❔ UNKNOWN: Insufficient data for confident assessment".

(** A key holds the string [s]; a key is null. *)
Definition holds (f : field string) (s : string) : bool :=
  match f with
  | Val a => String.eqb a s
  | _ => false
  end.

Definition is_null {A : Type} (f : field A) : bool :=
  match f with
  | Null => true
  | _ => false
  end.

Definition is_missing {A : Type} (f : field A) : bool :=
  match f with
  | Missing => true
  | _ => false
  end.


(** ** Vocabulary for the dictionaries of counters *)

(** The counts fall along the list: no item counts more than one before it. *)
Fixpoint falling {K : Type} (l : counters K) : Prop :=
  match l with
  | [] => True
  | x :: l' => Forall (fun y => y.2 <= x.2) l' /\ falling l'
  end.

(** A dictionary of counters: no key twice, no count of zero. *)
Definition counted {K : Type} (d : counters K) : Prop :=
  NoDup (map fst d) /\ Forall (fun item => 1 <= item.2) d.

(** [t] holds the [n] leading items of [d] by count: at most [n] of them,
    all of [d] when it has no more, and followed by the other items of [d]
    the counts fall. *)
Definition leading {K : Type} (n : nat) (d t : counters K) : Prop :=
  length t = Nat.min n (length d)
  /\ exists others, Permutation d (t ++ others)%list /\ falling (t ++ others)%list.

(** A table of the summary: at most [n] counters, falling. *)
Definition table {K : Type} (n : nat) (t : counters K) : Prop :=
  length t <= n /\ falling t /\ counted t.

(** The URL carries no list of tags: the key is there, and null. *)
Definition untagged (url_data : UrlData) : bool := is_null (ud_tags url_data).

(** ** Sample feeds *)

(** A core whose key was set after its construction. *)
Definition keyed_core : object :=
  {| self_session := Some tt;
     self_db := Some empty_database;
     self_apis := Some (Some "sample-key");
     self_threat_patterns := Some threat_patterns;
     self_myanmar_scam_keywords := Some myanmar_scam_keywords |}.

Definition sample_urls : list UrlData :=
  [ {| ud_threat := Val "malware_download"; ud_host := Val "a.example";
       ud_tags := Val ["elf"; "mirai"] |};
    {| ud_threat := Val "malware_download"; ud_host := Val "b.example";
       ud_tags := Val ["mirai"] |};
    {| ud_threat := Null; ud_host := Val "a.example"; ud_tags := Missing |};
    {| ud_threat := Missing; ud_host := Val ""; ud_tags := Val [] |} ].

Definition sample_payloads : list PayloadData :=
  [ {| pd_file_type := Val "elf"; pd_signature := Val "Mirai" |};
    {| pd_file_type := Val "exe"; pd_signature := Null |};
    {| pd_file_type := Val "elf"; pd_signature := Missing |} ].

(** A service that answers both feeds. *)
Definition sample_feeds : feeds :=
  {| urls_recent := fun _ _ =>
       GetResponse 200
         (inr {| ru_query_status := Val "ok"; ru_urls := Val sample_urls |});
     payloads_recent := fun _ _ =>
       GetResponse 200
         (inr {| rp_query_status := Val "ok"; rp_payloads := Val sample_payloads |}) |}.

(** The same service with an untagged URL at the end of its feed. *)
Definition untagged_feeds : feeds :=
  {| urls_recent := fun _ _ =>
       GetResponse 200
         (inr {| ru_query_status := Val "ok";
                 ru_urls :=
                   Val (sample_urls
                          ++ [ {| ud_threat := Val "malware_download";
                                  ud_host := Val "c.example";
                                  ud_tags := Null |} ])%list |});
     payloads_recent := payloads_recent sample_feeds |}.

(** The seeded database after one report. *)
Definition seeded_and_reported : database :=
  (add_user_report sample_digest sample_bracket_check offline_env
     "https://scam.example" "fake login" None
     (add_default_scam_urls sample_digest sample_bracket_check offline_env
        empty_database)).2.

(* ===================================================================== *)
(** * Properties                                                          *)
(* ===================================================================== *)

Section Properties.

Variable sha256_hexdigest : string -> string.
Variable check_bracketed_netloc : string -> option string.
Variable strptime : string -> option Z.

Local Abbreviation urlparse := (urlparse check_bracketed_netloc).
Local Abbreviation _normalize_url := (_normalize_url check_bracketed_netloc).
Local Abbreviation _analyze_url_structure := (_analyze_url_structure check_bracketed_netloc).
Local Abbreviation _hash_url := (_hash_url sha256_hexdigest).
Local Abbreviation check_url_in_database := (check_url_in_database sha256_hexdigest).
Local Abbreviation add_user_report := (add_user_report sha256_hexdigest check_bracketed_netloc).
Local Abbreviation log_detection := (log_detection sha256_hexdigest).
Local Abbreviation analyze_url_body := (analyze_url_body sha256_hexdigest check_bracketed_netloc).
Local Abbreviation analyze_url := (analyze_url sha256_hexdigest check_bracketed_netloc).
Local Abbreviation _calculate_confidence := (_calculate_confidence strptime).
Local Abbreviation urlsplit := (urlsplit check_bracketed_netloc).
Local Abbreviation after_scheme := (after_scheme check_bracketed_netloc).
Local Abbreviation netloc_accepted := (netloc_accepted check_bracketed_netloc).

Lemma Normal_inj {A : Type} (a b : A) : Py.Normal a = Py.Normal b -> a = b.
Proof. intros H. injection H as ->. reflexivity. Qed.

(** ** Floats

    The two facts about binary64 arithmetic that the store's confidences
    need, from the specification of the primitive operations. *)

Lemma Prim2SF_one : Prim2SF 1%float = S754_finite false 4503599627370496 (-52).
Proof. reflexivity. Qed.
Lemma Prim2SF_zero : Prim2SF 0%float = S754_zero false.
Proof. reflexivity. Qed.

(* SFcompare antisymmetry *)
Lemma SFcompare_antisym x y :
  SFcompare y x = option_map CompOpp (SFcompare x y).
Proof.
  destruct x as [sx|sx| |sx mx ex], y as [sy|sy| |sy my ey]; simpl; try reflexivity;
    try (destruct sx; reflexivity); try (destruct sy; reflexivity);
    try (destruct sx, sy; reflexivity).
  destruct sx, sy; simpl; try reflexivity.
  - rewrite (Z.compare_antisym ey ex). destruct (ey ?= ex)%Z; simpl; try reflexivity.
    f_equal. rewrite (ZC4 mx my). destruct (PosDef.Pos.compare_cont Eq my mx); reflexivity.
  - rewrite (Z.compare_antisym ey ex). destruct (ey ?= ex)%Z; simpl; try reflexivity.
    f_equal. apply ZC4.
Qed.

Lemma ltb_false_leb x y :
  is_number x = true -> is_number y = true -> (x <? y)%float = false -> (y <=? x)%float = true.
Proof.
  unfold is_number. rewrite !FloatAxioms.eqb_spec, ltb_spec, leb_spec.
  unfold SFeqb, SFltb, SFleb. rewrite (SFcompare_antisym (Prim2SF x) (Prim2SF y)).
  intros Hx Hy.
  destruct (SFcompare (Prim2SF x) (Prim2SF y)) as [[]|] eqn:E; simpl; try congruence.
  (* compare is None: one is nan *)
  destruct (Prim2SF x) as [sx|sx| |sx mx ex], (Prim2SF y) as [sy|sy| |sy my ey];
    simpl in *; congruence.
Qed.

Lemma add_zero_l c :
  is_number c = true ->
  ((0 + c)%float =? c)%float = true /\
  ((0 + c)%float = c \/ Prim2SF (0 + c)%float = S754_zero false).
Proof.
  unfold is_number. intros Hc.
  assert (Hadd := add_spec 0 c). rewrite Prim2SF_zero in Hadd.
  rewrite FloatAxioms.eqb_spec in Hc |- *.
  unfold SF64add, SFadd in Hadd.
  destruct (Prim2SF c) as [s|s| |s m e] eqn:E.
  - assert (Hz : Prim2SF (0 + c)%float = S754_zero false)
      by (rewrite Hadd; destruct s; reflexivity).
    rewrite Hz. split; [reflexivity | right; reflexivity].
  - assert (Heq : (0 + c)%float = c) by (apply Prim2SF_inj; rewrite Hadd, E; reflexivity).
    rewrite Heq, E. split; [exact Hc | left; reflexivity].
  - discriminate Hc.
  - assert (Heq : (0 + c)%float = c) by (apply Prim2SF_inj; rewrite Hadd, E; reflexivity).
    rewrite Heq, E. split; [exact Hc | left; reflexivity].
Qed.

Lemma SFeqb_finite_eq sx mx ex sy my ey :
  SFeqb (S754_finite sx mx ex) (S754_finite sy my ey) = true ->
  sx = sy /\ mx = my /\ ex = ey.
Proof.
  unfold SFeqb; simpl.
  destruct sx, sy; simpl; try discriminate;
    destruct (ex ?= ey)%Z eqn:Ez; try discriminate;
    apply Z.compare_eq in Ez; subst ey;
    destruct (PosDef.Pos.compare_cont Eq mx my) eqn:Em; try discriminate;
    apply Pcompare_Eq_eq in Em; subst my; auto.
Qed.

Lemma eqb_ltb_compat x y z :
  (x =? y)%float = true -> (z <? x)%float = (z <? y)%float.
Proof.
  rewrite FloatAxioms.eqb_spec, !ltb_spec.
  destruct (Prim2SF x) as [sx|sx| |sx mx ex] eqn:Ex, (Prim2SF y) as [sy|sy| |sy my ey] eqn:Ey;
    try (unfold SFeqb; simpl; try destruct sx; try destruct sy; discriminate).
  - intros _. unfold SFltb. destruct (Prim2SF z) as [s|s| |s m e]; reflexivity.
  - unfold SFeqb; simpl. destruct sx, sy; try discriminate; reflexivity.
  - intros H. apply SFeqb_finite_eq in H. destruct H as (-> & -> & ->). reflexivity.
Qed.

(** min(0.0 + c, 1.0) == min(c, 1.0) for every number c *)
Lemma min_add_zero c :
  is_number c = true ->
  (Py.min (0 + c) 1 =? Py.min c 1)%float = true.
Proof.
  intros Hc. destruct (add_zero_l c Hc) as [Heq _].
  unfold Py.min. rewrite (eqb_ltb_compat _ _ 1%float Heq).
  destruct (1 <? c)%float; [reflexivity | exact Heq].
Qed.

Lemma leb_eqb_compat x y z :
  (x =? y)%float = true -> (z <=? y)%float = true -> (z <=? x)%float = true.
Proof.
  rewrite FloatAxioms.eqb_spec, !leb_spec.
  destruct (Prim2SF x) as [sx|sx| |sx mx ex] eqn:Ex, (Prim2SF y) as [sy|sy| |sy my ey] eqn:Ey;
    try (unfold SFeqb; simpl; try destruct sx; try destruct sy; discriminate).
  - intros _. unfold SFleb. destruct (Prim2SF z) as [s|s| |s m e]; simpl; auto.
  - unfold SFeqb; simpl. destruct sx, sy; try discriminate; auto.
  - intros H. apply SFeqb_finite_eq in H. destruct H as (-> & -> & ->). auto.
Qed.

Lemma SFeqb_refl x : x <> S754_nan -> SFeqb x x = true.
Proof.
  unfold SFeqb. destruct x as [s|s| |s m e]; simpl; intros H; try congruence.
  - destruct s; reflexivity.
  - destruct s; rewrite Z.compare_refl, Pcompare_refl; reflexivity.
Qed.

Lemma leb_is_number_r x y : (x <=? y)%float = true -> is_number y = true.
Proof.
  unfold is_number. rewrite leb_spec, FloatAxioms.eqb_spec. intros H.
  apply SFeqb_refl. intros E. rewrite E in H. unfold SFleb in H.
  destruct (Prim2SF x); discriminate H.
Qed.

(** 0 <= c  implies  0 <= min(0.0 + c, 1.0) <= 1 *)
Lemma min_add_zero_unit c :
  (0 <=? c)%float = true ->
  (0 <=? Py.min (0 + c) 1)%float = true /\ (Py.min (0 + c) 1 <=? 1)%float = true.
Proof.
  intros H0. assert (Hc := leb_is_number_r _ _ H0).
  destruct (add_zero_l c Hc) as [Heq _].
  assert (Hx : is_number (0 + c)%float = true).
  { apply (leb_is_number_r 0%float). apply (leb_eqb_compat _ c); assumption. }
  unfold Py.min. destruct (1 <? 0 + c)%float eqn:E.
  - split; reflexivity.
  - split.
    + apply (leb_eqb_compat _ c); assumption.
    + apply ltb_false_leb; [reflexivity | exact Hx | exact E].
Qed.

(** C5, at an input where the code departs from it.  The parameter
    [preference=dark] has the key [preference], which is not on the denylist,
    and the normalizer removes it all the same: the filter looks for a
    denylist name anywhere in [key=value] (here "ref"), not for a denylisted
    key. *)
Theorem normalize_url_drops_untracked_param :
  list_in (param_key "preference=dark") tracking_params = false /\
  _normalize_url "https://example.com/?preference=dark&page=2"
  = Py.Normal "https://example.com/?page=2".
Proof. split; reflexivity. Qed.

(** What does hold of the filter: the surviving parameters keep their
    order, and every parameter with a denylisted key goes. *)
Lemma filter_keeps_order (f : string -> bool) (l : list string) :
  sublist (List.filter f l) l.
Proof.
  induction l as [|x l IH]; simpl.
  - constructor.
  - destruct (f x); [apply sublist_skip | apply sublist_cons]; exact IH.
Qed.

Lemma split_once_prefix (c : ascii) (s : string) :
  String.prefix (Py.split_once c s).1 s = true.
Proof.
  induction s as [|a s IH]; cbn; [reflexivity|].
  destruct (Ascii.eqb a c); [reflexivity|].
  destruct (Py.split_once c s) as [h t]. cbn in *.
  destruct (ascii_dec a a) as [_|Hne]; [exact IH | contradiction].
Qed.

Lemma str_in_prefix (sub s : string) :
  String.prefix sub s = true -> Py.str_in sub s = true.
Proof.
  intros H. destruct s as [|a s].
  - destruct sub; [reflexivity | discriminate H].
  - cbn [Py.str_in]. rewrite H. reflexivity.
Qed.

Lemma tracked_param_is_dropped (p : string) :
  list_in (param_key p) tracking_params = true ->
  negb (existsb (fun tp => Py.str_in tp p) tracking_params) = false.
Proof.
  unfold list_in. intros H. apply existsb_exists in H as (tp & Hin & Heq).
  apply String.eqb_eq in Heq. apply negb_false_iff, existsb_exists.
  exists tp. split; [exact Hin|]. apply str_in_prefix.
  rewrite <- Heq. apply split_once_prefix.
Qed.

Lemma status_modifier_get (url_status : string) :
  dict_get status_modifiers url_status (-0.2)%float
  = if String.eqb url_status "online" then 0.0%float
    else if String.eqb url_status "offline" then (-0.1)%float
    else (-0.2)%float.
Proof.
  unfold status_modifiers. cbn [dict_get].
  rewrite (String.eqb_sym url_status "online"), (String.eqb_sym url_status "offline").
  destruct (String.eqb "online" url_status); [reflexivity|].
  destruct (String.eqb "offline" url_status); [reflexivity|].
  destruct (String.eqb "unknown" url_status); reflexivity.
Qed.

(** C6, amended.  The confidence of a "found" result is base 0.9, with -0.1 if
    [url_status] is "offline" and -0.2 if it is anything other than "online"
    and "offline" ("unknown" included); -0.1 more if [date_added] is a
    non-empty text that [strptime] accepts in the format
    "%Y-%m-%d %H:%M:%S" and [(now - date_added).days] is greater than 30,
    that is, if the record is at least 31 whole days old, an empty date or
    one in another format getting no adjustment; +0.05 with the sum capped
    at 0.95 if a tag is high-risk; the value is clamped to [0, 1] and lies
    there. *)
Theorem calculate_confidence_amended (now : Z) (url_status date_added : string)
    (tags : list string) :
  _calculate_confidence now url_status date_added tags
  = amended_confidence strptime now url_status date_added tags
  /\ in_unit_interval (_calculate_confidence now url_status date_added tags) = true.
Proof.
  unfold _calculate_confidence, amended_confidence, counts_more_than_30_days,
    has_high_risk_tag, clamp01.
  rewrite status_modifier_get.
  set (risky := existsb (fun tag => list_in tag tags) high_risk_tags).
  destruct (String.eqb url_status "online");
    [| destruct (String.eqb url_status "offline")];
    (destruct (nonempty date_added); cbn [andb];
     [ destruct (strptime date_added) as [added|];
       [ rewrite Z.gtb_ltb; destruct (30 <? timedelta_days now added)%Z | ] | ]);
    destruct risky; split; vm_compute; reflexivity.
Qed.

(** ** The structure analyzer *)

(** What does hold: the score lies in [0, 1]. *)
Lemma analyze_url_structure_unit (u : string) (s : float) :
  _analyze_url_structure u = Py.Normal s -> in_unit_interval s = true.
Proof.
  unfold _analyze_url_structure.
  destruct (urlparse u) as [parsed|ex]; [|discriminate].
  intros H. apply Normal_inj in H. subst s. cbn zeta.
  destruct (50 <? String.length (netloc parsed))%nat,
    (Re.match_ false dotted_quad (netloc parsed)),
    (existsb (fun tld => Py.str_in tld (netloc parsed)) suspicious_tlds),
    (3 <? Py.count_char "." (netloc parsed))%nat; vm_compute; reflexivity.
Qed.

(** C8, at inputs where the code departs from it.  The TLD test is a
    substring test on the netloc, so the .com host [www.mlb.com] scores +0.3;
    the IP test is an unanchored prefix match, so the host name
    [192.168.1.1.example.com], which is no dotted quad, scores +0.4 (and +0.2
    for its five dots). *)
Theorem structure_analyzer_flags_by_substring_and_prefix :
  (* a .com host that merely contains ".ml" *)
  _analyze_url_structure "https://www.mlb.com/" = Py.Normal 0.3%float
  /\ existsb (endswith "www.mlb.com") suspicious_tlds = false
  (* a host name that merely starts like a dotted quad *)
  /\ _analyze_url_structure "http://192.168.1.1.example.com/"
     = Py.Normal 0.6000000000000001%float
  /\ fullmatch dotted_quad "192.168.1.1.example.com" = false
  /\ (50 <? String.length "192.168.1.1.example.com")%nat = false.
Proof. repeat split; vm_compute; reflexivity. Qed.

(** ** Database *)

Lemma add_user_report_fresh (e : env) (url description : string)
    (user_id : option string) (d : database) (parsed : ParseResult) :
  urlparse url = Py.Normal parsed ->
  scam_urls d !! _hash_url url = None ->
  let d' := (add_user_report e url description user_id d).2 in
  scam_urls d' !! _hash_url url
  = Some {| su_id := next_scam_url_id d;
            su_url_hash := _hash_url url;
            su_original_url := url;
            su_domain := netloc parsed;
            su_threat_type := "user_reported";
            su_confidence := 0.7%float;
            su_source := "user_report";
            su_tags := None;
            su_first_seen := current_timestamp e;
            su_last_seen := current_timestamp e;
            su_report_count := 2;
            su_is_active := true |}
  /\ length (user_reports d') = S (length (user_reports d))
  /\ detection_history d' = detection_history d.
Proof.
  intros Hparse Hnone. unfold add_user_report. rewrite Hparse.
  unfold insert_or_ignore_scam_url. cbn [scam_urls]. rewrite Hnone.
  cbn [snd fst update_seen scam_urls user_reports detection_history].
  rewrite lookup_alter_eq, lookup_insert_eq. cbn.
  split; [reflexivity|]. split; [|reflexivity].
  rewrite length_app. cbn. lia.
Qed.

Lemma add_user_report_known (e : env) (url description : string)
    (user_id : option string) (d : database) (parsed : ParseResult) (row : scam_url) :
  urlparse url = Py.Normal parsed ->
  scam_urls d !! _hash_url url = Some row ->
  let d' := (add_user_report e url description user_id d).2 in
  scam_urls d' !! _hash_url url = Some (bump e row)
  /\ length (user_reports d') = S (length (user_reports d))
  /\ detection_history d' = detection_history d.
Proof.
  intros Hparse Hsome. unfold add_user_report. rewrite Hparse.
  unfold insert_or_ignore_scam_url. cbn [scam_urls]. rewrite Hsome.
  cbn [snd fst update_seen scam_urls user_reports detection_history].
  rewrite lookup_alter_eq, Hsome. cbn.
  split; [reflexivity|]. split; [|reflexivity].
  rewrite length_app. cbn. lia.
Qed.

(** C7, at an input where the code departs from it.  A first report against
    an empty store creates the record with threat type "user_reported",
    source "user_report" and confidence 0.7, but with [report_count] 2: the
    UPDATE that the source comments as "If URL already exists" also runs on
    the row just inserted. *)
Theorem add_user_report_first_sighting_counts_two (e : env) :
  exists row,
    scam_urls (add_user_report e "https://scam.example" "fake login" None
                 empty_database).2
      !! _hash_url "https://scam.example" = Some row
    /\ su_threat_type row = "user_reported"
    /\ su_source row = "user_report"
    /\ su_confidence row = 0.7%float
    /\ su_report_count row = 2%Z.
Proof.
  destruct (add_user_report_fresh e "https://scam.example" "fake login" None
              empty_database
              {| scheme := "https"; netloc := "scam.example"; path := "";
                 params := ""; query := ""; fragment := "" |}) as (H & _).
  - reflexivity.
  - apply lookup_empty.
  - eexists. split; [exact H|]. repeat split.
Qed.

(** ** The normalized URL parses again *)

Lemma append_nil_l (s : string) : "" ++ s = s.
Proof. reflexivity. Qed.

Lemma append_cons (c : ascii) (a b : string) : String c a ++ b = String c (a ++ b).
Proof. reflexivity. Qed.

Lemma append_nil_r (s : string) : s ++ "" = s.
Proof.
  induction s as [|c s IH]; [reflexivity|]. rewrite append_cons, IH. reflexivity.
Qed.

Lemma forall_chars_app (p : ascii -> bool) (a b : string) :
  forall_chars p (a ++ b) = forall_chars p a && forall_chars p b.
Proof.
  induction a as [|c a IH]; [reflexivity|].
  rewrite append_cons. cbn [forall_chars]. rewrite IH. apply andb_assoc.
Qed.

Lemma remove_chars_safe (s : string) :
  forall_chars safe_char (Py.remove_chars unsafe_url_byte s) = true.
Proof.
  induction s as [|c s IH]; cbn; [reflexivity|].
  destruct (unsafe_url_byte c) eqn:E; [exact IH|].
  cbn. unfold safe_char at 1. rewrite E, IH. reflexivity.
Qed.

Lemma remove_chars_id (s : string) :
  forall_chars safe_char s = true -> Py.remove_chars unsafe_url_byte s = s.
Proof.
  induction s as [|c s IH]; cbn; [reflexivity|].
  unfold safe_char at 1. intros H. apply andb_prop in H as [Hc Hs].
  apply negb_true_iff in Hc. rewrite Hc, (IH Hs). reflexivity.
Qed.

Lemma remove_chars_app (p : ascii -> bool) (a b : string) :
  Py.remove_chars p (a ++ b) = Py.remove_chars p a ++ Py.remove_chars p b.
Proof.
  induction a as [|c a IH]; [reflexivity|].
  rewrite append_cons. cbn [Py.remove_chars].
  destruct (p c); rewrite IH; reflexivity.
Qed.

(** The text that [_splitnetloc] splits is its two parts joined, the first
    part holds no delimiter, and the second is empty or starts with one. *)
Lemma splitnetloc_spec (s h t : string) :
  _splitnetloc s = (h, t) ->
  s = h ++ t
  /\ forall_chars (fun c => negb (delimiter c)) h = true
  /\ starts_with_delimiter t = true.
Proof.
  revert h t. induction s as [|c s IH]; intros h t; cbn [_splitnetloc].
  - intros [= <- <-]. repeat split.
  - change (Py.char_in c "/?#") with (delimiter c). destruct (delimiter c) eqn:E.
    + intros [= <- <-]. repeat split. exact E.
    + destruct (_splitnetloc s) as [h' t'] eqn:Es. intros [= <- <-].
      destruct (IH h' t' eq_refl) as (-> & Hh & Ht).
      repeat split; [|exact Ht].
      cbn [forall_chars]. rewrite E, Hh. reflexivity.
Qed.

Lemma splitnetloc_app (h t : string) :
  forall_chars (fun c => negb (delimiter c)) h = true ->
  starts_with_delimiter t = true ->
  _splitnetloc (h ++ t) = (h, t).
Proof.
  intros Hh Ht. induction h as [|c h IH]; rewrite ?append_nil_l, ?append_cons.
  - destruct t as [|c t]; [reflexivity|]. cbn [_splitnetloc].
    change (Py.char_in c "/?#") with (delimiter c).
    change (delimiter c = true) in Ht. rewrite Ht. reflexivity.
  - cbn [forall_chars] in Hh. apply andb_prop in Hh as [Hc Hh].
    apply negb_true_iff in Hc.
    cbn [_splitnetloc]. change (Py.char_in c "/?#") with (delimiter c).
    rewrite Hc, (IH Hh). reflexivity.
Qed.


Lemma append_assoc (a b c : string) : (a ++ b) ++ c = a ++ (b ++ c).
Proof.
  induction a as [|x a IH]; [reflexivity|].
  rewrite !append_cons, IH. reflexivity.
Qed.

Lemma prefix_app (p s : string) :
  String.prefix p s = true -> exists rest, s = p ++ rest.
Proof.
  revert s. induction p as [|c p IH]; intros s H.
  - exists s. reflexivity.
  - destruct s as [|a s]; [discriminate H|]. cbn in H.
    destruct (ascii_dec c a) as [->|]; [|discriminate H].
    destruct (IH s H) as (rest & ->). exists rest. reflexivity.
Qed.

Lemma urlsplit_http (sch rest : string) :
  http_prefix sch ->
  urlsplit (sch ++ "://" ++ rest)
  = after_scheme sch ("//" ++ Py.remove_chars unsafe_url_byte rest).
Proof.
  intros [-> | ->]; unfold urlsplit.
  - change ("http" ++ "://" ++ rest) with ("http://" ++ rest).
    change (Py.lstrip_by c0_control_or_space ("http://" ++ rest)) with ("http://" ++ rest).
    rewrite remove_chars_app.
    change (Py.remove_chars unsafe_url_byte "http://") with "http://".
    reflexivity.
  - change ("https" ++ "://" ++ rest) with ("https://" ++ rest).
    change (Py.lstrip_by c0_control_or_space ("https://" ++ rest)) with ("https://" ++ rest).
    rewrite remove_chars_app.
    change (Py.remove_chars unsafe_url_byte "https://") with "https://".
    reflexivity.
Qed.

Lemma after_scheme_accepts (sch rest' : string) (nl url' : string) :
  _splitnetloc rest' = (nl, url') ->
  netloc_accepted nl = true ->
  after_scheme sch ("//" ++ rest')
  = let '(path, query, fragment) := split_fragment_query url' in
    Py.Normal (sch, nl, path, query, fragment).
Proof.
  intros Hs. unfold netloc_accepted, after_scheme.
  change ("//" ++ rest') with (String "/" (String "/" rest')). cbv iota beta.
  rewrite Hs. cbv zeta.
  destruct (Py.char_in "[" nl), (Py.char_in "]" nl); cbn [andb orb negb];
    try discriminate; try reflexivity.
  destruct (check_bracketed_netloc nl); [discriminate | reflexivity].
Qed.

Lemma after_scheme_inv (sch rest' : string) (t : string * string * string * string * string) :
  after_scheme sch ("//" ++ rest') = Py.Normal t ->
  exists nl url',
    _splitnetloc rest' = (nl, url')
    /\ netloc_accepted nl = true
    /\ t = (let '(path, query, fragment) := split_fragment_query url' in
            (sch, nl, path, query, fragment)).
Proof.
  destruct (_splitnetloc rest') as [nl url'] eqn:Hs.
  unfold netloc_accepted, after_scheme.
  change ("//" ++ rest') with (String "/" (String "/" rest')). cbv iota beta.
  rewrite Hs. cbv zeta. intros H. exists nl, url'. split; [reflexivity|].
  destruct (Py.char_in "[" nl), (Py.char_in "]" nl); cbn [andb orb negb] in *;
    try discriminate H.
  - destruct (check_bracketed_netloc nl); [discriminate H|].
    split; [reflexivity|].
    destruct (split_fragment_query url') as [[pth q] f]. congruence.
  - split; [reflexivity|].
    destruct (split_fragment_query url') as [[pth q] f]. congruence.
Qed.

Lemma split_once_head (c a : ascii) (s : string) :
  Ascii.eqb a c = false ->
  Py.split_once c (String a s)
  = (String a (Py.split_once c s).1, (Py.split_once c s).2).
Proof.
  intros H. cbn [Py.split_once]. rewrite H.
  destruct (Py.split_once c s); reflexivity.
Qed.

Lemma delimiter_cases (c : ascii) :
  delimiter c = true -> c = "/"%char \/ c = "?"%char \/ c = "#"%char.
Proof.
  unfold delimiter. cbn [Py.char_in]. rewrite orb_false_r.
  intros H. apply orb_prop in H as [H | H]; [|apply orb_prop in H as [H | H]];
    apply Ascii.eqb_eq in H; auto.
Qed.

Lemma path_of_rest (url' : string) :
  starts_with_delimiter url' = true ->
  slash_or_empty (split_fragment_query url').1.1 = true.
Proof.
  unfold split_fragment_query. destruct url' as [|c t]; [reflexivity|].
  cbn [starts_with_delimiter]. intros H.
  destruct (delimiter_cases c H) as [-> | [-> | ->]].
  - rewrite (split_once_head "#" "/" t eq_refl).
    destruct (Py.split_once "#" t) as [h1 f]. cbn [fst snd].
    rewrite (split_once_head "?" "/" h1 eq_refl).
    destruct (Py.split_once "?" h1) as [h2 q]. reflexivity.
  - rewrite (split_once_head "#" "?" t eq_refl).
    destruct (Py.split_once "#" t) as [h1 f]. reflexivity.
  - cbn [Py.split_once]. change (Ascii.eqb "#" "#") with true. cbv iota.
    reflexivity.
Qed.

Lemma rsplit_once_slash (t : string) :
  exists h last, Py.rsplit_once "/" (String "/" t) = Some (h, last)
                 /\ slash_or_empty (h ++ "/") = true.
Proof.
  cbn [Py.rsplit_once]. destruct (Py.rsplit_once "/" t) as [[h last]|].
  - exists (String "/" h), last. split; reflexivity.
  - exists EmptyString, t. split; reflexivity.
Qed.

Lemma splitparams_path (url3 : string) :
  slash_or_empty url3 = true -> slash_or_empty (_splitparams url3).1 = true.
Proof.
  destruct url3 as [|c t]; [reflexivity|].
  cbn [slash_or_empty]. intros H. apply Ascii.eqb_eq in H. subst c.
  unfold _splitparams. change (Py.char_in "/" (String "/" t)) with true. cbv iota.
  destruct (rsplit_once_slash t) as (h & last & -> & Hh).
  destruct (Py.split_once ";" last) as [before [after|]]; [|reflexivity].
  cbn [fst]. destruct h as [|x h]; [reflexivity|].
  rewrite !append_cons in *. exact Hh.
Qed.

Lemma safe_prefix_of_removed (rest nl url' : string) :
  _splitnetloc (Py.remove_chars unsafe_url_byte rest) = (nl, url') ->
  forall_chars safe_char nl = true.
Proof.
  intros H. destruct (splitnetloc_spec _ _ _ H) as (Heq & _ & _).
  pose proof (remove_chars_safe rest) as Hsafe. rewrite Heq in Hsafe.
  rewrite forall_chars_app in Hsafe. apply andb_prop in Hsafe as [Hnl _]. exact Hnl.
Qed.

Lemma removed_starts_with_delimiter (pth qs : string) :
  slash_or_empty pth = true ->
  (qs = "" \/ exists cq, qs = "?" ++ cq) ->
  starts_with_delimiter (Py.remove_chars unsafe_url_byte (pth ++ qs)) = true.
Proof.
  intros Hp Hq. destruct pth as [|c t].
  - rewrite append_nil_l. destruct Hq as [-> | (cq & ->)]; reflexivity.
  - cbn [slash_or_empty] in Hp. apply Ascii.eqb_eq in Hp. subst c. reflexivity.
Qed.

(** The URL that [_normalize_url] returns parses again, and is not empty. *)
Lemma normalized_url_parses (raw n : string) :
  _normalize_url raw = Py.Normal n ->
  (exists parsed, urlparse n = Py.Normal parsed) /\ String.length n <> 0.
Proof.
  unfold _normalize_url.
  match goal with
  | |- context [urlparse ?x] => remember x as u eqn:Hu0
  end.
  assert (Hu : exists sch rest, http_prefix sch /\ u = sch ++ "://" ++ rest).
  { subst u. destruct (Py.startswith raw "http://") eqn:E1.
    - apply prefix_app in E1 as (rest & ->). exists "http", rest.
      split; [left; reflexivity | reflexivity].
    - destruct (Py.startswith raw "https://") eqn:E2.
      + apply prefix_app in E2 as (rest & ->). exists "https", rest.
        split; [right; reflexivity | reflexivity].
      + exists "https", raw. split; [right; reflexivity | reflexivity]. }
  clear Hu0. destruct Hu as (sch & rest & Hsch & ->).
  unfold urlparse at 1. rewrite (urlsplit_http sch rest Hsch).
  destruct (after_scheme sch ("//" ++ Py.remove_chars unsafe_url_byte rest))
    as [t|ex] eqn:Ha; [|discriminate].
  apply after_scheme_inv in Ha as (nl & url' & Hs & Hacc & ->).
  pose proof (safe_prefix_of_removed _ _ _ Hs) as Hsafe.
  destruct (splitnetloc_spec _ _ _ Hs) as (_ & Hnodelim & Hdelim).
  pose proof (path_of_rest url' Hdelim) as Hpath.
  destruct (split_fragment_query url') as [[url3 q] f]. cbn [fst] in Hpath.
  match goal with
  | |- context [if ?c then _splitparams url3 else (url3, EmptyString)] =>
      assert (Hpth : slash_or_empty
                       (if c then _splitparams url3 else (url3, EmptyString)).1 = true)
        by (destruct c; [apply splitparams_path; exact Hpath | exact Hpath]);
      destruct (if c then _splitparams url3 else (url3, EmptyString)) as [pth prm]
  end.
  cbn [fst] in Hpth. cbn [scheme netloc path query].
  match goal with
  | |- context [if nonempty ?cq then _ else _] =>
      set (clean_query := cq)
  end.
  set (qs := if nonempty clean_query then "?" ++ clean_query else "").
  assert (Hqs : qs = "" \/ exists cq, qs = "?" ++ cq).
  { subst qs. destruct (nonempty clean_query); [right; eauto | left; reflexivity]. }
  intros Hn. apply Normal_inj in Hn.
  assert (Hn' : n = sch ++ "://" ++ (nl ++ (pth ++ qs))).
  { rewrite <- Hn. subst qs. destruct (nonempty clean_query).
    - rewrite !append_assoc. reflexivity.
    - rewrite append_nil_r. reflexivity. }
  clear Hn. subst n. split.
  - unfold urlparse. rewrite (urlsplit_http sch _ Hsch).
    rewrite remove_chars_app, (remove_chars_id nl Hsafe).
    rewrite (after_scheme_accepts sch _ nl
               (Py.remove_chars unsafe_url_byte (pth ++ qs))).
    + destruct (split_fragment_query _) as [[p2 q2] f2].
      destruct (list_in sch uses_params && Py.char_in ";" p2);
        [destruct (_splitparams p2)|]; eexists; reflexivity.
    + apply splitnetloc_app; [exact Hnodelim|].
      apply removed_starts_with_delimiter; assumption.
    + exact Hacc.
  - destruct Hsch as [-> | ->]; discriminate.
Qed.

(** ** The exception handler *)

Lemma analyze_url_unfold (e : env) (url : string) (st : state) :
  analyze_url e url st
  = match analyze_url_body e url st with
    | (Py.Normal r, st') => (Py.Normal (Analysed r), st')
    | (Py.Raise ex, st') => (Py.Normal (Failed url (Py.str_of_exn ex)), st')
    end.
Proof.
  unfold analyze_url, try_except, mbind, M_bind, mret, M_ret.
  destruct (analyze_url_body e url st) as [[r|ex] st']; reflexivity.
Qed.

(** C2.  For every input string, [analyze_url] returns a verdict and raises
    nothing; and if its [try] block raises, the returned verdict has
    [threat_level] "unknown" and [is_suspicious] false. *)
Theorem analyze_url_never_raises (e : env) (url : string) (st : state) :
  exists v st',
    analyze_url e url st = (Py.Normal v, st')
    /\ (forall ex st'', analyze_url_body e url st = (Py.Raise ex, st'') ->
        verdict_dict v !! "threat_level" = Some (VStr "unknown")
        /\ verdict_dict v !! "is_suspicious" = Some (VBool false)).
Proof.
  rewrite analyze_url_unfold.
  destruct (analyze_url_body e url st) as [[r|ex] st'].
  - exists (Analysed r), st'. split; [reflexivity|]. intros ex st'' H. discriminate H.
  - exists (Failed url (Py.str_of_exn ex)), st'. split; [reflexivity|].
    intros _ _ _. split; reflexivity.
Qed.

(** C10.  When an exception escapes the [try] block, [analyze_url] returns
    the dictionary with exactly the keys url, is_suspicious, threat_level,
    error and message, where url is the raw input, is_suspicious is false and
    threat_level is "unknown"; the keys confidence, detection_methods and
    warnings are absent. *)
Theorem analyze_url_error_dictionary (e : env) (url : string) (st st' : state)
    (ex : Py.exn) :
  analyze_url_body e url st = (Py.Raise ex, st') ->
  exists v,
    analyze_url e url st = (Py.Normal v, st')
    /\ dom (verdict_dict v)
       = ({[ "url"; "is_suspicious"; "threat_level"; "error"; "message" ]} : gset string)
    /\ verdict_dict v !! "url" = Some (VStr url)
    /\ verdict_dict v !! "is_suspicious" = Some (VBool false)
    /\ verdict_dict v !! "threat_level" = Some (VStr "unknown")
    /\ verdict_dict v !! "error" = Some (VStr (Py.str_of_exn ex))
    /\ verdict_dict v !! "message" = Some (VStr "Unable to analyze this URL at the moment.")
    /\ verdict_dict v !! "confidence" = None
    /\ verdict_dict v !! "detection_methods" = None
    /\ verdict_dict v !! "warnings" = None.
Proof.
  intros H. exists (Failed url (Py.str_of_exn ex)).
  rewrite analyze_url_unfold, H. split; [reflexivity|].
  split.
  { unfold verdict_dict. rewrite !dom_insert_L, dom_empty_L. set_solver. }
  repeat split; reflexivity.
Qed.

(** ** Running the monad *)

Lemma bind_normal {A B : Type} (m : M A) (f : A -> M B) (st st' : state) (a : A) :
  m st = (Py.Normal a, st') -> (m ≫= f) st = f a st'.
Proof. intros H. unfold mbind, M_bind. rewrite H. reflexivity. Qed.

Lemma bind_raise {A B : Type} (m : M A) (f : A -> M B) (st st' : state) (ex : Py.exn) :
  m st = (Py.Raise ex, st') -> (m ≫= f) st = (Py.Raise ex, st').
Proof. intros H. unfold mbind, M_bind. rewrite H. reflexivity. Qed.

Lemma on_db_run {A : Type} (f : database -> A * database) (st : state) :
  on_db f st = (Py.Normal (f (db st)).1, {| db := (f (db st)).2; trace := trace st |}).
Proof. unfold on_db. destruct (f (db st)); reflexivity. Qed.

(** ** The shape of a run *)

Lemma _check_urlhaus_run (e : env) (n : string) (st : state) :
  exists uh tr,
    _check_urlhaus e n st = (Py.Normal uh, {| db := db st; trace := (trace st ++ tr)%list |}).
Proof.
  unfold _check_urlhaus. destruct (negb (auth_key_set e)).
  - eexists _, []. unfold mret, M_ret. rewrite app_nil_r. destruct st; reflexivity.
  - eexists _, [_]. unfold mbind, M_bind, invoke, mret, M_ret. cbn. reflexivity.
Qed.

Lemma check_urlhaus_host_run (e : env) (host : string) (st : state) :
  exists hr tr,
    check_urlhaus_host e host st
    = (Py.Normal hr, {| db := db st; trace := (trace st ++ tr)%list |}).
Proof.
  unfold check_urlhaus_host. destruct (negb (auth_key_set e)).
  - eexists _, []. unfold mret, M_ret. rewrite app_nil_r. destruct st; reflexivity.
  - eexists _, [_]. unfold mbind, M_bind, invoke, mret, M_ret. cbn. reflexivity.
Qed.

Lemma _check_phish_tank_run (e : env) (n : string) (st : state) :
  exists pt tr,
    _check_phish_tank e n st
    = (Py.Normal pt, {| db := db st; trace := (trace st ++ tr)%list |}).
Proof.
  unfold _check_phish_tank. eexists _, [_].
  unfold mbind, M_bind, invoke, mret, M_ret. cbn. reflexivity.
Qed.

Lemma method2_urlhaus_host_failed (r : Results) : method2_urlhaus_host host_failed r = r.
Proof. reflexivity. Qed.

Lemma method2_host_extra_failed (r : Results) : method2_host_extra host_failed r = r.
Proof. reflexivity. Qed.

Lemma host_check_run (e : env) (n : string) (method : HostResult -> Results -> Results)
    (r : Results) (st : state) :
  method host_failed r = r ->
  match urlparse n with
  | Py.Raise ex =>
      host_check check_bracketed_netloc e n method r st = (Py.Raise ex, st)
  | Py.Normal _ =>
      exists hr tr,
        host_check check_bracketed_netloc e n method r st
        = (Py.Normal (method hr r), {| db := db st; trace := (trace st ++ tr)%list |})
  end.
Proof.
  intros Hfailed. unfold host_check.
  destruct (urlparse n) as [parsed|ex] eqn:Hparse.
  - rewrite (bind_normal _ _ st st parsed) by (unfold lift; reflexivity).
    destruct (nonempty (netloc parsed)).
    + destruct (check_urlhaus_host_run e (netloc parsed) st) as (hr & tr & Hrun).
      rewrite (bind_normal _ _ _ _ _ Hrun). exists hr, tr. reflexivity.
    + exists host_failed, []. rewrite Hfailed, app_nil_r.
      unfold mret, M_ret. destruct st; reflexivity.
  - apply bind_raise. reflexivity.
Qed.

(** Every returning run of the [try] block took one of three paths. *)
Lemma analyze_url_body_shape (e : env) (raw : string) (st st' : state) (r : Results) :
  analyze_url_body e raw st = (Py.Normal r, st') ->
  exists n,
    _normalize_url raw = Py.Normal n
    /\ let init := initial_results n (time_time e) in
       (* Method 1 returned early *)
       (exists row,
          scam_urls (db st) !! _hash_url n = Some row
          /\ su_is_active row = true
          /\ r = finish (method1_local_database (db_result_of row) init)
          /\ trace st' = trace st)
       \/
       (* Method 2 returned early *)
       (exists uh hr parsed,
          check_url_in_database e n (db st) = (None, db st)
          /\ uh_is_malicious uh = true
          /\ urlparse n = Py.Normal parsed
          /\ r = finish (method2_host_extra hr (method2_urlhaus uh init))
          /\ scam_urls (db st')
             = scam_urls (add_user_report e n ("Detected by URLhaus: " ++ uh_details uh)
                           None (db st)).2)
       \/
       (* the remaining methods ran *)
       (exists hr pt s4 s5,
          check_url_in_database e n (db st) = (None, db st)
          /\ _pattern_analysis n = Py.Normal s4
          /\ _analyze_url_structure n = Py.Normal s5
          /\ r = finish
                 (method6_myanmar (_detect_myanmar_scams n)
                    (method5_structure s5
                       (method4_pattern s4
                          (method3_phish_tank pt
                             (method2_urlhaus_host hr init)))))
          /\ db st' = db st).
Proof.
  unfold analyze_url_body. intros Hrun.
  destruct (_normalize_url raw) as [n|ex] eqn:Hnorm.
  2:{ rewrite (bind_raise _ _ st st ex) in Hrun by (unfold lift; reflexivity).
      discriminate Hrun. }
  rewrite (bind_normal _ _ st st n) in Hrun by (unfold lift; reflexivity).
  cbn zeta in Hrun. exists n. split; [reflexivity|]. cbn zeta.
  set (init := initial_results n (time_time e)) in *.
  destruct (check_url_in_database e n (db st)) as [[dbr|] d1] eqn:Hcheck.
  - (* hit *)
    rewrite (bind_normal _ _ st {| db := d1; trace := trace st |} (Some dbr)) in Hrun
      by (unfold on_db; rewrite Hcheck; reflexivity).
    cbn iota in Hrun.
    unfold log_results in Hrun.
    unfold mbind, M_bind, on_db, mret, M_ret in Hrun. cbn in Hrun.
    injection Hrun as <- <-.
    left. unfold check_url_in_database in Hcheck.
    destruct (scam_urls (db st) !! _hash_url n) as [row|] eqn:Hrow; [|discriminate Hcheck].
    destruct (su_is_active row) eqn:Hactive; [|discriminate Hcheck].
    injection Hcheck as <- <-. exists row. repeat split; try assumption; reflexivity.
  - (* miss *)
    assert (Hd1 : d1 = db st).
    { unfold check_url_in_database in Hcheck.
      destruct (scam_urls (db st) !! _hash_url n) as [row|]; [|congruence].
      destruct (su_is_active row); congruence. }
    subst d1.
    rewrite (bind_normal _ _ st st None) in Hrun
      by (unfold on_db; rewrite Hcheck; destruct st; reflexivity).
    cbn iota in Hrun.
    destruct (_check_urlhaus_run e n st) as (uh & tr1 & Huh).
    rewrite (bind_normal _ _ _ _ _ Huh) in Hrun.
    destruct (uh_is_malicious uh) eqn:Hmal.
    + (* URLhaus detection *)
      right; left.
      erewrite bind_normal in Hrun by apply on_db_run.
      cbn [db trace] in Hrun.
      match type of Hrun with
      | context [host_check _ _ _ ?m ?r0] =>
          pose proof (host_check_run e n m r0) as Hhost
      end.
      match type of Hrun with
      | (_ ≫= _) ?s = _ => specialize (Hhost s (method2_host_extra_failed _))
      end.
      destruct (urlparse n) as [parsed|ex] eqn:Hparse.
      2:{ rewrite (bind_raise _ _ _ _ _ Hhost) in Hrun. discriminate Hrun. }
      destruct Hhost as (hr & tr2 & Hhost).
      rewrite (bind_normal _ _ _ _ _ Hhost) in Hrun.
      unfold log_results in Hrun.
      unfold mbind, M_bind, on_db, mret, M_ret in Hrun. cbn in Hrun.
      injection Hrun as <- <-.
      exists uh, hr, parsed. repeat split; try assumption; reflexivity.
    + (* fall through *)
      right; right.
      match type of Hrun with
      | context [host_check _ _ _ ?m ?r0] =>
          pose proof (host_check_run e n m r0) as Hhost
      end.
      match type of Hrun with
      | (_ ≫= _) ?s = _ => specialize (Hhost s (method2_urlhaus_host_failed _))
      end.
      destruct (urlparse n) as [parsed|ex] eqn:Hparse.
      2:{ rewrite (bind_raise _ _ _ _ _ Hhost) in Hrun. discriminate Hrun. }
      destruct Hhost as (hr & tr2 & Hhost).
      rewrite (bind_normal _ _ _ _ _ Hhost) in Hrun.
      match type of Hrun with
      | (_check_phish_tank e n ≫= _) ?s = _ =>
          destruct (_check_phish_tank_run e n s) as (pt & tr3 & Hpt)
      end.
      rewrite (bind_normal _ _ _ _ _ Hpt) in Hrun.
      cbn zeta in Hrun.
      erewrite bind_normal in Hrun by (unfold invoke; reflexivity).
      destruct (_pattern_analysis n) as [s4|ex] eqn:Hs4.
      2:{ erewrite bind_raise in Hrun by (unfold lift; reflexivity). discriminate Hrun. }
      erewrite bind_normal in Hrun by (unfold lift; reflexivity).
      cbn zeta in Hrun.
      erewrite bind_normal in Hrun by (unfold invoke; reflexivity).
      destruct (_analyze_url_structure n) as [s5|ex] eqn:Hs5.
      2:{ erewrite bind_raise in Hrun by (unfold lift; reflexivity). discriminate Hrun. }
      erewrite bind_normal in Hrun by (unfold lift; reflexivity).
      cbn zeta in Hrun.
      erewrite bind_normal in Hrun by (unfold invoke; reflexivity).
      cbn zeta in Hrun. unfold mret, M_ret in Hrun.
      injection Hrun as <- <-.
      exists hr, pt, s4, s5. repeat split; try assumption; reflexivity.
Qed.

(** Once the input is normalized, the [try] block returns. *)
Lemma pattern_analysis_returns (n : string) :
  String.length n <> 0 -> exists s4, _pattern_analysis n = Py.Normal s4.
Proof.
  intros H. unfold _pattern_analysis.
  destruct (String.length n); [contradiction|]. eexists. reflexivity.
Qed.

Lemma analyze_url_body_returns (e : env) (raw n : string) (st : state) :
  _normalize_url raw = Py.Normal n ->
  exists r st', analyze_url_body e raw st = (Py.Normal r, st').
Proof.
  intros Hnorm.
  destruct (normalized_url_parses raw n Hnorm) as ((parsed & Hparse) & Hlen).
  destruct (pattern_analysis_returns n Hlen) as (s4 & Hs4).
  unfold analyze_url_body.
  rewrite (bind_normal _ _ st st n) by (unfold lift; rewrite Hnorm; reflexivity).
  cbn zeta.
  erewrite bind_normal by apply on_db_run.
  destruct (check_url_in_database e n (db st)).1 as [dbr|].
  - unfold log_results. erewrite bind_normal by apply on_db_run.
    eexists _, _. reflexivity.
  - match goal with
    | |- context [(_check_urlhaus e n ≫= _) ?s] =>
        destruct (_check_urlhaus_run e n s) as (uh & tr1 & Huh)
    end.
    rewrite (bind_normal _ _ _ _ _ Huh).
    destruct (uh_is_malicious uh).
    + erewrite bind_normal by apply on_db_run.
      match goal with
      | |- context [(host_check _ _ _ ?m ?r0 ≫= _) ?s] =>
          pose proof (host_check_run e n m r0 s (method2_host_extra_failed _)) as Hhost
      end.
      rewrite Hparse in Hhost. destruct Hhost as (hr & tr2 & Hhost).
      rewrite (bind_normal _ _ _ _ _ Hhost).
      unfold log_results. erewrite bind_normal by apply on_db_run.
      eexists _, _. reflexivity.
    + match goal with
      | |- context [(host_check _ _ _ ?m ?r0 ≫= _) ?s] =>
          pose proof (host_check_run e n m r0 s (method2_urlhaus_host_failed _)) as Hhost
      end.
      rewrite Hparse in Hhost. destruct Hhost as (hr & tr2 & Hhost).
      rewrite (bind_normal _ _ _ _ _ Hhost).
      match goal with
      | |- context [(_check_phish_tank e n ≫= _) ?s] =>
          destruct (_check_phish_tank_run e n s) as (pt & tr3 & Hpt)
      end.
      rewrite (bind_normal _ _ _ _ _ Hpt). cbn zeta.
      erewrite bind_normal by (unfold invoke; reflexivity).
      erewrite bind_normal by (unfold lift; rewrite Hs4; reflexivity).
      cbn zeta.
      erewrite bind_normal by (unfold invoke; reflexivity).
      erewrite bind_normal
        by (unfold lift, _analyze_url_structure; rewrite Hparse; reflexivity).
      cbn zeta.
      erewrite bind_normal by (unfold invoke; reflexivity).
      eexists _, _. reflexivity.
Qed.

(** So the handler is reached only from the normalizer, before any method
    has run and with the state as it was. *)
Lemma analyze_url_body_raises (e : env) (raw : string) (st st' : state) (ex : Py.exn) :
  analyze_url_body e raw st = (Py.Raise ex, st') ->
  _normalize_url raw = Py.Raise ex /\ st' = st.
Proof.
  intros Hrun. destruct (_normalize_url raw) as [n|ex0] eqn:Hnorm.
  - destruct (analyze_url_body_returns e raw n st Hnorm) as (r & st1 & H).
    rewrite H in Hrun. discriminate Hrun.
  - unfold analyze_url_body in Hrun.
    rewrite (bind_raise _ _ st st ex0) in Hrun by (unfold lift; rewrite Hnorm; reflexivity).
    injection Hrun as -> ->. split; reflexivity.
Qed.

(** A hit in the local store, run forward. *)
Lemma local_hit_run (e : env) (raw n : string) (st : state) (row : scam_url) :
  _normalize_url raw = Py.Normal n ->
  scam_urls (db st) !! _hash_url n = Some row ->
  su_is_active row = true ->
  let results :=
    method1_local_database (db_result_of row) (initial_results n (time_time e)) in
  analyze_url_body e raw st
  = (Py.Normal (finish results),
     {| db := log_detection e n (level_str (threat_level results)) (confidence results)
                (detection_methods results) (is_suspicious results) None
                (update_seen e (_hash_url n) (db st));
        trace := trace st |}).
Proof.
  intros Hnorm Hrow Hactive. unfold analyze_url_body.
  rewrite (bind_normal _ _ st st n) by (unfold lift; rewrite Hnorm; reflexivity).
  cbn zeta.
  erewrite bind_normal by apply on_db_run.
  unfold check_url_in_database. rewrite Hrow, Hactive.
  cbn [fst snd]. unfold log_results.
  erewrite bind_normal by apply on_db_run.
  reflexivity.
Qed.

(** C1.  For every URL whose normalized form [n] has an active record in the
    local threat store, [analyze_url] returns a verdict with threat level
    critical, [is_suspicious] true, [detection_methods] equal to
    [["local_database"]] and confidence equal (as floats compare) to
    [min(record.confidence, 1.0)].  The tier is terminal: the call appends one
    row to [detection_history] and leaves the trace of invoked collaborators
    as it was, so no URLhaus URL query, no URLhaus host query, no PhishTank
    query and no heuristic analyzer ran. *)
Theorem local_database_hit_is_terminal (e : env) (raw n : string) (st : state)
    (row : scam_url) :
  _normalize_url raw = Py.Normal n ->
  scam_urls (db st) !! _hash_url n = Some row ->
  su_is_active row = true ->
  is_number (su_confidence row) = true ->
  exists r st' ev,
    analyze_url e raw st = (Py.Normal (Analysed r), st')
    /\ threat_level r = critical
    /\ is_suspicious r = true
    /\ detection_methods r = ["local_database"]
    /\ (confidence r =? Py.min (su_confidence row) 1.0)%float = true
    /\ trace st' = trace st
    /\ detection_history (db st') = (detection_history (db st) ++ [ev])%list
    /\ dh_url_hash ev = _hash_url n
    /\ dh_threat_level ev = "critical"
    /\ dh_detection_methods ev = ["local_database"]
    /\ dh_is_suspicious ev = true.
Proof.
  intros Hnorm Hrow Hactive Hnum.
  rewrite analyze_url_unfold, (local_hit_run e raw n st row Hnorm Hrow Hactive).
  eexists _, _, _. split; [reflexivity|].
  cbn. repeat split; try reflexivity.
  apply min_add_zero. exact Hnum.
Qed.

(** ** What the methods leave untouched *)

Ltac case_methods :=
  unfold finish, method6_myanmar, method5_structure, method4_pattern,
    method3_phish_tank, method2_urlhaus_host, method2_host_extra, method2_urlhaus,
    method1_local_database.

Lemma method_step_url (f : Results -> Results) (r : Results) :
  method_step f -> url (f r) = url r.
Proof.
  intros []; case_methods;
    repeat match goal with
           | |- context [if ?b then _ else _] => destruct b
           end; reflexivity.
Qed.

(** ** What each method does to one key *)

Lemma methods_host (hr : HostResult) (r : Results) :
  detection_methods (method2_urlhaus_host hr r)
  = (detection_methods r ++ tag_if (host_is_malicious hr) "urlhaus_host")%list.
Proof.
  unfold method2_urlhaus_host, tag_if. destruct (host_is_malicious hr); cbn;
    [reflexivity | symmetry; apply app_nil_r].
Qed.

Lemma methods_phish_tank (pt : PhishTankResult) (r : Results) :
  detection_methods (method3_phish_tank pt r)
  = (detection_methods r ++ tag_if (pk_is_phishing pt) "phish_tank")%list.
Proof.
  unfold method3_phish_tank, tag_if. destruct (pk_is_phishing pt); cbn;
    [| symmetry; apply app_nil_r].
  destruct (level_eqb (threat_level r) safe); [reflexivity|].
  destruct (level_eqb (threat_level r) high); reflexivity.
Qed.

Lemma methods_pattern (s4 : float) (r : Results) :
  detection_methods (method4_pattern s4 r)
  = (detection_methods r ++ tag_if (0.3 <? s4)%float "pattern_analysis")%list.
Proof.
  unfold method4_pattern, tag_if. destruct (0.3 <? s4)%float; cbn;
    [| symmetry; apply app_nil_r].
  destruct (level_eqb (threat_level r) safe); [|reflexivity].
  destruct (0.7 <? s4)%float; reflexivity.
Qed.

Lemma methods_structure (s5 : float) (r : Results) :
  detection_methods (method5_structure s5 r)
  = (detection_methods r ++ tag_if (0.6 <? s5)%float "url_structure")%list.
Proof.
  unfold method5_structure, tag_if. destruct (0.6 <? s5)%float; cbn;
    [| symmetry; apply app_nil_r].
  destruct (level_eqb (threat_level r) safe); reflexivity.
Qed.

Lemma methods_myanmar (s6 : float) (r : Results) :
  detection_methods (method6_myanmar s6 r)
  = (detection_methods r ++ tag_if (0.7 <? s6)%float "myanmar_specific")%list.
Proof.
  unfold method6_myanmar, tag_if. destruct (0.7 <? s6)%float; cbn;
    [| symmetry; apply app_nil_r].
  destruct (level_eqb (threat_level r) safe); [reflexivity|].
  destruct (level_eqb (threat_level r) medium); reflexivity.
Qed.

Lemma methods_finish (r : Results) : detection_methods (finish r) = detection_methods r.
Proof. reflexivity. Qed.

(** The methods list of the fall-through path. *)
Lemma methods_fallthrough (hr : HostResult) (pt : PhishTankResult) (s4 s5 s6 : float)
    (init : Results) :
  detection_methods
    (finish (method6_myanmar s6 (method5_structure s5 (method4_pattern s4
       (method3_phish_tank pt (method2_urlhaus_host hr init))))))
  = (detection_methods init
     ++ tag_if (host_is_malicious hr) "urlhaus_host"
     ++ tag_if (pk_is_phishing pt) "phish_tank"
     ++ tag_if (0.3 <? s4)%float "pattern_analysis"
     ++ tag_if (0.6 <? s5)%float "url_structure"
     ++ tag_if (0.7 <? s6)%float "myanmar_specific")%list.
Proof.
  rewrite methods_finish, methods_myanmar, methods_structure, methods_pattern,
    methods_phish_tank, methods_host.
  rewrite <- !app_assoc. reflexivity.
Qed.

(** C9.  When a call returns with "urlhaus" among its methods and the store
    held no record for the normalized URL, the record written through
    [add_user_report] has threat type "user_reported", source "user_report"
    and confidence 0.7; and a following call on the same URL, in any
    environment, stops at the local store with confidence 0.7. *)
Theorem urlhaus_write_through_is_user_report (e e2 : env) (raw : string)
    (st st1 : state) (r1 : Results) :
  analyze_url e raw st = (Py.Normal (Analysed r1), st1) ->
  list_in "urlhaus" (detection_methods r1) = true ->
  scam_urls (db st) !! _hash_url (url r1) = None ->
  (exists row,
     scam_urls (db st1) !! _hash_url (url r1) = Some row
     /\ su_threat_type row = "user_reported"
     /\ su_source row = "user_report"
     /\ su_confidence row = 0.7%float)
  /\ (exists r2 st2,
        analyze_url e2 raw st1 = (Py.Normal (Analysed r2), st2)
        /\ detection_methods r2 = ["local_database"]
        /\ threat_level r2 = critical
        /\ confidence r2 = 0.7%float
        /\ trace st2 = trace st1).
Proof.
  intros Hrun Hfired Hfresh.
  rewrite analyze_url_unfold in Hrun.
  destruct (analyze_url_body e raw st) as [[r|ex] st''] eqn:Hbody; [|discriminate Hrun].
  injection Hrun as -> ->.
  destruct (analyze_url_body_shape e raw st st1 r1 Hbody) as (n & Hnorm & Hshape).
  cbn zeta in Hshape.
  destruct Hshape as [(row & _ & _ & -> & _) | [(uh & hr & parsed & Hmiss & Hmal & Hparse & -> & Hdb) | (hr & pt & s4 & s5 & _ & _ & _ & -> & _)]].
  - (* the local store answered: "urlhaus" is not among the methods *)
    discriminate Hfired.
  - assert (Hurl : url (finish (method2_host_extra hr
                      (method2_urlhaus uh (initial_results n (time_time e))))) = n).
    { rewrite !method_step_url by constructor. reflexivity. }
    rewrite Hurl in *.
    destruct (add_user_report_fresh e n ("Detected by URLhaus: " ++ uh_details uh) None
                (db st) parsed Hparse Hfresh) as (Hrow & _ & _).
    rewrite <- Hdb in Hrow.
    split.
    + eexists. split; [exact Hrow|]. repeat split.
    + rewrite analyze_url_unfold.
      rewrite (local_hit_run e2 raw n st1 _ Hnorm Hrow eq_refl).
      eexists _, _. split; [reflexivity|]. repeat split.
  - (* the remaining methods never add "urlhaus" *)
    exfalso. revert Hfired. rewrite methods_fallthrough.
    destruct (host_is_malicious hr), (pk_is_phishing pt), (0.3 <? s4)%float,
      (0.6 <? s5)%float, (0.7 <? _detect_myanmar_scams n)%float;
      discriminate.
Qed.

(** ** Threat levels along a run *)

Lemma level_host (hr : HostResult) (r : Results) :
  threat_level (method2_urlhaus_host hr r)
  = if host_is_malicious hr then high else threat_level r.
Proof. unfold method2_urlhaus_host. destruct (host_is_malicious hr); reflexivity. Qed.

Lemma level_phish_tank (pt : PhishTankResult) (r : Results) :
  threat_level (method3_phish_tank pt r)
  = if pk_is_phishing pt then
      if level_eqb (threat_level r) safe then critical
      else if level_eqb (threat_level r) high then critical
      else threat_level r
    else threat_level r.
Proof.
  unfold method3_phish_tank. destruct (pk_is_phishing pt); [|reflexivity]. cbn.
  destruct (level_eqb (threat_level r) safe); [reflexivity|].
  destruct (level_eqb (threat_level r) high); reflexivity.
Qed.

Lemma level_pattern (s4 : float) (r : Results) :
  threat_level (method4_pattern s4 r)
  = if (0.3 <? s4)%float then
      if level_eqb (threat_level r) safe then
        if (0.7 <? s4)%float then high else medium
      else threat_level r
    else threat_level r.
Proof.
  unfold method4_pattern. destruct (0.3 <? s4)%float; [|reflexivity]. cbn.
  destruct (level_eqb (threat_level r) safe); [|reflexivity].
  destruct (0.7 <? s4)%float; reflexivity.
Qed.

Lemma level_structure (s5 : float) (r : Results) :
  threat_level (method5_structure s5 r)
  = if (0.6 <? s5)%float then
      if level_eqb (threat_level r) safe then medium else threat_level r
    else threat_level r.
Proof.
  unfold method5_structure. destruct (0.6 <? s5)%float; [|reflexivity]. cbn.
  destruct (level_eqb (threat_level r) safe); reflexivity.
Qed.

Lemma level_myanmar (s6 : float) (r : Results) :
  threat_level (method6_myanmar s6 r)
  = if (0.7 <? s6)%float then
      if level_eqb (threat_level r) safe then high
      else if level_eqb (threat_level r) medium then high
      else threat_level r
    else threat_level r.
Proof.
  unfold method6_myanmar. destruct (0.7 <? s6)%float; [|reflexivity]. cbn.
  destruct (level_eqb (threat_level r) safe); [reflexivity|].
  destruct (level_eqb (threat_level r) medium); reflexivity.
Qed.

Lemma level_finish (r : Results) : threat_level (finish r) = threat_level r.
Proof. reflexivity. Qed.

Lemma level_host_extra (hr : HostResult) (r : Results) :
  threat_level (method2_host_extra hr r) = threat_level r.
Proof.
  unfold method2_host_extra. destruct (host_is_malicious hr); [|reflexivity].
  destruct (negb (list_in "urlhaus_host" (detection_methods r))); reflexivity.
Qed.

(** No method lowers the level.  The host check of the fall-through path
    writes "high" outright; it runs on results that no earlier method has
    touched, which is what its premise records. *)
Lemma rises_host (hr : HostResult) (r : Results) :
  threat_level r = safe ->
  severity (threat_level r) <= severity (threat_level (method2_urlhaus_host hr r)).
Proof.
  intros H. rewrite level_host, H. destruct (host_is_malicious hr); cbn; lia.
Qed.

Lemma rises_phish_tank (pt : PhishTankResult) (r : Results) :
  severity (threat_level r) <= severity (threat_level (method3_phish_tank pt r)).
Proof.
  rewrite level_phish_tank.
  destruct (pk_is_phishing pt), (threat_level r); cbn; lia.
Qed.

Lemma rises_pattern (s4 : float) (r : Results) :
  severity (threat_level r) <= severity (threat_level (method4_pattern s4 r)).
Proof.
  rewrite level_pattern.
  destruct (0.3 <? s4)%float, (0.7 <? s4)%float, (threat_level r); cbn; lia.
Qed.

Lemma rises_structure (s5 : float) (r : Results) :
  severity (threat_level r) <= severity (threat_level (method5_structure s5 r)).
Proof.
  rewrite level_structure.
  destruct (0.6 <? s5)%float, (threat_level r); cbn; lia.
Qed.

Lemma rises_myanmar (s6 : float) (r : Results) :
  severity (threat_level r) <= severity (threat_level (method6_myanmar s6 r)).
Proof.
  rewrite level_myanmar.
  destruct (0.7 <? s6)%float, (threat_level r); cbn; lia.
Qed.

Lemma rises_to_critical (r r' : Results) :
  threat_level r' = critical ->
  severity (threat_level r) <= severity (threat_level r').
Proof. intros ->. destruct (threat_level r); cbn; lia. Qed.

Lemma tier_level_pattern (n : string) (s4 : float) :
  _pattern_analysis n = Py.Normal s4 ->
  tier_level n "pattern_analysis" = if (0.7 <? s4)%float then high else medium.
Proof. intros H. unfold tier_level. rewrite H. reflexivity. Qed.

(** C3.  Within one call the threat level only escalates.  For a returned
    analysis, the level is the maximum severity contributed by the fired
    tiers, read off [detection_methods], and the call is a sequence of method
    steps from the initial results to the returned ones along which the
    severity never decreases.  The only other verdict, the handler's
    "unknown", comes from a call that failed while normalizing its input:
    no method had run and the state is as it was. *)
Theorem threat_level_only_escalates (e : env) (raw : string) (st st' : state)
    (v : verdict) :
  analyze_url e raw st = (Py.Normal v, st') ->
  match v with
  | Analysed r =>
      threat_level r = max_level (map (tier_level (url r)) (detection_methods r))
      /\ exists steps,
           Forall method_step steps
           /\ last (run_steps steps (initial_results (url r) (time_time e))) = Some r
           /\ nondecreasing
                (map (fun x => severity (threat_level x))
                   (run_steps steps (initial_results (url r) (time_time e))))
  | Failed _ _ =>
      (exists ex, _normalize_url raw = Py.Raise ex) /\ st' = st
  end.
Proof.
  intros Hrun. rewrite analyze_url_unfold in Hrun.
  destruct (analyze_url_body e raw st) as [[r|ex] st''] eqn:Hbody;
    apply pair_equal_spec in Hrun as [Hv <-]; apply Normal_inj in Hv; subst v.
  2:{ destruct (analyze_url_body_raises e raw st st'' ex Hbody) as [Hn ->].
      split; [exists ex; exact Hn | reflexivity]. }
  destruct (analyze_url_body_shape e raw st st'' r Hbody) as (n & Hnorm & Hshape).
  cbn zeta in Hshape. set (init := initial_results n (time_time e)) in *.
  destruct Hshape as [(row & _ & _ & -> & _) | [(uh & hr & parsed & _ & _ & _ & -> & _) | (hr & pt & s4 & s5 & _ & Hs4 & _ & -> & _)]].
  - (* Method 1 *)
    replace (url _) with n by (rewrite !method_step_url by constructor; reflexivity).
    fold init. split; [reflexivity|].
    exists [method1_local_database (db_result_of row); finish].
    split; [repeat constructor|]. split; [reflexivity|].
    cbn [run_steps map nondecreasing]. repeat split;
      apply rises_to_critical; reflexivity.
  - (* Method 2 *)
    replace (url _) with n by (rewrite !method_step_url by constructor; reflexivity).
    fold init. split.
    { rewrite level_finish, level_host_extra, methods_finish.
      unfold method2_host_extra. destruct (host_is_malicious hr); reflexivity. }
    exists [method2_urlhaus uh; method2_host_extra hr; finish].
    split; [repeat constructor|]. split; [reflexivity|].
    cbn [run_steps map nondecreasing]. repeat split.
    + apply rises_to_critical; reflexivity.
    + rewrite level_host_extra. lia.
    + rewrite level_finish. lia.
  - (* the remaining methods *)
    replace (url _) with n by (rewrite !method_step_url by constructor; reflexivity).
    fold init. split.
    { rewrite methods_fallthrough, level_finish, level_myanmar, level_structure,
        level_pattern, level_phish_tank, level_host.
      change (threat_level init) with safe. change (detection_methods init) with (@nil string).
      destruct (host_is_malicious hr), (pk_is_phishing pt), (0.3 <? s4)%float eqn:E3,
        (0.6 <? s5)%float, (0.7 <? _detect_myanmar_scams n)%float;
        cbn [tag_if app map max_level fold_right];
        rewrite ?(tier_level_pattern n s4 Hs4);
        destruct (0.7 <? s4)%float; reflexivity. }
    exists [method2_urlhaus_host hr; method3_phish_tank pt; method4_pattern s4;
            method5_structure s5; method6_myanmar (_detect_myanmar_scams n); finish].
    split; [repeat constructor|]. split; [reflexivity|].
    cbn [run_steps map nondecreasing]. repeat split.
    + apply rises_host. reflexivity.
    + apply rises_phish_tank.
    + apply rises_pattern.
    + apply rises_structure.
    + apply rises_myanmar.
    + rewrite level_finish. lia.
Qed.

(** ** Confidence along a run *)

Lemma confidence_host (hr : HostResult) (r : Results) :
  confidence (method2_urlhaus_host hr r)
  = if host_is_malicious hr then (confidence r + 0.85)%float else confidence r.
Proof. unfold method2_urlhaus_host. destruct (host_is_malicious hr); reflexivity. Qed.

Lemma confidence_phish_tank (pt : PhishTankResult) (r : Results) :
  confidence (method3_phish_tank pt r)
  = if pk_is_phishing pt then (confidence r + 0.8)%float else confidence r.
Proof.
  unfold method3_phish_tank. destruct (pk_is_phishing pt); [|reflexivity]. cbn.
  destruct (level_eqb (threat_level r) safe); [reflexivity|].
  destruct (level_eqb (threat_level r) high); reflexivity.
Qed.

Lemma confidence_pattern (s4 : float) (r : Results) :
  confidence (method4_pattern s4 r)
  = if (0.3 <? s4)%float then (confidence r + s4 * 0.4)%float else confidence r.
Proof.
  unfold method4_pattern. destruct (0.3 <? s4)%float; [|reflexivity]. cbn.
  destruct (level_eqb (threat_level r) safe); [|reflexivity].
  destruct (0.7 <? s4)%float; reflexivity.
Qed.

Lemma confidence_structure (s5 : float) (r : Results) :
  confidence (method5_structure s5 r)
  = if (0.6 <? s5)%float then (confidence r + 0.2)%float else confidence r.
Proof.
  unfold method5_structure. destruct (0.6 <? s5)%float; [|reflexivity]. cbn.
  destruct (level_eqb (threat_level r) safe); reflexivity.
Qed.

Lemma confidence_myanmar (s6 : float) (r : Results) :
  confidence (method6_myanmar s6 r)
  = if (0.7 <? s6)%float then (confidence r + 0.4)%float else confidence r.
Proof.
  unfold method6_myanmar. destruct (0.7 <? s6)%float; [|reflexivity]. cbn.
  destruct (level_eqb (threat_level r) safe); [reflexivity|].
  destruct (level_eqb (threat_level r) medium); reflexivity.
Qed.

Lemma confidence_finish (r : Results) :
  confidence (finish r) = Py.min (confidence r) 1.0%float.
Proof. reflexivity. Qed.

Lemma confidence_fallthrough (hr : HostResult) (pt : PhishTankResult) (s4 s5 s6 : float)
    (n : string) (t : float) :
  confidence
    (finish (method6_myanmar s6 (method5_structure s5 (method4_pattern s4
       (method3_phish_tank pt (method2_urlhaus_host hr (initial_results n t)))))))
  = fallthrough_confidence (host_is_malicious hr) (pk_is_phishing pt) s4
      (0.6 <? s5)%float (0.7 <? s6)%float.
Proof.
  rewrite confidence_finish, confidence_myanmar, confidence_structure,
    confidence_pattern, confidence_phish_tank, confidence_host.
  reflexivity.
Qed.

(** ** The values of [_pattern_analysis] *)

Lemma add_per_match_times (patterns : list Re.regex) (s : string) (step score : float) :
  exists k, k <= length patterns
            /\ add_per_match patterns s step score = add_times k step score.
Proof.
  unfold add_per_match. revert score.
  induction patterns as [|p ps IH]; intros score; cbn [fold_left length].
  - exists 0. split; [lia | reflexivity].
  - destruct (Re.search true p s).
    + destruct (IH (score + step)%float) as (k & Hk & ->).
      exists (S k). split; [lia | reflexivity].
    + destruct (IH score) as (k & Hk & ->).
      exists k. split; [lia | reflexivity].
Qed.

Lemma pattern_analysis_score (n : string) (s4 : float) :
  _pattern_analysis n = Py.Normal s4 ->
  exists shortener k special tld j,
    k <= 8 /\ j <= 5 /\ s4 = pattern_score_of shortener k special tld j.
Proof.
  unfold _pattern_analysis, pattern_score_of.
  destruct (String.length n) as [|len]; [discriminate|].
  intros H. apply Normal_inj in H. subst s4. cbn zeta.
  match goal with
  | |- context [if existsb ?f ?l then (0 + 0.3)%float else 0%float] =>
      set (shortener := existsb f l)
  end.
  match goal with
  | |- context [add_per_match threat_patterns ?l 0.2%float ?x] =>
      destruct (add_per_match_times threat_patterns l 0.2%float x) as (k & Hk & ->)
  end.
  match goal with
  | |- context [add_per_match myanmar_patterns ?l 0.5%float ?x] =>
      destruct (add_per_match_times myanmar_patterns l 0.5%float x) as (j & Hj & ->)
  end.
  eexists shortener, k, _, _, j. split; [exact Hk|]. split; [exact Hj|]. reflexivity.
Qed.

Lemma fallthrough_confidences_checked : fallthrough_confidences_ok = true.
Proof. vm_compute. reflexivity. Qed.

Lemma in_bools (b : bool) : In b bools.
Proof. destruct b; cbn; auto. Qed.

Lemma fallthrough_confidence_unit (shortener : bool) (k : nat) (special tld : bool)
    (j : nat) (host phish structure myanmar : bool) :
  k <= 8 -> j <= 5 ->
  in_unit_interval
    (fallthrough_confidence host phish
       (pattern_score_of shortener k special tld j) structure myanmar) = true.
Proof.
  intros Hk Hj. pose proof fallthrough_confidences_checked as H.
  unfold fallthrough_confidences_ok in H.
  rewrite forallb_forall in H. specialize (H shortener (in_bools _)).
  rewrite forallb_forall in H. specialize (H k). 
  assert (Hk' : In k (seq 0 9)) by (apply in_seq; lia). specialize (H Hk').
  rewrite forallb_forall in H. specialize (H special (in_bools _)).
  rewrite forallb_forall in H. specialize (H tld (in_bools _)).
  rewrite forallb_forall in H. specialize (H j).
  assert (Hj' : In j (seq 0 6)) by (apply in_seq; lia). specialize (H Hj').
  rewrite forallb_forall in H. specialize (H host (in_bools _)).
  rewrite forallb_forall in H. specialize (H phish (in_bools _)).
  rewrite forallb_forall in H. specialize (H structure (in_bools _)).
  rewrite forallb_forall in H. exact (H myanmar (in_bools _)).
Qed.

(** C4.  Over a store whose confidences lie in [0, 1], the confidence of every
    verdict that [analyze_url] returns lies in [0, 1], whichever tiers fired:
    on the two early-return paths and on the fall-through path. *)
Theorem confidence_in_unit_interval (e : env) (raw : string) (st st' : state)
    (r : Results) :
  store_ok (db st) ->
  analyze_url e raw st = (Py.Normal (Analysed r), st') ->
  in_unit_interval (confidence r) = true.
Proof.
  intros Hok Hrun. rewrite analyze_url_unfold in Hrun.
  destruct (analyze_url_body e raw st) as [[r0|ex] st''] eqn:Hbody; [|discriminate Hrun].
  injection Hrun as -> ->.
  destruct (analyze_url_body_shape e raw st st' r Hbody) as (n & Hnorm & Hshape).
  cbn zeta in Hshape.
  destruct Hshape as [(row & Hrow & _ & -> & _) | [(uh & hr & parsed & _ & _ & _ & -> & _) | (hr & pt & s4 & s5 & _ & Hs4 & _ & -> & _)]].
  - (* Method 1: min(0.0 + record.confidence, 1.0) *)
    specialize (Hok _ _ Hrow). unfold in_unit_interval in Hok.
    apply andb_prop in Hok as [H0 _].
    destruct (min_add_zero_unit _ H0) as [Hlo Hhi].
    rewrite confidence_finish. change (confidence (method1_local_database _ _))
      with (0 + su_confidence row)%float.
    unfold in_unit_interval. rewrite Hlo, Hhi. reflexivity.
  - (* Method 2: min(0.0 + 0.95 [+ 0.1], 1.0) *)
    rewrite confidence_finish. unfold method2_host_extra.
    destruct (host_is_malicious hr); vm_compute; reflexivity.
  - (* the remaining methods *)
    rewrite confidence_fallthrough.
    destruct (pattern_analysis_score n s4 Hs4)
      as (shortener & k & special & tld & j & Hk & Hj & ->).
    apply fallthrough_confidence_unit; assumption.
Qed.

(** ** The store invariant is kept by every operation *)

Lemma store_ok_empty : store_ok empty_database.
Proof. intros h row H. cbn in H. rewrite lookup_empty in H. discriminate H. Qed.

Lemma store_ok_update_seen (e : env) (h : string) (d : database) :
  store_ok d -> store_ok (update_seen e h d).
Proof.
  intros Hok h' row'. unfold update_seen. cbn [scam_urls].
  rewrite lookup_alter. case_decide as Hh.
  - subst h'. destruct (scam_urls d !! h) as [row|] eqn:E; cbn; [|discriminate].
    intros [= <-]. cbn. exact (Hok _ _ E).
  - apply Hok.
Qed.

Lemma store_ok_insert_or_ignore (e : env) (h u dom tt src : string)
    (tags : option (list string)) (c : float) (d : database) :
  in_unit_interval c = true ->
  store_ok d ->
  store_ok (insert_or_ignore_scam_url e h u dom tt src tags c d).2.
Proof.
  intros Hc Hok. unfold insert_or_ignore_scam_url.
  destruct (scam_urls d !! h) eqn:E; [exact Hok|].
  intros h' row'. cbn [snd scam_urls]. rewrite lookup_insert. case_decide as Hh.
  - intros [= <-]. exact Hc.
  - apply Hok.
Qed.

Lemma store_ok_add_user_report (e : env) (u description : string)
    (user_id : option string) (d : database) :
  store_ok d -> store_ok (add_user_report e u description user_id d).2.
Proof.
  intros Hok. unfold add_user_report.
  destruct (urlparse u) as [parsed|ex]; [|exact Hok].
  match goal with
  | |- context [insert_or_ignore_scam_url ?e ?h ?u ?dm ?tt ?src ?tg ?c ?d0] =>
      pose proof (store_ok_insert_or_ignore e h u dm tt src tg c d0 eq_refl) as Hins;
      destruct (insert_or_ignore_scam_url e h u dm tt src tg c d0) as [inserted d2]
  end.
  cbn [snd] in *. apply store_ok_update_seen. apply Hins. exact Hok.
Qed.

Lemma store_ok_check_url_in_database (e : env) (u : string) (d : database) :
  store_ok d -> store_ok (check_url_in_database e u d).2.
Proof.
  intros Hok. unfold check_url_in_database.
  destruct (scam_urls d !! _hash_url u) as [row|]; [|exact Hok].
  destruct (su_is_active row); [|exact Hok].
  apply store_ok_update_seen. exact Hok.
Qed.

Lemma store_ok_log_detection (e : env) (u lvl : string) (c : float)
    (methods : list string) (b : bool) (ms : option Z) (d : database) :
  store_ok d -> store_ok (log_detection e u lvl c methods b ms d).
Proof. intros Hok. exact Hok. Qed.

Lemma store_ok_add_default_scam_urls (e : env) (d : database) :
  store_ok d -> store_ok (add_default_scam_urls sha256_hexdigest check_bracketed_netloc e d).
Proof.
  intros Hok. unfold add_default_scam_urls.
  match goal with
  | |- context [fold_left ?step default_scams (Py.Normal d)] => set (f := step)
  end.
  assert (Hfold : forall l acc,
             (forall d0, acc = Py.Normal d0 -> store_ok d0) ->
             forall d', fold_left f l acc = Py.Normal d' -> store_ok d').
  { induction l as [|item l IH]; intros acc Hacc d' Hd'; cbn in Hd'.
    - exact (Hacc _ Hd').
    - apply (IH (f acc item)); [|exact Hd'].
      intros d0. unfold f. destruct acc as [d1|ex]; [|discriminate].
      destruct item as [[[u tt] src] tags].
      destruct (urlparse u) as [parsed|ex]; [|discriminate].
      intros H. apply Normal_inj in H. subst d0.
      apply store_ok_insert_or_ignore; [reflexivity|]. apply Hacc. reflexivity. }
  destruct (fold_left f default_scams (Py.Normal d)) as [d'|ex] eqn:E; [|exact Hok].
  apply (Hfold default_scams (Py.Normal d)); [|exact E].
  intros d0 H. apply Normal_inj in H. subst d0. exact Hok.
Qed.

Lemma preserves_ret {A : Type} (a : A) : preserves_store (mret a).
Proof.
  intros st o st' H Hok. unfold mret, M_ret in H.
  injection H as _ <-. exact Hok.
Qed.

Lemma preserves_lift {A : Type} (o : Py.outcome A) : preserves_store (lift o).
Proof.
  intros st o' st' H Hok. unfold lift in H.
  injection H as _ <-. exact Hok.
Qed.

Lemma preserves_invoke (ev : event) : preserves_store (invoke ev).
Proof.
  intros st o st' H Hok. unfold invoke in H.
  injection H as _ <-. exact Hok.
Qed.

Lemma preserves_on_db {A : Type} (f : database -> A * database) :
  (forall d, store_ok d -> store_ok (f d).2) -> preserves_store (on_db f).
Proof.
  intros Hf st o st' H Hok. rewrite on_db_run in H.
  injection H as _ <-. cbn. apply Hf. exact Hok.
Qed.

Lemma preserves_bind {A B : Type} (m : M A) (f : A -> M B) :
  preserves_store m -> (forall a, preserves_store (f a)) -> preserves_store (m ≫= f).
Proof.
  intros Hm Hf st o st' H Hok. unfold mbind, M_bind in H.
  destruct (m st) as [[a|ex] st1] eqn:E.
  - exact (Hf a _ _ _ H (Hm _ _ _ E Hok)).
  - injection H as _ <-. exact (Hm _ _ _ E Hok).
Qed.

Lemma preserves_try_except {A : Type} (m : M A) (h : Py.exn -> M A) :
  preserves_store m -> (forall ex, preserves_store (h ex)) ->
  preserves_store (try_except m h).
Proof.
  intros Hm Hh st o st' H Hok. unfold try_except in H.
  destruct (m st) as [[a|ex] st1] eqn:E.
  - injection H as _ <-. exact (Hm _ _ _ E Hok).
  - exact (Hh ex _ _ _ H (Hm _ _ _ E Hok)).
Qed.

Ltac preserve :=
  repeat first
    [ apply preserves_ret
    | apply preserves_lift
    | apply preserves_invoke
    | apply preserves_bind; [|intros ?]
    | apply preserves_on_db; intros ? ?;
      first [ apply store_ok_check_url_in_database
            | apply store_ok_add_user_report
            | apply store_ok_log_detection ]; assumption ].

Lemma preserves_host_check (e : env) (n : string)
    (method : HostResult -> Results -> Results) (r : Results) :
  preserves_store (host_check check_bracketed_netloc e n method r).
Proof.
  unfold host_check. preserve.
  destruct (nonempty (netloc a)); [|preserve].
  apply preserves_bind; [|intros ?; preserve].
  unfold check_urlhaus_host. destruct (negb (auth_key_set e)); preserve.
Qed.

(** Every call of [analyze_url], returning or failing, keeps the invariant. *)
Lemma analyze_url_keeps_store_ok (e : env) (raw : string) :
  preserves_store (analyze_url e raw).
Proof.
  unfold analyze_url. apply preserves_try_except; [|intros ?; preserve].
  apply preserves_bind; [|intros ?; preserve].
  unfold analyze_url_body. preserve.
  destruct a0 as [dbr|].
  - unfold log_results. preserve.
  - apply preserves_bind.
    { unfold _check_urlhaus. destruct (negb (auth_key_set e)); preserve. }
    intros uh. destruct (uh_is_malicious uh).
    + apply preserves_bind; [preserve|]. intros _.
      apply preserves_bind; [apply preserves_host_check|]. intros ?.
      unfold log_results. preserve.
    + apply preserves_bind; [apply preserves_host_check|]. intros ?.
      apply preserves_bind.
      { unfold _check_phish_tank. preserve. }
      intros ?. preserve.
Qed.

(** Hence every reachable state satisfies the invariant. *)
Lemma reachable_store_ok (st : state) :
  reachable sha256_hexdigest check_bracketed_netloc st -> store_ok (db st).
Proof.
  induction 1 as [|e st _ IH|e u description user_id st _ IH|e u st _ IH]; cbn [db].
  - apply store_ok_empty.
  - apply store_ok_add_default_scam_urls. exact IH.
  - apply store_ok_add_user_report. exact IH.
  - destruct (analyze_url e u st) as [o st'] eqn:E.
    exact (analyze_url_keeps_store_ok e u st o st' E IH).
Qed.

End Properties.

(** ** Concrete instances *)

(** C6 as worded fails on a status outside the three named ones: for
    "removed" the code answers 0.7 where the worded formula gives 0.9. *)
Lemma calculate_confidence_unknown_status_counterexample :
  _calculate_confidence sample_strptime 0 "removed" "" [] = 0.7%float
  /\ claimed_confidence sample_strptime 0 "removed" "" [] = 0.9%float
  /\ (_calculate_confidence sample_strptime 0 "removed" "" []
      =? claimed_confidence sample_strptime 0 "removed" "" [])%float = false.
Proof. repeat split; vm_compute; reflexivity. Qed.

(** C6 as worded fails on the age as well.  A record that is 30 days and
    one hour old is more than 30 days in the past, but counts 30 whole days:
    the code takes nothing off.  A date with the suffix " UTC" is not in
    the format of the client: the code takes nothing off, however old the
    record is.  The amended formula agrees with the code on both. *)
Lemma calculate_confidence_age_examples :
  (_calculate_confidence epoch_strptime (30 * a_day + an_hour) "online"
     "1970-01-01 00:00:00" [] = 0.9%float
   /\ claimed_confidence epoch_date_of (30 * a_day + an_hour) "online"
        "1970-01-01 00:00:00" [] = (0.9 - 0.1)%float
   /\ amended_confidence epoch_strptime (30 * a_day + an_hour) "online"
        "1970-01-01 00:00:00" [] = 0.9%float)
  /\ (_calculate_confidence epoch_strptime (31 * a_day) "online"
        "1970-01-01 00:00:00" [] = (0.9 - 0.1)%float)
  /\ (_calculate_confidence epoch_strptime (400 * a_day) "online"
        "1970-01-01 00:00:00 UTC" [] = 0.9%float
      /\ claimed_confidence epoch_date_of (400 * a_day) "online"
           "1970-01-01 00:00:00 UTC" [] = (0.9 - 0.1)%float
      /\ amended_confidence epoch_strptime (400 * a_day) "online"
           "1970-01-01 00:00:00 UTC" [] = 0.9%float).
Proof. repeat split; vm_compute; reflexivity. Qed.

(** The input "[" makes [urlparse] raise. *)
Lemma analyze_url_error_dictionary_witness :
  exists v,
    analyze_url sample_digest sample_bracket_check offline_env "[" empty_state
    = (Py.Normal v, empty_state)
    /\ dom (verdict_dict v)
       = ({[ "url"; "is_suspicious"; "threat_level"; "error"; "message" ]} : gset string)
    /\ verdict_dict v !! "url" = Some (VStr "[")
    /\ verdict_dict v !! "is_suspicious" = Some (VBool false)
    /\ verdict_dict v !! "threat_level" = Some (VStr "unknown")
    /\ verdict_dict v !! "error" = Some (VStr "Invalid IPv6 URL")
    /\ verdict_dict v !! "message" = Some (VStr "Unable to analyze this URL at the moment.")
    /\ verdict_dict v !! "confidence" = None
    /\ verdict_dict v !! "detection_methods" = None
    /\ verdict_dict v !! "warnings" = None.
Proof.
  apply (analyze_url_error_dictionary sample_digest sample_bracket_check offline_env
           "[" empty_state empty_state (Py.ValueError "Invalid IPv6 URL")).
  vm_compute. reflexivity.
Defined.

(** A seeded lure, queried with a tracking parameter and a hostile URLhaus. *)
Lemma local_database_hit_is_terminal_witness :
  exists r st' ev,
    analyze_url sample_digest sample_bracket_check hostile_env
      "paypal-secure-login.ml?utm_source=mail" seeded_state
    = (Py.Normal (Analysed r), st')
    /\ threat_level r = critical
    /\ is_suspicious r = true
    /\ detection_methods r = ["local_database"]
    /\ (confidence r =? Py.min (su_confidence paypal_row) 1.0)%float = true
    /\ trace st' = trace seeded_state
    /\ detection_history (db st') = (detection_history (db seeded_state) ++ [ev])%list
    /\ dh_url_hash ev = _hash_url sample_digest "https://paypal-secure-login.ml"
    /\ dh_threat_level ev = "critical"
    /\ dh_detection_methods ev = ["local_database"]
    /\ dh_is_suspicious ev = true.
Proof.
  apply (local_database_hit_is_terminal sample_digest sample_bracket_check hostile_env
           "paypal-secure-login.ml?utm_source=mail" "https://paypal-secure-login.ml"
           seeded_state paypal_row).
  - vm_compute. reflexivity.
  - vm_compute. reflexivity.
  - vm_compute. reflexivity.
  - vm_compute. reflexivity.
Defined.

(** A shortener link with every service unreachable. *)
Lemma threat_level_only_escalates_witness :
  exists r st',
    analyze_url sample_digest sample_bracket_check offline_env
      "https://bit.ly/xyz" empty_state = (Py.Normal (Analysed r), st')
    /\ detection_methods r = ["pattern_analysis"]
    /\ threat_level r = medium
    /\ threat_level r = max_level (map (tier_level (url r)) (detection_methods r))
    /\ exists steps,
         Forall method_step steps
         /\ last (run_steps steps (initial_results (url r) (time_time offline_env))) = Some r
         /\ nondecreasing
              (map (fun x => severity (threat_level x))
                 (run_steps steps (initial_results (url r) (time_time offline_env)))).
Proof.
  eexists _, (analyze_url sample_digest sample_bracket_check offline_env
                "https://bit.ly/xyz" empty_state).2.
  split; [vm_compute; reflexivity|].
  split; [reflexivity|]. split; [reflexivity|].
  eapply (threat_level_only_escalates sample_digest sample_bracket_check offline_env
            "https://bit.ly/xyz" empty_state _ (Analysed _)).
  vm_compute. reflexivity.
Defined.

(** A reported URL, looked up again. *)
Lemma confidence_in_unit_interval_witness :
  store_ok (db reported_state)
  /\ exists r st',
       analyze_url sample_digest sample_bracket_check hostile_env
         "https://scam.example" reported_state
       = (Py.Normal (Analysed r), st')
       /\ detection_methods r = ["local_database"]
       /\ confidence r = 0.7%float
       /\ in_unit_interval (confidence r) = true.
Proof.
  assert (Hok : store_ok (db reported_state)).
  { apply store_ok_add_user_report. apply store_ok_empty. }
  split; [exact Hok|].
  eexists _, (analyze_url sample_digest sample_bracket_check hostile_env
                "https://scam.example" reported_state).2.
  split; [vm_compute; reflexivity|].
  split; [reflexivity|]. split; [reflexivity|].
  eapply (confidence_in_unit_interval sample_digest sample_bracket_check hostile_env
            "https://scam.example" reported_state).
  - exact Hok.
  - vm_compute. reflexivity.
Defined.

(** A URLhaus detection, then the same URL with every service unreachable. *)
Lemma urlhaus_write_through_is_user_report_witness :
  exists r1 st1,
    analyze_url sample_digest sample_bracket_check hostile_env
      "http://malware.example/payload.exe" empty_state
    = (Py.Normal (Analysed r1), st1)
    /\ confidence r1 = 1%float
    /\ (exists row,
          scam_urls (db st1) !! _hash_url sample_digest (url r1) = Some row
          /\ su_threat_type row = "user_reported"
          /\ su_source row = "user_report"
          /\ su_confidence row = 0.7%float)
    /\ (exists r2 st2,
          analyze_url sample_digest sample_bracket_check offline_env
            "http://malware.example/payload.exe" st1
          = (Py.Normal (Analysed r2), st2)
          /\ detection_methods r2 = ["local_database"]
          /\ threat_level r2 = critical
          /\ confidence r2 = 0.7%float
          /\ trace st2 = trace st1).
Proof.
  eexists _, (analyze_url sample_digest sample_bracket_check hostile_env
                "http://malware.example/payload.exe" empty_state).2.
  split; [vm_compute; reflexivity|].
  split; [reflexivity|].
  eapply (urlhaus_write_through_is_user_report sample_digest sample_bracket_check
            hostile_env offline_env "http://malware.example/payload.exe" empty_state).
  - vm_compute. reflexivity.
  - reflexivity.
  - reflexivity.
Defined.

(* ===================================================================== *)
(** * Further properties                                                  *)
(* ===================================================================== *)

Section MoreProperties.

Variable sha256_hexdigest : string -> string.
Variable check_bracketed_netloc : string -> option string.
Variable strptime : string -> option Z.

Local Abbreviation urlparse := (urlparse check_bracketed_netloc).
Local Abbreviation _normalize_url := (_normalize_url check_bracketed_netloc).
Local Abbreviation _analyze_url_structure := (_analyze_url_structure check_bracketed_netloc).
Local Abbreviation _hash_url := (_hash_url sha256_hexdigest).
Local Abbreviation check_url_in_database := (check_url_in_database sha256_hexdigest).
Local Abbreviation add_user_report := (add_user_report sha256_hexdigest check_bracketed_netloc).
Local Abbreviation add_default_scam_urls :=
  (add_default_scam_urls sha256_hexdigest check_bracketed_netloc).
Local Abbreviation log_detection := (log_detection sha256_hexdigest).
Local Abbreviation analyze_url_body := (analyze_url_body sha256_hexdigest check_bracketed_netloc).
Local Abbreviation analyze_url := (analyze_url sha256_hexdigest check_bracketed_netloc).
Local Abbreviation report_scam := (report_scam sha256_hexdigest check_bracketed_netloc).
Local Abbreviation initialize_database :=
  (initialize_database sha256_hexdigest check_bracketed_netloc).
Local Abbreviation store_wf := (store_wf sha256_hexdigest).
Local Abbreviation row_wf := (row_wf sha256_hexdigest).

(** ** Strings: reversal, stripping, lower case *)

Lemma rev_app_spec (s acc : string) : String.rev_app s acc = String.rev s ++ acc.
Proof.
  unfold String.rev. revert acc. induction s as [|c s IH]; intros acc; cbn [String.rev_app].
  - reflexivity.
  - rewrite (IH (String c acc)), (IH (String c "")), append_assoc. reflexivity.
Qed.

Lemma rev_cons (c : ascii) (s : string) : String.rev (String c s) = String.rev s ++ String c "".
Proof. unfold String.rev at 1. cbn [String.rev_app]. apply rev_app_spec. Qed.

Lemma rev_append (a b : string) : String.rev (a ++ b) = String.rev b ++ String.rev a.
Proof.
  induction a as [|c a IH].
  - rewrite append_nil_l. change (String.rev "") with "". rewrite append_nil_r. reflexivity.
  - rewrite append_cons, !rev_cons, IH, append_assoc. reflexivity.
Qed.

Lemma rev_involutive (s : string) : String.rev (String.rev s) = s.
Proof.
  induction s as [|c s IH]; [reflexivity|].
  rewrite rev_cons, rev_append, IH. reflexivity.
Qed.

Lemma lower_append (a b : string) : Py.lower (a ++ b) = Py.lower a ++ Py.lower b.
Proof.
  induction a as [|c a IH]; [reflexivity|].
  rewrite append_cons. cbn [Py.lower]. rewrite IH, append_cons. reflexivity.
Qed.

Lemma lower_rev (s : string) : Py.lower (String.rev s) = String.rev (Py.lower s).
Proof.
  induction s as [|c s IH]; [reflexivity|].
  cbn [Py.lower]. rewrite !rev_cons, lower_append, IH. reflexivity.
Qed.

Lemma char_lower_idem (c : ascii) : Py.char_lower (Py.char_lower c) = Py.char_lower c.
Proof. destruct c as [[] [] [] [] [] [] [] []]; vm_compute; reflexivity. Qed.

Lemma isspace_char_lower (c : ascii) : Py.isspace (Py.char_lower c) = Py.isspace c.
Proof. destruct c as [[] [] [] [] [] [] [] []]; vm_compute; reflexivity. Qed.

Lemma lower_idem (s : string) : Py.lower (Py.lower s) = Py.lower s.
Proof.
  induction s as [|c s IH]; [reflexivity|].
  cbn [Py.lower]. rewrite char_lower_idem, IH. reflexivity.
Qed.

Lemma lower_lstrip (s : string) :
  Py.lower (Py.lstrip_by Py.isspace s) = Py.lstrip_by Py.isspace (Py.lower s).
Proof.
  induction s as [|c s IH]; [reflexivity|].
  cbn [Py.lower Py.lstrip_by]. rewrite isspace_char_lower.
  destruct (Py.isspace c); [exact IH | reflexivity].
Qed.

Lemma lower_rstrip (s : string) :
  Py.lower (Py.rstrip_by Py.isspace s) = Py.rstrip_by Py.isspace (Py.lower s).
Proof. unfold Py.rstrip_by. rewrite lower_rev, lower_lstrip, lower_rev. reflexivity. Qed.

Lemma lower_strip (s : string) : Py.lower (Py.strip s) = Py.strip (Py.lower s).
Proof. unfold Py.strip. rewrite lower_rstrip, lower_lstrip. reflexivity. Qed.

Lemma lstrip_idem (p : ascii -> bool) (s : string) :
  Py.lstrip_by p (Py.lstrip_by p s) = Py.lstrip_by p s.
Proof.
  induction s as [|c s IH]; [reflexivity|].
  cbn [Py.lstrip_by]. destruct (p c) eqn:E; [exact IH|].
  cbn [Py.lstrip_by]. rewrite E. reflexivity.
Qed.

Lemma rstrip_idem (p : ascii -> bool) (s : string) :
  Py.rstrip_by p (Py.rstrip_by p s) = Py.rstrip_by p s.
Proof. unfold Py.rstrip_by. rewrite rev_involutive, lstrip_idem. reflexivity. Qed.

(** Stripping on the left of a text that ends with a character to keep. *)
Lemma lstrip_snoc_keep (p : ascii -> bool) (s : string) (c : ascii) :
  p c = false ->
  Py.lstrip_by p (s ++ String c "") = Py.lstrip_by p s ++ String c "".
Proof.
  intros Hc. induction s as [|a s IH].
  - rewrite append_nil_l. cbn [Py.lstrip_by]. rewrite Hc. reflexivity.
  - rewrite append_cons. cbn [Py.lstrip_by]. destruct (p a); [exact IH|].
    rewrite append_cons. reflexivity.
Qed.

Lemma rstrip_cons_keep (p : ascii -> bool) (c : ascii) (s : string) :
  p c = false ->
  Py.rstrip_by p (String c s) = String c (Py.rstrip_by p s).
Proof.
  intros Hc. unfold Py.rstrip_by.
  rewrite rev_cons, (lstrip_snoc_keep p _ c Hc), rev_append. reflexivity.
Qed.

(** Stripping on the right keeps a text stripped on the left. *)
Lemma lstrip_rstrip (p : ascii -> bool) (s : string) :
  Py.lstrip_by p (Py.rstrip_by p (Py.lstrip_by p s)) = Py.rstrip_by p (Py.lstrip_by p s).
Proof.
  induction s as [|c s IH]; [reflexivity|].
  cbn [Py.lstrip_by]. destruct (p c) eqn:E; [exact IH|].
  rewrite (rstrip_cons_keep p c s E). cbn [Py.lstrip_by]. rewrite E. reflexivity.
Qed.

Lemma strip_idem (s : string) : Py.strip (Py.strip s) = Py.strip s.
Proof. unfold Py.strip. rewrite lstrip_rstrip, rstrip_idem. reflexivity. Qed.

(** X1.  [_hash_url] does not tell apart two URLs that differ only in letter
    case or in surrounding white space. *)
Theorem hash_url_ignores_case_and_padding (url : string) :
  _hash_url (Py.lower url) = _hash_url url
  /\ _hash_url (Py.strip url) = _hash_url url
  /\ _hash_url (Py.strip (Py.lower url)) = _hash_url url.
Proof.
  unfold _hash_url. cbv zeta.
  rewrite lower_idem, lower_strip, strip_idem.
  rewrite <- lower_strip, lower_idem, lower_strip, strip_idem.
  repeat split; reflexivity.
Qed.

Lemma prefix_append (p s : string) : String.prefix p (p ++ s) = true.
Proof.
  induction p as [|c p IH]; [destruct s; reflexivity|].
  rewrite append_cons. cbn [String.prefix].
  destruct (ascii_dec c c); [exact IH | contradiction].
Qed.

(** X2.  A URL without a scheme hashes like the same URL under "https://". *)
Theorem hash_url_default_scheme (url : string) :
  Py.startswith (Py.strip (Py.lower url)) "http://"
  || Py.startswith (Py.strip (Py.lower url)) "https://" = false ->
  _hash_url ("https://" ++ Py.strip url) = _hash_url url.
Proof.
  intros Hno. unfold _hash_url. cbv zeta. rewrite Hno. cbn [negb].
  rewrite lower_append, lower_strip.
  change (Py.lower "https://") with "https://".
  set (c := Py.strip (Py.lower url)) in *.
  assert (Hc : Py.strip ("https://" ++ c) = "https://" ++ c).
  { unfold Py.strip at 1. change ("https://" ++ c) with (String "h" ("ttps://" ++ c)).
    cbn [Py.lstrip_by]. change (Py.isspace "h") with false. cbv iota.
    change (String "h" ("ttps://" ++ c))
      with (String "h" (String "t" (String "t" (String "p" (String "s" (String ":"
             (String "/" (String "/" c)))))))).
    rewrite !rstrip_cons_keep by reflexivity.
    subst c. unfold Py.strip. rewrite rstrip_idem. reflexivity. }
  rewrite Hc. unfold Py.startswith at 2. rewrite prefix_append, orb_true_r.
  reflexivity.
Qed.


(** ** Splitting and joining *)

Lemma char_in_forall (c : ascii) (s : string) :
  Py.char_in c s = false <-> forall_chars (fun a => negb (Ascii.eqb a c)) s = true.
Proof.
  induction s as [|a s IH]; cbn [Py.char_in forall_chars]; [split; reflexivity|].
  destruct (Ascii.eqb a c); cbn [orb andb negb]; [split; discriminate | exact IH].
Qed.

Lemma forall_chars_impl (p q : ascii -> bool) (s : string) :
  (forall c, p c = true -> q c = true) ->
  forall_chars p s = true -> forall_chars q s = true.
Proof.
  intros Hpq. induction s as [|a s IH]; cbn [forall_chars]; [reflexivity|].
  intros H. apply andb_prop in H as [Ha Hs]. rewrite (Hpq a Ha), (IH Hs). reflexivity.
Qed.

Lemma split_once_absent (c : ascii) (s : string) :
  Py.char_in c s = false -> Py.split_once c s = (s, None).
Proof.
  induction s as [|a s IH]; cbn [Py.char_in Py.split_once]; [reflexivity|].
  destruct (Ascii.eqb a c); cbn [orb]; [discriminate|].
  intros H. rewrite (IH H). reflexivity.
Qed.

Lemma split_once_app (c : ascii) (a b : string) :
  Py.char_in c a = false -> Py.split_once c (a ++ String c b) = (a, Some b).
Proof.
  induction a as [|x a IH]; cbn [Py.char_in]; intros H.
  - rewrite append_nil_l. cbn [Py.split_once]. rewrite Ascii.eqb_refl. reflexivity.
  - rewrite append_cons. cbn [Py.split_once].
    destruct (Ascii.eqb x c); cbn [orb] in H; [discriminate|].
    rewrite (IH H). reflexivity.
Qed.

(** What [split_once] returns: the two parts around the first [c]. *)
Lemma split_once_spec (c : ascii) (s h : string) (t : option string) :
  Py.split_once c s = (h, t) ->
  Py.char_in c h = false
  /\ match t with
     | Some t => s = h ++ String c t
     | None => s = h
     end.
Proof.
  revert h t. induction s as [|a s IH]; intros h t; cbn [Py.split_once].
  - intros [= <- <-]. split; reflexivity.
  - destruct (Ascii.eqb a c) eqn:E.
    + intros [= <- <-]. apply Ascii.eqb_eq in E. subst a. split; reflexivity.
    + destruct (Py.split_once c s) as [h' t'] eqn:Es. intros [= <- <-].
      destruct (IH h' t' eq_refl) as [Hh Ht]. split.
      * cbn [Py.char_in]. rewrite E, Hh. reflexivity.
      * destruct t'; rewrite Ht at 1; reflexivity.
Qed.

Lemma forall_chars_split_once (p : ascii -> bool) (c : ascii) (s : string) :
  forall_chars p s = true ->
  forall_chars p (Py.split_once c s).1 = true
  /\ forall_chars p (default "" (Py.split_once c s).2) = true.
Proof.
  intros H. destruct (Py.split_once c s) as [h t] eqn:Es.
  destruct (split_once_spec c s h t Es) as [_ Ht]. cbn [fst snd].
  destruct t as [t|]; subst s.
  - rewrite forall_chars_app in H. apply andb_prop in H as [Hh Hrest].
    cbn [forall_chars] in Hrest. apply andb_prop in Hrest as [_ Htl].
    split; assumption.
  - split; [assumption | reflexivity].
Qed.

(** What [rsplit_once] returns: the two parts around the last [c]. *)
Lemma rsplit_once_spec (c : ascii) (s h last : string) :
  Py.rsplit_once c s = Some (h, last) ->
  s = h ++ String c last /\ Py.char_in c last = false.
Proof.
  revert h last. induction s as [|a s IH]; intros h last; cbn [Py.rsplit_once];
    [discriminate|].
  destruct (Py.rsplit_once c s) as [[h' l']|] eqn:Es.
  - intros [= <- <-]. destruct (IH h' l' eq_refl) as [-> Hl]. split; [reflexivity | exact Hl].
  - destruct (Ascii.eqb a c) eqn:E; [|discriminate].
    intros [= <- <-]. apply Ascii.eqb_eq in E. subst a. split; [reflexivity|].
    clear IH. induction s as [|b s IHs]; [reflexivity|].
    cbn [Py.rsplit_once] in Es. cbn [Py.char_in].
    destruct (Py.rsplit_once c s) as [[h' l']|]; [discriminate|].
    destruct (Ascii.eqb b c); [discriminate|]. cbn [orb]. apply IHs. reflexivity.
Qed.

Lemma rsplit_once_absent (c : ascii) (s : string) :
  Py.char_in c s = false -> Py.rsplit_once c s = None.
Proof.
  induction s as [|a s IH]; cbn [Py.char_in Py.rsplit_once]; [reflexivity|].
  destruct (Ascii.eqb a c); cbn [orb]; [discriminate|].
  intros H. rewrite (IH H). reflexivity.
Qed.

Lemma rsplit_once_app (c : ascii) (h last : string) :
  Py.char_in c last = false ->
  Py.rsplit_once c (h ++ String c last) = Some (h, last).
Proof.
  intros Hl. induction h as [|a h IH].
  - rewrite append_nil_l. cbn [Py.rsplit_once].
    rewrite (rsplit_once_absent c last Hl), Ascii.eqb_refl. reflexivity.
  - rewrite append_cons. cbn [Py.rsplit_once]. rewrite IH. reflexivity.
Qed.

Lemma char_in_app (c : ascii) (a b : string) :
  Py.char_in c (a ++ b) = Py.char_in c a || Py.char_in c b.
Proof.
  induction a as [|x a IH]; [reflexivity|].
  rewrite append_cons. cbn [Py.char_in]. rewrite IH, orb_assoc. reflexivity.
Qed.

(** [s.split(c)] never gives an empty list, and no part holds [c]. *)
Lemma split_parts (c : ascii) (s : string) :
  Py.split c s <> [] /\ Forall (fun x => Py.char_in c x = false) (Py.split c s).
Proof.
  induction s as [|a s [IHne IHall]]; cbn [Py.split].
  - split; [discriminate | repeat constructor].
  - destruct (Ascii.eqb a c) eqn:E.
    + split; [discriminate|]. constructor; [reflexivity | exact IHall].
    + destruct (Py.split c s) as [|h t]; [contradiction|].
      split; [discriminate|]. inversion IHall as [|? ? Hh Ht]; subst.
      constructor; [|exact Ht]. cbn [Py.char_in]. rewrite E, Hh. reflexivity.
Qed.

Lemma forall_chars_split (p : ascii -> bool) (c : ascii) (s : string) :
  forall_chars p s = true -> Forall (fun x => forall_chars p x = true) (Py.split c s).
Proof.
  induction s as [|a s IH]; cbn [Py.split forall_chars]; intros H.
  - repeat constructor.
  - apply andb_prop in H as [Ha Hs]. specialize (IH Hs).
    destruct (Ascii.eqb a c).
    + constructor; [reflexivity | exact IH].
    + destruct (Py.split c s) as [|h t]; [repeat constructor; cbn; rewrite Ha; reflexivity|].
      inversion IH as [|? ? Hh Ht]; subst. constructor; [|exact Ht].
      cbn [forall_chars]. rewrite Ha, Hh. reflexivity.
Qed.

Lemma join_cons (sep x y : string) (l : list string) :
  Py.join sep (x :: y :: l) = x ++ sep ++ Py.join sep (y :: l).
Proof. reflexivity. Qed.

Lemma forall_chars_join (p : ascii -> bool) (sep : string) (l : list string) :
  forall_chars p sep = true ->
  Forall (fun x => forall_chars p x = true) l ->
  forall_chars p (Py.join sep l) = true.
Proof.
  intros Hsep Hl. induction Hl as [|x l Hx Hl IH]; [reflexivity|].
  destruct l as [|y l]; [exact Hx|].
  rewrite join_cons, !forall_chars_app, Hx, Hsep, IH. reflexivity.
Qed.

(** Splitting what was joined gives the parts back. *)
Lemma split_join (c : ascii) (l : list string) :
  l <> [] ->
  Forall (fun x => Py.char_in c x = false) l ->
  Py.split c (Py.join (String c "") l) = l.
Proof.
  intros Hne Hall. induction Hall as [|x l Hx Hall IH]; [contradiction|].
  destruct l as [|y l].
  - clear IH Hne. cbn [Py.join]. induction x as [|a x IHx]; [reflexivity|].
    cbn [Py.char_in] in Hx. cbn [Py.split].
    destruct (Ascii.eqb a c); cbn [orb] in Hx; [discriminate|].
    rewrite (IHx Hx). reflexivity.
  - rewrite join_cons. specialize (IH ltac:(discriminate)).
    set (rest := Py.join (String c "") (y :: l)) in *. clearbody rest. clear Hne.
    induction x as [|a x IHx].
    + rewrite append_nil_l, append_cons, append_nil_l. cbn [Py.split].
      rewrite Ascii.eqb_refl, IH. reflexivity.
    + cbn [Py.char_in] in Hx. rewrite append_cons. cbn [Py.split].
      destruct (Ascii.eqb a c); cbn [orb] in Hx; [discriminate|].
      rewrite (IHx Hx). reflexivity.
Qed.

Lemma filter_idem {A : Type} (f : A -> bool) (l : list A) :
  List.filter f (List.filter f l) = List.filter f l.
Proof.
  induction l as [|x l IH]; [reflexivity|].
  cbn [List.filter]. destruct (f x) eqn:E; [|exact IH].
  cbn [List.filter]. rewrite E, IH. reflexivity.
Qed.

Lemma Forall_filter {A : Type} (P : A -> Prop) (f : A -> bool) (l : list A) :
  Forall P l -> Forall P (List.filter f l).
Proof.
  induction 1 as [|x l Hx Hl IH]; [constructor|].
  cbn [List.filter]. destruct (f x); [constructor|]; assumption.
Qed.

Lemma nonempty_join (sep : string) (l : list string) :
  nonempty (Py.join sep l) = true -> l <> [].
Proof. destruct l; [discriminate | discriminate]. Qed.


(** ** Parsing an assembled URL *)

Lemma forall_chars_and (p q : ascii -> bool) (s : string) :
  forall_chars (fun c => p c && q c) s = forall_chars p s && forall_chars q s.
Proof.
  induction s as [|a s IH]; [reflexivity|].
  cbn [forall_chars]. rewrite IH.
  destruct (p a), (q a), (forall_chars p s), (forall_chars q s); reflexivity.
Qed.

Lemma path_char_spec (s : string) :
  forall_chars path_char s = true <->
  forall_chars safe_char s = true /\ Py.char_in "?" s = false /\ Py.char_in "#" s = false.
Proof.
  unfold path_char. rewrite !forall_chars_and, !andb_true_iff, !char_in_forall.
  split; [intros [[A B] C] | intros (A & B & C)]; repeat split; assumption.
Qed.

Lemma query_char_spec (s : string) :
  forall_chars query_char s = true <->
  forall_chars safe_char s = true /\ Py.char_in "#" s = false.
Proof.
  unfold query_char. rewrite forall_chars_and, andb_true_iff, char_in_forall.
  split; intros [A B]; split; assumption.
Qed.

Lemma nonempty_false (s : string) : nonempty s = false -> s = "".
Proof. destruct s; [reflexivity | discriminate]. Qed.

(** The tail of an assembled URL splits into its path and its query. *)
Lemma split_fragment_query_assembled (pth cq : string) :
  forall_chars path_char pth = true ->
  forall_chars query_char cq = true ->
  split_fragment_query (pth ++ (if nonempty cq then "?" ++ cq else ""))
  = (pth, cq, "").
Proof.
  intros Hp Hq. apply path_char_spec in Hp as (_ & Hpq & Hph).
  apply query_char_spec in Hq as (_ & Hqh).
  unfold split_fragment_query. destruct (nonempty cq) eqn:E.
  - change ("?" ++ cq) with (String "?" cq).
    rewrite split_once_absent
      by (rewrite char_in_app, Hph; cbn [Py.char_in]; rewrite Hqh; reflexivity).
    rewrite (split_once_app "?" pth cq Hpq). reflexivity.
  - rewrite append_nil_r, (split_once_absent "#" pth Hph), (split_once_absent "?" pth Hpq).
    rewrite (nonempty_false cq E). reflexivity.
Qed.

Lemma slash_or_empty_char_in (pth : string) :
  slash_or_empty pth = true -> Py.char_in ";" pth = true -> Py.char_in "/" pth = true.
Proof.
  destruct pth as [|c t]; [discriminate|]. cbn [slash_or_empty]. intros H _.
  cbn [Py.char_in]. rewrite H. reflexivity.
Qed.

Lemma rsplit_once_present (c : ascii) (s : string) :
  Py.char_in c s = true -> exists h last, Py.rsplit_once c s = Some (h, last).
Proof.
  induction s as [|a s IH]; cbn [Py.char_in Py.rsplit_once]; [discriminate|].
  destruct (Py.rsplit_once c s) as [[h l]|]; [eauto|].
  destruct (Ascii.eqb a c); cbn [orb]; [eauto|].
  intros H. destruct (IH H) as (? & ? & ?). discriminate.
Qed.

(** A path without parameters is left alone by [_splitparams]. *)
Lemma splitparams_free (pth : string) :
  slash_or_empty pth = true -> params_free pth ->
  (if Py.char_in ";" pth then _splitparams pth else (pth, "")) = (pth, "").
Proof.
  intros Hs Hfree. destruct (Py.char_in ";" pth) eqn:E; [|reflexivity].
  unfold _splitparams. rewrite (slash_or_empty_char_in pth Hs E).
  destruct (rsplit_once_present "/" pth (slash_or_empty_char_in pth Hs E))
    as (h & last & Hr).
  rewrite Hr, (split_once_absent ";" last (Hfree h last Hr)). reflexivity.
Qed.

Lemma uses_params_http (sch : string) : http_prefix sch -> list_in sch uses_params = true.
Proof. intros [-> | ->]; reflexivity. Qed.

Lemma assemble_eq (sch nl pth cq : string) :
  assemble sch nl pth cq
  = sch ++ "://" ++ (nl ++ (pth ++ (if nonempty cq then "?" ++ cq else ""))).
Proof.
  unfold assemble. destruct (nonempty cq).
  - rewrite !append_assoc. reflexivity.
  - rewrite append_nil_r. reflexivity.
Qed.

(** [urlparse] gives back the parts of an assembled URL. *)
Lemma urlparse_assemble (sch nl pth cq : string) :
  http_prefix sch ->
  forall_chars safe_char nl = true ->
  forall_chars (fun c => negb (delimiter c)) nl = true ->
  netloc_accepted check_bracketed_netloc nl = true ->
  slash_or_empty pth = true ->
  forall_chars path_char pth = true ->
  params_free pth ->
  forall_chars query_char cq = true ->
  urlparse (assemble sch nl pth cq)
  = Py.Normal {| scheme := sch; netloc := nl; path := pth; params := "";
                 query := cq; fragment := "" |}.
Proof.
  intros Hsch Hsafe Hnodelim Hacc Hslash Hpath Hfree Hquery.
  rewrite assemble_eq. unfold urlparse.
  rewrite (urlsplit_http check_bracketed_netloc sch _ Hsch).
  set (qs := if nonempty cq then "?" ++ cq else "").
  assert (Hqs : qs = "" \/ exists cq', qs = "?" ++ cq').
  { subst qs. destruct (nonempty cq); [right; eauto | left; reflexivity]. }
  assert (Hsafe_rest : forall_chars safe_char (nl ++ (pth ++ qs)) = true).
  { rewrite !forall_chars_app, Hsafe.
    apply path_char_spec in Hpath as (-> & _ & _).
    subst qs. destruct (nonempty cq); [|reflexivity].
    apply query_char_spec in Hquery as (Hq & _).
    change ("?" ++ cq) with (String "?" cq). cbn [forall_chars]. rewrite Hq. reflexivity. }
  rewrite (remove_chars_id _ Hsafe_rest).
  rewrite (after_scheme_accepts check_bracketed_netloc sch _ nl (pth ++ qs)).
  - subst qs. rewrite (split_fragment_query_assembled pth cq Hpath Hquery).
    rewrite (uses_params_http sch Hsch). cbn [andb].
    rewrite (splitparams_free pth Hslash Hfree). reflexivity.
  - apply splitnetloc_app; [exact Hnodelim|].
    pose proof (removed_starts_with_delimiter pth qs Hslash Hqs) as H.
    rewrite remove_chars_id in H; [exact H|].
    rewrite !forall_chars_app in Hsafe_rest.
    apply andb_prop in Hsafe_rest as [_ H']. rewrite forall_chars_app. exact H'.
  - exact Hacc.
Qed.

(** ** The parts of a normalized URL *)

Lemma forall_chars_prefix (p : ascii -> bool) (a b : string) :
  forall_chars p (a ++ b) = true -> forall_chars p a = true /\ forall_chars p b = true.
Proof. rewrite forall_chars_app. apply andb_prop. Qed.

Lemma char_in_prefix (c : ascii) (a b : string) :
  Py.char_in c (a ++ b) = false -> Py.char_in c a = false /\ Py.char_in c b = false.
Proof. rewrite char_in_app. apply orb_false_elim. Qed.

(** The first component of [_splitparams]: a prefix of the path whose last
    segment holds no parameters. *)
Lemma splitparams_fst (url3 : string) :
  slash_or_empty url3 = true ->
  let pth := (if Py.char_in ";" url3 then _splitparams url3 else (url3, "")).1 in
  (exists suffix, url3 = pth ++ suffix) /\ params_free pth.
Proof.
  intros Hs. destruct (Py.char_in ";" url3) eqn:E; cbn zeta.
  - unfold _splitparams. rewrite (slash_or_empty_char_in url3 Hs E).
    destruct (rsplit_once_present "/" url3 (slash_or_empty_char_in url3 Hs E))
      as (h & last & Hr).
    rewrite Hr. destruct (rsplit_once_spec "/" url3 h last Hr) as [Hurl Hlast].
    destruct (Py.split_once ";" last) as [before [after|]] eqn:Esp; cbn [fst].
    + destruct (split_once_spec ";" last before (Some after) Esp) as [Hb Hl].
      subst last. apply char_in_prefix in Hlast as [Hbs _]. split.
      * exists (String ";" after). subst url3.
        change ("/" ++ before) with (String "/" before).
        rewrite !append_assoc. reflexivity.
      * intros h' last' Hr'. change ("/" ++ before) with (String "/" before) in Hr'.
        rewrite (rsplit_once_app "/" h before Hbs) in Hr'.
        injection Hr' as <- <-. exact Hb.
    + destruct (split_once_spec ";" last before None Esp) as [Hb Hl]. subst before.
      split; [exists ""; rewrite append_nil_r; reflexivity|].
      intros h' last' Hr'. rewrite Hr in Hr'. injection Hr' as <- <-. exact Hb.
  - cbn [fst]. split; [exists ""; rewrite append_nil_r; reflexivity|].
    intros h last Hr. destruct (rsplit_once_spec "/" url3 h last Hr) as [Hurl _].
    rewrite Hurl in E. apply char_in_prefix in E as [_ E].
    cbn [Py.char_in] in E. apply orb_false_elim in E as [_ E]. exact E.
Qed.

Lemma filter_all {A : Type} (f : A -> bool) (l : list A) :
  Forall (fun x => f x = true) l -> List.filter f l = l.
Proof.
  induction 1 as [|x l Hx Hl IH]; [reflexivity|].
  cbn [List.filter]. rewrite Hx, IH. reflexivity.
Qed.

Lemma Forall_filter_true {A : Type} (f : A -> bool) (l : list A) :
  Forall (fun x => f x = true) (List.filter f l).
Proof.
  induction l as [|x l IH]; [constructor|].
  cbn [List.filter]. destruct (f x) eqn:E; [constructor|]; assumption.
Qed.

(** What [_normalize_url] returns, in parts. *)
Lemma normalize_url_parts (raw n : string) :
  _normalize_url raw = Py.Normal n ->
  exists sch nl pth l,
    n = assemble sch nl pth (Py.join "&" l)
    /\ http_prefix sch
    /\ forall_chars safe_char nl = true
    /\ forall_chars (fun c => negb (delimiter c)) nl = true
    /\ netloc_accepted check_bracketed_netloc nl = true
    /\ slash_or_empty pth = true
    /\ forall_chars path_char pth = true
    /\ params_free pth
    /\ Forall (fun p => forall_chars query_char p = true) l
    /\ Forall (fun p => Py.char_in "&" p = false) l
    /\ Forall (fun p => kept_param p = true) l.
Proof.
  unfold _normalize_url.
  match goal with
  | |- context [urlparse ?x] => remember x as u eqn:Hu0
  end.
  assert (Hu : exists sch rest, http_prefix sch /\ u = sch ++ "://" ++ rest).
  { subst u. destruct (Py.startswith raw "http://") eqn:E1.
    - apply prefix_app in E1 as (rest & ->). exists "http", rest.
      split; [left; reflexivity | reflexivity].
    - destruct (Py.startswith raw "https://") eqn:E2.
      + apply prefix_app in E2 as (rest & ->). exists "https", rest.
        split; [right; reflexivity | reflexivity].
      + exists "https", raw. split; [right; reflexivity | reflexivity]. }
  clear Hu0. destruct Hu as (sch & rest & Hsch & ->).
  unfold urlparse at 1. rewrite (urlsplit_http check_bracketed_netloc sch rest Hsch).
  destruct (after_scheme check_bracketed_netloc sch
              ("//" ++ Py.remove_chars unsafe_url_byte rest))
    as [t|ex] eqn:Ha; [|discriminate].
  apply after_scheme_inv in Ha as (nl & url' & Hs & Hacc & ->).
  pose proof (remove_chars_safe rest) as Hsafe.
  destruct (splitnetloc_spec _ _ _ Hs) as (Heq & Hnodelim & Hdelim).
  rewrite Heq in Hsafe. apply forall_chars_prefix in Hsafe as [Hsafe_nl Hsafe_url].
  pose proof (path_of_rest url' Hdelim) as Hslash.
  unfold split_fragment_query in Hslash |- *.
  destruct (Py.split_once "#" url') as [u1 f] eqn:E1.
  destruct (split_once_spec "#" url' u1 f E1) as [Hu1 _].
  pose proof (forall_chars_split_once safe_char "#" url' Hsafe_url) as [Hsafe_u1 _].
  rewrite E1 in Hsafe_u1. cbn [fst] in Hsafe_u1.
  destruct (Py.split_once "?" u1) as [url3 q] eqn:E2.
  destruct (split_once_spec "?" u1 url3 q E2) as [Hurl3 Hq].
  pose proof (forall_chars_split_once safe_char "?" u1 Hsafe_u1) as [Hsafe_3 Hsafe_q].
  pose proof (proj1 (char_in_forall "#" u1) Hu1) as Hu1'.
  pose proof (forall_chars_split_once _ "?" u1 Hu1') as [Hh3 Hhq].
  rewrite E2 in Hsafe_3, Hsafe_q, Hh3, Hhq.
  cbn [fst snd] in Hsafe_3, Hsafe_q, Hh3, Hhq, Hslash |- *.
  apply char_in_forall in Hh3, Hhq.
  rewrite (uses_params_http sch Hsch). cbn [andb].
  destruct (splitparams_fst url3 Hslash) as [(suffix & Hsuffix) Hfree].
  assert (Hpth_slash : slash_or_empty
            (if Py.char_in ";" url3 then _splitparams url3 else (url3, "")).1 = true)
    by (destruct (Py.char_in ";" url3); [apply splitparams_path; exact Hslash | exact Hslash]).
  destruct (if Py.char_in ";" url3 then _splitparams url3 else (url3, ""))
    as [pth prm]. cbn [fst] in Hsuffix, Hfree, Hpth_slash |- *.
  cbn [scheme netloc path query].
  set (query_params := if nonempty (default "" q) then Py.split "&" (default "" q) else []).
  fold kept_param. set (l := List.filter kept_param query_params).
  intros Hn. apply Normal_inj in Hn.
  exists sch, nl, pth, l.
  assert (Hpath : forall_chars path_char pth = true).
  { apply path_char_spec. rewrite Hsuffix in Hsafe_3, Hurl3, Hh3.
    apply forall_chars_prefix in Hsafe_3 as [-> _].
    apply char_in_prefix in Hurl3 as [-> _]. apply char_in_prefix in Hh3 as [-> _].
    repeat split. }
  assert (Hparams : Forall (fun p => forall_chars query_char p = true) query_params
                    /\ Forall (fun p => Py.char_in "&" p = false) query_params).
  { subst query_params. destruct (nonempty (default "" q)); [|split; constructor].
    split; [|apply split_parts].
    apply forall_chars_split. apply query_char_spec. split; assumption. }
  destruct Hparams as [Hqc Hamp].
  split.
  { rewrite <- Hn. unfold assemble.
    replace (match l with [] => "" | _ :: _ => Py.join "&" l end) with (Py.join "&" l)
      by (destruct l; reflexivity).
    reflexivity. }
  repeat split; try assumption.
  - apply Forall_filter. exact Hqc.
  - apply Forall_filter. exact Hamp.
  - apply Forall_filter_true.
Qed.

Lemma startswith_assemble (sch nl pth cq : string) :
  http_prefix sch ->
  Py.startswith (assemble sch nl pth cq) "http://"
  || Py.startswith (assemble sch nl pth cq) "https://" = true.
Proof.
  intros [-> | ->]; rewrite assemble_eq; unfold Py.startswith.
  - change ("http" ++ "://" ++ ?r) with ("http://" ++ r).
    rewrite prefix_append. reflexivity.
  - change ("https" ++ "://" ++ ?r) with ("https://" ++ r).
    rewrite prefix_append, orb_true_r. reflexivity.
Qed.

(** X3.  [_normalize_url] is idempotent: normalizing a URL that it returned
    returns the same URL.  Such a URL parses into a scheme http or https,
    no parameters and no fragment. *)
Theorem normalize_url_idempotent (raw n : string) :
  _normalize_url raw = Py.Normal n ->
  _normalize_url n = Py.Normal n
  /\ exists parsed,
       urlparse n = Py.Normal parsed
       /\ http_prefix (scheme parsed)
       /\ params parsed = ""
       /\ fragment parsed = "".
Proof.
  intros Hnorm.
  destruct (normalize_url_parts raw n Hnorm)
    as (sch & nl & pth & l & -> & Hsch & Hsafe & Hnodelim & Hacc & Hslash & Hpath
        & Hfree & Hqc & Hamp & Hkept).
  assert (Hquery : forall_chars query_char (Py.join "&" l) = true)
    by (apply forall_chars_join; [reflexivity | exact Hqc]).
  pose proof (urlparse_assemble sch nl pth _ Hsch Hsafe Hnodelim Hacc Hslash Hpath
                Hfree Hquery) as Hparse.
  split; [|eexists; split; [exact Hparse | repeat split; assumption]].
  unfold _normalize_url. rewrite (startswith_assemble sch nl pth _ Hsch). cbn [negb].
  rewrite Hparse. cbn [scheme netloc path query]. fold kept_param.
  destruct (nonempty (Py.join "&" l)) eqn:E.
  - rewrite (split_join "&" l (nonempty_join "&" l E) Hamp), (filter_all _ l Hkept).
    unfold assemble. rewrite E.
    destruct l as [|x l]; [discriminate E|]. rewrite E. reflexivity.
  - cbn [List.filter]. unfold assemble. rewrite E. reflexivity.
Qed.


(** ** Effects on the database, through the monad *)

Section Respects.

Variable R : database -> database -> Prop.
Hypothesis R_refl : forall d, R d d.
Hypothesis R_trans : forall d1 d2 d3, R d1 d2 -> R d2 d3 -> R d1 d3.

Lemma respects_ret {A : Type} (a : A) : respects R (mret a).
Proof. intros st o st' H. unfold mret, M_ret in H. injection H as _ <-. apply R_refl. Qed.

Lemma respects_lift {A : Type} (o : Py.outcome A) : respects R (lift o).
Proof. intros st o' st' H. unfold lift in H. injection H as _ <-. apply R_refl. Qed.

Lemma respects_invoke (ev : event) : respects R (invoke ev).
Proof. intros st o st' H. unfold invoke in H. injection H as _ <-. apply R_refl. Qed.

Lemma respects_on_db {A : Type} (f : database -> A * database) :
  (forall d, R d (f d).2) -> respects R (on_db f).
Proof.
  intros Hf st o st' H. rewrite on_db_run in H. injection H as _ <-. apply Hf.
Qed.

Lemma respects_bind {A B : Type} (m : M A) (f : A -> M B) :
  respects R m -> (forall a, respects R (f a)) -> respects R (m ≫= f).
Proof.
  intros Hm Hf st o st' H. unfold mbind, M_bind in H.
  destruct (m st) as [[a|ex] st1] eqn:Hrun.
  - eapply R_trans; [exact (Hm _ _ _ Hrun) | exact (Hf a _ _ _ H)].
  - injection H as _ <-. exact (Hm _ _ _ Hrun).
Qed.

Lemma respects_try_except {A : Type} (m : M A) (h : Py.exn -> M A) :
  respects R m -> (forall ex, respects R (h ex)) -> respects R (try_except m h).
Proof.
  intros Hm Hh st o st' H. unfold try_except in H.
  destruct (m st) as [[a|ex] st1] eqn:Hrun.
  - injection H as _ <-. exact (Hm _ _ _ Hrun).
  - eapply R_trans; [exact (Hm _ _ _ Hrun) | exact (Hh ex _ _ _ H)].
Qed.

Hypothesis R_check : forall e u d, R d (check_url_in_database e u d).2.
Hypothesis R_report : forall e u description user_id d,
  R d (add_user_report e u description user_id d).2.
Hypothesis R_log : forall e u lvl c methods b ms d, R d (log_detection e u lvl c methods b ms d).

Ltac respect :=
  repeat first
    [ apply respects_ret
    | apply respects_lift
    | apply respects_invoke
    | apply respects_on_db; intros ?;
      first [ apply R_check | apply R_report | apply R_log ]
    | match goal with
      | |- respects _ (if ?c then _ else _) => destruct c
      | |- respects _ (match ?x with Some _ => _ | None => _ end) => destruct x
      end
    | apply respects_bind; [|intros ?]
    | progress unfold log_results, _check_urlhaus, check_urlhaus_host,
        _check_phish_tank, host_check ].

(** Whatever relation the three database operations of [analyze_url] keep,
    [analyze_url] keeps. *)
Lemma respects_analyze_url (e : env) (raw : string) : respects R (analyze_url e raw).
Proof.
  unfold analyze_url. apply respects_try_except; [|intros ?; respect].
  unfold analyze_url_body. respect.
Qed.

End Respects.

(** ** The store only grows *)

Lemma row_extends_refl (row : scam_url) : row_extends row row.
Proof. unfold row_extends. repeat split; lia. Qed.

Lemma row_extends_trans (r1 r2 r3 : scam_url) :
  row_extends r1 r2 -> row_extends r2 r3 -> row_extends r1 r3.
Proof.
  unfold row_extends. intros H12 H23.
  destruct H12 as (?&?&?&?&?&?&?&?&?&?&?), H23 as (?&?&?&?&?&?&?&?&?&?&?).
  repeat split; try congruence. lia.
Qed.

Lemma row_extends_bump (e : env) (row : scam_url) : row_extends row (bump e row).
Proof. unfold row_extends, bump. cbn. repeat split; lia. Qed.

Lemma evolves_refl (d : database) : evolves d d.
Proof.
  split; [|split; reflexivity].
  intros h row H. exists row. split; [exact H | apply row_extends_refl].
Qed.

Lemma evolves_trans (d1 d2 d3 : database) : evolves d1 d2 -> evolves d2 d3 -> evolves d1 d3.
Proof.
  intros (H12 & Hr12 & Hd12) (H23 & Hr23 & Hd23). split; [|split; etrans; eassumption].
  intros h row H. destruct (H12 h row H) as (row2 & H2 & He2).
  destruct (H23 h row2 H2) as (row3 & H3 & He3).
  exists row3. split; [exact H3 | eapply row_extends_trans; eassumption].
Qed.

Lemma evolves_insert_or_ignore (e : env) (h u dom tt src : string)
    (tags : option (list string)) (c : float) (d : database) :
  evolves d (insert_or_ignore_scam_url e h u dom tt src tags c d).2.
Proof.
  unfold insert_or_ignore_scam_url.
  destruct (scam_urls d !! h) eqn:Hh; cbn [snd];
    (split; [|split; reflexivity]); cbn [scam_urls];
    intros h' row H; exists row; (split; [|apply row_extends_refl]); [exact H|].
  rewrite lookup_insert_ne; [exact H | congruence].
Qed.

Lemma evolves_update_seen (e : env) (h : string) (d : database) :
  evolves d (update_seen e h d).
Proof.
  unfold update_seen. split; [|split; reflexivity]. cbn [scam_urls].
  intros h' row H. destruct (decide (h = h')) as [->|Hne].
  - exists (bump e row). split; [|apply row_extends_bump].
    rewrite lookup_alter_eq, H. reflexivity.
  - exists row. split; [|apply row_extends_refl].
    rewrite lookup_alter_ne by exact Hne. exact H.
Qed.

Lemma evolves_add_user_report (e : env) (u description : string)
    (user_id : option string) (d : database) :
  evolves d (add_user_report e u description user_id d).2.
Proof.
  unfold add_user_report. destruct (urlparse u) as [parsed|ex]; [|apply evolves_refl].
  match goal with
  | |- context [insert_or_ignore_scam_url ?e ?h ?u ?dom ?tt ?src ?tags ?c ?d1] =>
      pose proof (evolves_insert_or_ignore e h u dom tt src tags c d1) as Hins;
      destruct (insert_or_ignore_scam_url e h u dom tt src tags c d1) as [inserted d2]
  end.
  cbn [snd] in *. eapply evolves_trans; [|apply evolves_update_seen].
  eapply evolves_trans; [|exact Hins].
  split; [|split; [|reflexivity]]; cbn [scam_urls user_reports].
  - intros h row H. exists row. split; [exact H | apply row_extends_refl].
  - apply prefix_app_r. reflexivity.
Qed.

Lemma evolves_check_url_in_database (e : env) (u : string) (d : database) :
  evolves d (check_url_in_database e u d).2.
Proof.
  unfold check_url_in_database.
  destruct (scam_urls d !! _hash_url u) as [row|]; [|apply evolves_refl].
  destruct (su_is_active row); [apply evolves_update_seen | apply evolves_refl].
Qed.

Lemma evolves_log_detection (e : env) (u lvl : string) (c : float)
    (methods : list string) (b : bool) (ms : option Z) (d : database) :
  evolves d (log_detection e u lvl c methods b ms d).
Proof.
  unfold log_detection. split; [|split; [reflexivity|]];
    cbn [scam_urls detection_history].
  - intros h row H. exists row. split; [exact H | apply row_extends_refl].
  - apply prefix_app_r. reflexivity.
Qed.

Lemma evolves_add_default_scam_urls (e : env) (d : database) :
  evolves d (add_default_scam_urls e d).
Proof.
  unfold add_default_scam_urls.
  match goal with
  | |- context [fold_left ?f _ _] => set (step := f)
  end.
  assert (H : forall l d0, evolves d d0 ->
            match fold_left step l (Py.Normal d0) with
            | Py.Normal d' => evolves d d'
            | Py.Raise _ => True
            end).
  { induction l as [|item l IH]; intros d0 Hd0; [exact Hd0|].
    cbn [fold_left]. destruct item as [[[u tt] src] tags]. cbn [step].
    destruct (urlparse u) as [parsed|ex].
    - apply IH. eapply evolves_trans; [exact Hd0 | apply evolves_insert_or_ignore].
    - clear. induction l as [|item l IH]; [exact I | exact IH]. }
  specialize (H default_scams d (evolves_refl d)).
  destruct (fold_left step default_scams (Py.Normal d)); [exact H | apply evolves_refl].
Qed.

Lemma evolves_report_scam (e : env) (u description : string)
    (user_id : option string) (d : database) :
  evolves d (report_scam e u description user_id d).2.
Proof.
  unfold report_scam.
  pose proof (evolves_add_user_report e u description user_id d) as H.
  destruct (add_user_report e u description user_id d) as [result d'].
  destruct (rr_success result); exact H.
Qed.

(** X4.  No operation of the core deletes or rewrites what the database
    holds: after seeding, reporting, looking up, logging or analysing, every
    record of [scam_urls] is still there with the same classification,
    confidence and activity flag and a report count that has not gone down,
    and the tables of reports and detections have only been appended to. *)
Theorem store_only_grows (e : env) (d : database) :
  evolves d (add_default_scam_urls e d)
  /\ (forall url description user_id,
        evolves d (add_user_report e url description user_id d).2
        /\ evolves d (report_scam e url description user_id d).2)
  /\ (forall url, evolves d (check_url_in_database e url d).2)
  /\ (forall url lvl c methods b ms, evolves d (log_detection e url lvl c methods b ms d))
  /\ (forall raw tr,
        evolves d (db (analyze_url e raw {| db := d; trace := tr |}).2)).
Proof.
  split; [apply evolves_add_default_scam_urls|].
  split; [intros; split; [apply evolves_add_user_report | apply evolves_report_scam]|].
  split; [intros; apply evolves_check_url_in_database|].
  split; [intros; apply evolves_log_detection|].
  intros raw tr.
  destruct (analyze_url e raw {| db := d; trace := tr |}) as [o st'] eqn:Hrun.
  exact (respects_analyze_url evolves evolves_refl evolves_trans
           evolves_check_url_in_database evolves_add_user_report evolves_log_detection
           e raw _ _ _ Hrun).
Qed.


(** ** The invariant of the databases that the core builds *)

Lemma row_wf_bump (e : env) (h : string) (row : scam_url) :
  row_wf h row -> row_wf h (bump e row).
Proof.
  unfold row_wf, default_record, reported_record, bump. cbn.
  intros (Ha & Hh & Ho & Hc & Hk). repeat split; try assumption. lia.
Qed.

Lemma rows_wf_update_seen (e : env) (h0 : string) (d : database) :
  (forall h row, scam_urls d !! h = Some row -> row_wf h row) ->
  forall h row, scam_urls (update_seen e h0 d) !! h = Some row -> row_wf h row.
Proof.
  intros Hd h row. unfold update_seen. cbn [scam_urls].
  destruct (decide (h0 = h)) as [->|Hne].
  - rewrite lookup_alter_eq. destruct (scam_urls d !! h) as [row0|] eqn:E; [|discriminate].
    intros [= <-]. apply row_wf_bump, Hd, E.
  - rewrite lookup_alter_ne by exact Hne. apply Hd.
Qed.

Lemma rows_wf_insert_or_ignore (e : env) (u dom tt src : string)
    (tags : option (list string)) (c : float) (d : database) :
  (forall id, row_wf (_hash_url u)
     {| su_id := id; su_url_hash := _hash_url u; su_original_url := u;
        su_domain := dom; su_threat_type := tt; su_confidence := c;
        su_source := src; su_tags := tags;
        su_first_seen := current_timestamp e; su_last_seen := current_timestamp e;
        su_report_count := 1; su_is_active := true |}) ->
  (forall h row, scam_urls d !! h = Some row -> row_wf h row) ->
  forall h row,
    scam_urls (insert_or_ignore_scam_url e (_hash_url u) u dom tt src tags c d).2 !! h
    = Some row ->
    row_wf h row.
Proof.
  intros Hnew Hd h row. unfold insert_or_ignore_scam_url.
  destruct (scam_urls d !! _hash_url u) eqn:E; cbn [snd scam_urls]; [apply Hd|].
  destruct (decide (_hash_url u = h)) as [<-|Hne].
  - rewrite lookup_insert_eq. intros [= <-]. apply Hnew.
  - rewrite lookup_insert_ne by exact Hne. apply Hd.
Qed.

Lemma present_insert_or_ignore (e : env) (h u dom tt src : string)
    (tags : option (list string)) (c : float) (d : database) :
  exists row, scam_urls (insert_or_ignore_scam_url e h u dom tt src tags c d).2 !! h
              = Some row.
Proof.
  unfold insert_or_ignore_scam_url. destruct (scam_urls d !! h) as [row|] eqn:E.
  - exists row. exact E.
  - cbn [snd scam_urls]. rewrite lookup_insert_eq. eauto.
Qed.

Lemma reports_insert_or_ignore (e : env) (h u dom tt src : string)
    (tags : option (list string)) (c : float) (d : database) :
  user_reports (insert_or_ignore_scam_url e h u dom tt src tags c d).2 = user_reports d.
Proof.
  unfold insert_or_ignore_scam_url. destruct (scam_urls d !! h); reflexivity.
Qed.

Lemma store_wf_empty : store_wf empty_database.
Proof.
  split.
  - intros h row H. cbn in H. rewrite lookup_empty in H. discriminate.
  - intros r [].
Qed.

(** A later database still satisfies what [store_wf] asks of the reports. *)
Lemma reports_wf_evolves (d d' : database) :
  evolves d d' ->
  (forall r, In r (user_reports d) ->
     ur_status r = "pending" /\ ur_report_type r = "scam"
     /\ exists row, scam_urls d !! ur_url_hash r = Some row) ->
  forall r, In r (user_reports d) ->
    ur_status r = "pending" /\ ur_report_type r = "scam"
    /\ exists row, scam_urls d' !! ur_url_hash r = Some row.
Proof.
  intros (Hrows & _ & _) Hd r Hr. destruct (Hd r Hr) as (Hs & Ht & row & Hrow).
  repeat split; try assumption.
  destruct (Hrows _ _ Hrow) as (row' & Hrow' & _). eauto.
Qed.

Lemma store_wf_update_seen (e : env) (h : string) (d : database) :
  store_wf d -> store_wf (update_seen e h d).
Proof.
  intros [Hrows Hreports]. split.
  - apply rows_wf_update_seen. exact Hrows.
  - apply (reports_wf_evolves d); [apply evolves_update_seen | exact Hreports].
Qed.

Lemma store_wf_add_user_report (e : env) (u description : string)
    (user_id : option string) (d : database) :
  store_wf d -> store_wf (add_user_report e u description user_id d).2.
Proof.
  intros Hwf. pose proof (evolves_add_user_report e u description user_id d) as Hev.
  revert Hev. unfold add_user_report.
  destruct (urlparse u) as [parsed|ex]; [|intros _; exact Hwf].
  set (report := {| ur_id := _ |}).
  set (d1 := {| scam_urls := scam_urls d; user_reports := user_reports d ++ [report];
                detection_history := detection_history d |}).
  pose proof (rows_wf_insert_or_ignore e u (netloc parsed) "user_reported" "user_report"
                None 0.7%float d1) as Hrows.
  pose proof (present_insert_or_ignore e (_hash_url u) u (netloc parsed) "user_reported"
                "user_report" None 0.7%float d1) as Hpresent.
  pose proof (reports_insert_or_ignore e (_hash_url u) u (netloc parsed) "user_reported"
                "user_report" None 0.7%float d1) as Hreports.
  destruct (insert_or_ignore_scam_url e (_hash_url u) u (netloc parsed) "user_reported"
              "user_report" None 0.7%float d1) as [inserted d2].
  cbn [snd] in *. intros Hev. destruct Hwf as [Hd Hr]. split.
  - apply rows_wf_update_seen. apply Hrows; [|exact Hd].
    intros id. unfold row_wf, reported_record. cbn. repeat split; try lia.
    right. repeat split.
  - intros r. unfold update_seen. cbn [user_reports scam_urls].
    rewrite Hreports. subst d1. cbn [user_reports].
    intros Hin. apply in_app_or in Hin as [Hin | [<- | []]].
    + exact (reports_wf_evolves d _ Hev Hr r Hin).
    + cbn. repeat split. destruct Hpresent as (row & Hrow).
      exists (bump e row). rewrite lookup_alter_eq, Hrow. reflexivity.
Qed.

Lemma store_wf_check_url_in_database (e : env) (u : string) (d : database) :
  store_wf d -> store_wf (check_url_in_database e u d).2.
Proof.
  intros Hwf. unfold check_url_in_database.
  destruct (scam_urls d !! _hash_url u) as [row|]; [|exact Hwf].
  destruct (su_is_active row); [apply store_wf_update_seen, Hwf | exact Hwf].
Qed.

Lemma store_wf_log_detection (e : env) (u lvl : string) (c : float)
    (methods : list string) (b : bool) (ms : option Z) (d : database) :
  store_wf d -> store_wf (log_detection e u lvl c methods b ms d).
Proof. intros Hwf. exact Hwf. Qed.

Lemma store_wf_add_default_scam_urls (e : env) (d : database) :
  store_wf d -> store_wf (add_default_scam_urls e d).
Proof.
  intros Hwf. unfold add_default_scam_urls.
  match goal with
  | |- context [fold_left ?f _ _] => set (step := f)
  end.
  assert (H : forall l d0, incl l default_scams -> store_wf d0 ->
            match fold_left step l (Py.Normal d0) with
            | Py.Normal d' => store_wf d'
            | Py.Raise _ => True
            end).
  { induction l as [|item l IH]; intros d0 Hincl Hd0; [exact Hd0|].
    cbn [fold_left]. destruct item as [[[u tt] src] tags] eqn:Eitem. cbn [step].
    destruct (urlparse u) as [parsed|ex].
    - apply IH; [intros x Hx; apply Hincl; right; exact Hx|].
      destruct Hd0 as [Hrows Hreports]. split.
      + apply rows_wf_insert_or_ignore; [|exact Hrows].
        intros id. unfold row_wf. cbn. repeat split; try lia.
        left. exists u, tt, src, tags. cbn. repeat split.
        apply Hincl. left. reflexivity.
      + rewrite reports_insert_or_ignore.
        apply (reports_wf_evolves d0); [apply evolves_insert_or_ignore | exact Hreports].
    - clear. induction l as [|item l IH]; [exact I | exact IH]. }
  specialize (H default_scams d (incl_refl _) Hwf).
  destruct (fold_left step default_scams (Py.Normal d)); [exact H | exact Hwf].
Qed.

Lemma store_wf_analyze_url (e : env) (raw : string) (st : state) :
  store_wf (db st) -> store_wf (db (analyze_url e raw st).2).
Proof.
  destruct (analyze_url e raw st) as [o st'] eqn:Hrun.
  exact (respects_analyze_url (fun d d' => store_wf d -> store_wf d')
           (fun d H => H) (fun d1 d2 d3 H12 H23 H => H23 (H12 H))
           store_wf_check_url_in_database store_wf_add_user_report store_wf_log_detection
           e raw _ _ _ Hrun).
Qed.

(** The databases that the core builds keep the invariant. *)
Lemma built_wf (d : database) :
  built sha256_hexdigest check_bracketed_netloc d -> store_wf d.
Proof.
  induction 1 as [|e d Hb IH|e u description user_id d Hb IH|e u d Hb IH
                  |e u lvl c methods b ms d Hb IH|e raw st Hb IH].
  - apply store_wf_empty.
  - apply store_wf_add_default_scam_urls, IH.
  - apply store_wf_add_user_report, IH.
  - apply store_wf_check_url_in_database, IH.
  - apply store_wf_log_detection, IH.
  - apply store_wf_analyze_url, IH.
Qed.

(** X5.  In every database that the operations build from an empty file,
    each record of [scam_urls] is active, is stored under the hash of its
    own URL, has been counted at least once, and is either one of the
    default scams (confidence 0.9, with tags) or a user report (confidence
    0.7, no tags, type "user_reported", source "user_report"); each user
    report is pending, of type "scam", and its URL has a record. *)
Theorem built_store_invariant (d : database) :
  built sha256_hexdigest check_bracketed_netloc d ->
  (forall h row, scam_urls d !! h = Some row ->
     su_is_active row = true
     /\ su_url_hash row = h
     /\ h = _hash_url (su_original_url row)
     /\ (1 <= su_report_count row)%Z
     /\ (default_record row \/ reported_record row))
  /\ (forall r, In r (user_reports d) ->
        ur_status r = "pending" /\ ur_report_type r = "scam"
        /\ exists row, scam_urls d !! ur_url_hash r = Some row).
Proof. intros Hb. exact (built_wf d Hb). Qed.

(** ** Statistics *)

Lemma sum_values_bump (m : gmap string nat) (k : string) :
  sum_values (<[k := S (default 0 (m !! k))]> m) = S (sum_values m).
Proof.
  unfold sum_values. destruct (m !! k) as [v|] eqn:E; cbn [default].
  - rewrite <- (insert_delete_eq m k (S v)).
    rewrite map_fold_insert_L; [|intros; lia | apply lookup_delete_eq].
    rewrite (map_fold_delete_L _ _ k v m); [lia | intros; lia | exact E].
  - rewrite map_fold_insert_L; [lia | intros; lia | exact E].
Qed.

Lemma sum_values_count_by_source (rows : list scam_url) :
  sum_values (count_by_source rows) = length (List.filter su_is_active rows).
Proof.
  induction rows as [|row rows IH]; [reflexivity|].
  cbn [count_by_source fold_right List.filter].
  fold (count_by_source rows). destruct (su_is_active row); [|exact IH].
  rewrite sum_values_bump, IH. reflexivity.
Qed.

(** X6.  The statistics agree with each other and with the tables: the
    counts by source add up to the total; and in a database that the
    operations built, the total is the number of records and every report
    counts as pending. *)
Theorem database_stats_consistent (e : env) (d : database) :
  built sha256_hexdigest check_bracketed_netloc d ->
  let stats := get_database_stats e d in
  sum_values (by_source stats) = total_scam_urls stats
  /\ total_scam_urls stats = size (scam_urls d)
  /\ pending_user_reports stats = length (user_reports d).
Proof.
  intros Hb. destruct (built_wf d Hb) as [Hrows Hreports].
  cbn zeta. unfold get_database_stats.
  cbn [by_source total_scam_urls pending_user_reports].
  split; [apply sum_values_count_by_source|]. split.
  - rewrite filter_all, length_fmap, length_map_to_list; [reflexivity|].
    apply List.Forall_forall. intros row Hin.
    apply list_elem_of_In, list_elem_of_fmap in Hin as ([h row'] & -> & Hin).
    apply elem_of_map_to_list in Hin. exact (proj1 (Hrows h row' Hin)).
  - rewrite filter_all; [reflexivity|].
    apply List.Forall_forall. intros r Hin.
    destruct (Hreports r Hin) as (-> & _). reflexivity.
Qed.


(** ** A run of [analyze_url], step by step *)

Lemma _check_urlhaus_trace (e : env) (n : string) (st : state) :
  exists uh,
    _check_urlhaus e n st
    = (Py.Normal uh, {| db := db st; trace := (trace st ++ urlhaus_events e n)%list |})
    /\ (auth_key_set e = false -> uh_is_malicious uh = false).
Proof.
  unfold _check_urlhaus, urlhaus_events. destruct (auth_key_set e); cbn [negb].
  - eexists. split; [|discriminate].
    unfold mbind, M_bind, invoke, mret, M_ret. cbn. reflexivity.
  - exists (not_malicious "URLhaus not configured" "not_configured").
    split; [|reflexivity].
    unfold mret, M_ret. rewrite app_nil_r. destruct st; reflexivity.
Qed.

Lemma host_check_trace (e : env) (n : string) (parsed : ParseResult)
    (method : HostResult -> Results -> Results) (r : Results) (st : state) :
  method host_failed r = r ->
  urlparse n = Py.Normal parsed ->
  exists hr,
    host_check check_bracketed_netloc e n method r st
    = (Py.Normal (method hr r),
       {| db := db st; trace := (trace st ++ host_events e (netloc parsed))%list |})
    /\ (auth_key_set e = false -> hr = host_failed).
Proof.
  intros Hfailed Hparse. unfold host_check, host_events.
  rewrite (bind_normal _ _ st st parsed) by (unfold lift; rewrite Hparse; reflexivity).
  destruct (nonempty (netloc parsed)); cbn [andb].
  - unfold check_urlhaus_host. destruct (auth_key_set e); cbn [negb].
    + eexists. split; [|discriminate].
      unfold mbind, M_bind, invoke, mret, M_ret. cbn. reflexivity.
    + exists host_failed. split; [|reflexivity].
      unfold mbind, M_bind, mret, M_ret. rewrite app_nil_r. destruct st; reflexivity.
  - exists host_failed. split; [|reflexivity].
    rewrite Hfailed, app_nil_r. unfold mret, M_ret. destruct st; reflexivity.
Qed.

Lemma _check_phish_tank_trace (e : env) (n : string) (st : state) :
  exists pt,
    _check_phish_tank e n st
    = (Py.Normal pt, {| db := db st; trace := (trace st ++ [PhishTankQuery n])%list |}).
Proof.
  unfold _check_phish_tank. eexists.
  unfold mbind, M_bind, invoke, mret, M_ret. cbn. reflexivity.
Qed.

Lemma check_url_in_database_miss (e : env) (n : string) (d d1 : database) :
  check_url_in_database e n d = (None, d1) ->
  d1 = d /\ (forall row, scam_urls d !! _hash_url n = Some row -> su_is_active row = false).
Proof.
  unfold check_url_in_database.
  destruct (scam_urls d !! _hash_url n) as [row|].
  - destruct (su_is_active row) eqn:E; [discriminate|].
    intros [= <-]. split; [reflexivity|]. intros row' [= <-]. exact E.
  - intros [= <-]. split; [reflexivity | discriminate].
Qed.

(** Every returning run of the [try] block, with the state it ends in. *)
Lemma analyze_url_body_run (e : env) (raw : string) (st st' : state) (r : Results) :
  analyze_url_body e raw st = (Py.Normal r, st') ->
  exists n parsed,
    _normalize_url raw = Py.Normal n
    /\ urlparse n = Py.Normal parsed
    /\ let init := initial_results n (time_time e) in
       (* Method 1 returned early *)
       (exists row,
          scam_urls (db st) !! _hash_url n = Some row
          /\ su_is_active row = true
          /\ let results := method1_local_database (db_result_of row) init in
             r = finish results
             /\ st' = {| db := log_detection e n (level_str (threat_level results))
                                 (confidence results) (detection_methods results)
                                 (is_suspicious results) None
                                 (update_seen e (_hash_url n) (db st));
                         trace := trace st |})
       \/
       (* Method 2 returned early *)
       (exists uh hr,
          check_url_in_database e n (db st) = (None, db st)
          /\ uh_is_malicious uh = true
          /\ auth_key_set e = true
          /\ let results := method2_host_extra hr (method2_urlhaus uh init) in
             r = finish results
             /\ st' = {| db := log_detection e n (level_str (threat_level results))
                                 (confidence results) (detection_methods results)
                                 (is_suspicious results) None
                                 (add_user_report e n
                                    ("Detected by URLhaus: " ++ uh_details uh)
                                    None (db st)).2;
                         trace := (trace st ++ urlhaus_events e n
                                   ++ host_events e (netloc parsed))%list |})
       \/
       (* the remaining methods ran *)
       (exists hr pt s4 s5,
          check_url_in_database e n (db st) = (None, db st)
          /\ _pattern_analysis n = Py.Normal s4
          /\ _analyze_url_structure n = Py.Normal s5
          /\ (auth_key_set e = false -> hr = host_failed)
          /\ r = finish
                 (method6_myanmar (_detect_myanmar_scams n)
                    (method5_structure s5
                       (method4_pattern s4
                          (method3_phish_tank pt
                             (method2_urlhaus_host hr init)))))
          /\ st' = {| db := db st;
                      trace := (trace st ++ urlhaus_events e n
                                ++ host_events e (netloc parsed)
                                ++ fallback_events n)%list |}).
Proof.
  unfold analyze_url_body. intros Hrun.
  destruct (_normalize_url raw) as [n|ex] eqn:Hnorm.
  2:{ rewrite (bind_raise _ _ st st ex) in Hrun by (unfold lift; reflexivity).
      discriminate Hrun. }
  destruct (normalized_url_parses check_bracketed_netloc raw n Hnorm)
    as ((parsed & Hparse) & _).
  rewrite (bind_normal _ _ st st n) in Hrun by (unfold lift; reflexivity).
  cbn zeta in Hrun. exists n, parsed. split; [reflexivity|]. split; [exact Hparse|].
  cbn zeta. set (init := initial_results n (time_time e)) in *.
  erewrite bind_normal in Hrun by apply on_db_run.
  destruct (check_url_in_database e n (db st)) as [[dbr|] d1] eqn:Hcheck;
    cbn [fst snd] in Hrun.
  - (* hit *)
    left. unfold check_url_in_database in Hcheck.
    destruct (scam_urls (db st) !! _hash_url n) as [row|] eqn:Hrow; [|discriminate Hcheck].
    destruct (su_is_active row) eqn:Hactive; [|discriminate Hcheck].
    injection Hcheck as <- <-. exists row.
    unfold log_results in Hrun. erewrite bind_normal in Hrun by apply on_db_run.
    unfold mret, M_ret in Hrun. injection Hrun as <- <-.
    repeat split; try assumption; reflexivity.
  - (* miss *)
    destruct (check_url_in_database_miss e n (db st) d1 Hcheck) as [-> _].
    replace {| db := db st; trace := trace st |} with st in Hrun by (destruct st; reflexivity).
    destruct (_check_urlhaus_trace e n st) as (uh & Huh & Hkey).
    rewrite (bind_normal _ _ _ _ _ Huh) in Hrun.
    destruct (uh_is_malicious uh) eqn:Hmal.
    + (* URLhaus detection *)
      right; left. exists uh.
      erewrite bind_normal in Hrun by apply on_db_run.
      cbn [db trace] in Hrun.
      match type of Hrun with
      | (host_check _ _ _ ?m ?r0 ≫= _) ?s = _ =>
          destruct (host_check_trace e n parsed m r0 s (method2_host_extra_failed _) Hparse)
            as (hr & Hhost & _)
      end.
      rewrite (bind_normal _ _ _ _ _ Hhost) in Hrun.
      unfold log_results in Hrun. erewrite bind_normal in Hrun by apply on_db_run.
      unfold mret, M_ret in Hrun. cbn [db trace] in Hrun. injection Hrun as <- <-.
      exists hr. split; [reflexivity|]. split; [exact Hmal|].
      split; [destruct (auth_key_set e); [reflexivity | discriminate (Hkey eq_refl)]|].
      cbn zeta. split; [reflexivity|]. rewrite <- app_assoc. reflexivity.
    + (* fall through *)
      right; right.
      match type of Hrun with
      | (host_check _ _ _ ?m ?r0 ≫= _) ?s = _ =>
          destruct (host_check_trace e n parsed m r0 s (method2_urlhaus_host_failed _) Hparse)
            as (hr & Hhost & Hhr)
      end.
      rewrite (bind_normal _ _ _ _ _ Hhost) in Hrun.
      match type of Hrun with
      | (_check_phish_tank e n ≫= _) ?s = _ =>
          destruct (_check_phish_tank_trace e n s) as (pt & Hpt)
      end.
      rewrite (bind_normal _ _ _ _ _ Hpt) in Hrun.
      cbn zeta in Hrun.
      erewrite bind_normal in Hrun by (unfold invoke; reflexivity).
      destruct (_pattern_analysis n) as [s4|ex] eqn:Hs4.
      2:{ erewrite bind_raise in Hrun by (unfold lift; reflexivity). discriminate Hrun. }
      erewrite bind_normal in Hrun by (unfold lift; reflexivity).
      cbn zeta in Hrun.
      erewrite bind_normal in Hrun by (unfold invoke; reflexivity).
      destruct (_analyze_url_structure n) as [s5|ex] eqn:Hs5.
      2:{ erewrite bind_raise in Hrun by (unfold lift; reflexivity). discriminate Hrun. }
      erewrite bind_normal in Hrun by (unfold lift; reflexivity).
      cbn zeta in Hrun.
      erewrite bind_normal in Hrun by (unfold invoke; reflexivity).
      cbn zeta in Hrun. unfold mret, M_ret in Hrun. cbn [db trace] in Hrun.
      injection Hrun as <- <-.
      exists hr, pt, s4, s5. repeat split; try assumption; try reflexivity.
      unfold fallback_events. rewrite <- !app_assoc. reflexivity.
Qed.


(** ** What a verdict says, and what is logged *)

Ltac by_cases :=
  repeat match goal with
         | |- context [if ?c then _ else _] => destruct c
         end;
  reflexivity.

Lemma suspicious_host (hr : HostResult) (r : Results) :
  is_suspicious (method2_urlhaus_host hr r) = host_is_malicious hr || is_suspicious r.
Proof. unfold method2_urlhaus_host. destruct (host_is_malicious hr); reflexivity. Qed.

Lemma suspicious_phish_tank (pt : PhishTankResult) (r : Results) :
  is_suspicious (method3_phish_tank pt r) = pk_is_phishing pt || is_suspicious r.
Proof. unfold method3_phish_tank. destruct (pk_is_phishing pt); by_cases. Qed.

Lemma suspicious_pattern (s4 : float) (r : Results) :
  is_suspicious (method4_pattern s4 r) = (0.3 <? s4)%float || is_suspicious r.
Proof. unfold method4_pattern. destruct (0.3 <? s4)%float; by_cases. Qed.

Lemma suspicious_structure (s5 : float) (r : Results) :
  is_suspicious (method5_structure s5 r) = (0.6 <? s5)%float || is_suspicious r.
Proof. unfold method5_structure. destruct (0.6 <? s5)%float; by_cases. Qed.

Lemma suspicious_myanmar (s6 : float) (r : Results) :
  is_suspicious (method6_myanmar s6 r) = (0.7 <? s6)%float || is_suspicious r.
Proof. unfold method6_myanmar. destruct (0.7 <? s6)%float; by_cases. Qed.

Lemma suspicious_finish (r : Results) : is_suspicious (finish r) = is_suspicious r.
Proof. reflexivity. Qed.

Lemma url_finish (r : Results) : url (finish r) = url r.
Proof. reflexivity. Qed.

Lemma message_finish (r : Results) :
  message (finish r) = Some (_generate_response_message (finish r)).
Proof. reflexivity. Qed.

(** The three facts about a verdict that the properties below read, on each
    of the three paths. *)
Lemma local_verdict (dbr : DbResult) (init : Results) :
  let r := finish (method1_local_database dbr init) in
  is_suspicious r = true /\ threat_level r = critical
  /\ detection_methods r = (detection_methods init ++ ["local_database"])%list.
Proof. repeat split. Qed.

Lemma urlhaus_verdict (uh : UrlhausResult) (hr : HostResult) (init : Results) :
  let r := finish (method2_host_extra hr (method2_urlhaus uh init)) in
  is_suspicious r = true /\ threat_level r = critical
  /\ exists tail, detection_methods r = (detection_methods init ++ "urlhaus" :: tail)%list
                  /\ (tail = [] \/ tail = ["urlhaus_host"]).
Proof.
  cbn zeta. unfold method2_host_extra. destruct (host_is_malicious hr).
  - destruct (negb (list_in "urlhaus_host" (detection_methods (method2_urlhaus uh init)))).
    + repeat split. exists ["urlhaus_host"]. split; [|right; reflexivity].
      cbn. rewrite <- app_assoc. reflexivity.
    + repeat split. exists []. split; [reflexivity | left; reflexivity].
  - repeat split. exists []. split; [reflexivity | left; reflexivity].
Qed.

Lemma fallthrough_verdict (hr : HostResult) (pt : PhishTankResult) (s4 s5 s6 : float)
    (n : string) (t : float) :
  let r := finish (method6_myanmar s6 (method5_structure s5 (method4_pattern s4
             (method3_phish_tank pt (method2_urlhaus_host hr (initial_results n t)))))) in
  let fired := host_is_malicious hr || pk_is_phishing pt || (0.3 <? s4)%float
               || (0.6 <? s5)%float || (0.7 <? s6)%float in
  is_suspicious r = fired
  /\ (threat_level r = safe <-> fired = false)
  /\ threat_level r <> unknown
  /\ (detection_methods r = [] <-> fired = false)
  /\ list_in "local_database" (detection_methods r) = false
  /\ list_in "urlhaus" (detection_methods r) = false.
Proof.
  cbn zeta. rewrite methods_fallthrough.
  rewrite suspicious_finish, suspicious_myanmar, suspicious_structure, suspicious_pattern,
    suspicious_phish_tank, suspicious_host.
  rewrite level_finish, level_myanmar, level_structure, level_pattern, level_phish_tank,
    level_host.
  cbn [initial_results is_suspicious threat_level detection_methods app].
  destruct (host_is_malicious hr), (pk_is_phishing pt), (0.3 <? s4)%float,
    (0.7 <? s4)%float, (0.6 <? s5)%float, (0.7 <? s6)%float;
    cbn; repeat split; intros; congruence.
Qed.

(** The level, the methods and the flag of a returned analysis agree. *)
Lemma verdict_coherence (e : env) (raw : string) (st st' : state) (r : Results) :
  analyze_url e raw st = (Py.Normal (Analysed r), st') ->
  (is_suspicious r = true <-> detection_methods r <> [])
  /\ (is_suspicious r = true <-> threat_level r <> safe)
  /\ threat_level r <> unknown
  /\ (list_in "local_database" (detection_methods r) = true
      \/ list_in "urlhaus" (detection_methods r) = true ->
      threat_level r = critical)
  /\ message r = Some (_generate_response_message r).
Proof.
  intros Hrun. rewrite analyze_url_unfold in Hrun.
  destruct (analyze_url_body e raw st) as [[r0|ex] st0] eqn:Hbody; [|discriminate Hrun].
  injection Hrun as -> ->.
  destruct (analyze_url_body_run e raw st st' r Hbody) as (n & parsed & _ & _ & Hpath).
  cbn zeta in Hpath.
  destruct Hpath as [(row & _ & _ & -> & _)
                    | [(uh & hr & _ & _ & _ & -> & _)
                      | (hr & pt & s4 & s5 & _ & _ & _ & _ & -> & _)]].
  - rewrite message_finish.
    destruct (local_verdict (db_result_of row) (initial_results n (time_time e)))
      as (-> & -> & ->).
    repeat split; try discriminate; reflexivity.
  - rewrite message_finish.
    destruct (urlhaus_verdict uh hr (initial_results n (time_time e)))
      as (-> & -> & tail & -> & _).
    repeat split; try discriminate; reflexivity.
  - rewrite message_finish.
    destruct (fallthrough_verdict hr pt s4 s5 (_detect_myanmar_scams n) n (time_time e))
      as (-> & Hlevel & Hunk & Hmethods & Hlocal & Hurlhaus).
    repeat split; try assumption.
    + intros Hf Hnil. apply Hmethods in Hnil. congruence.
    + intros Hne. destruct (_ || _)%bool; [reflexivity|].
      exfalso. apply Hne, Hmethods. reflexivity.
    + intros Hf Hsafe. apply Hlevel in Hsafe. congruence.
    + intros Hne. destruct (_ || _)%bool; [reflexivity|].
      exfalso. apply Hne, Hlevel. reflexivity.
    + intros [H | H]; congruence.
Qed.

(** X7.  A returned analysis is coherent.  [is_suspicious] holds exactly
    when some method is listed, and exactly when the level is above "safe";
    the level is never "unknown"; a method list that names "local_database"
    or "urlhaus" goes with the level "critical".  The message is the text of
    [_generate_response_message] for the verdict: the plain "safe" text
    exactly when nothing fired, and never the text for a link cleared by
    URLhaus nor the text for an unknown level. *)
Theorem verdict_is_coherent (e : env) (raw : string) (st st' : state) (r : Results) :
  analyze_url e raw st = (Py.Normal (Analysed r), st') ->
  (is_suspicious r = true <-> detection_methods r <> [])
  /\ (is_suspicious r = true <-> threat_level r <> safe)
  /\ threat_level r <> unknown
  /\ (list_in "local_database" (detection_methods r) = true
      \/ list_in "urlhaus" (detection_methods r) = true ->
      threat_level r = critical)
  /\ message r = Some (_generate_response_message r)
  /\ (message r = Some safe_message <-> is_suspicious r = false)
  /\ message r <> Some urlhaus_safe_message
  /\ message r <> Some unknown_message.
Proof.
  intros Hrun.
  destruct (verdict_coherence e raw st st' r Hrun) as (Hmeth & Hlevel & Hunk & Hcrit & Hmsg).
  do 5 (split; [assumption|]). rewrite Hmsg.
  unfold _generate_response_message, safe_message, urlhaus_safe_message, unknown_message.
  destruct (threat_level r) eqn:El.
  - contradiction.
  - assert (Hs : is_suspicious r = false).
    { destruct (is_suspicious r); [|reflexivity].
      exfalso. apply (proj1 Hlevel); reflexivity. }
    destruct (list_in "urlhaus" (detection_methods r)) eqn:Eu.
    { assert (safe = critical) by (apply Hcrit; right; reflexivity). discriminate. }
    repeat split; intros; try assumption; discriminate.
  - assert (Hs : is_suspicious r = true) by (apply Hlevel; discriminate).
    rewrite Hs.
    destruct (list_in "pattern_analysis" (detection_methods r));
      repeat split; intros; discriminate.
  - assert (Hs : is_suspicious r = true) by (apply Hlevel; discriminate).
    rewrite Hs.
    destruct (list_in "urlhaus_host" (detection_methods r));
      [|destruct (list_in "myanmar_specific" (detection_methods r))];
      repeat split; intros; discriminate.
  - assert (Hs : is_suspicious r = true) by (apply Hlevel; discriminate).
    rewrite Hs.
    destruct (list_in "urlhaus" (detection_methods r));
      [|destruct (list_in "phish_tank" (detection_methods r))];
      repeat split; intros; discriminate.
Qed.


(** X8.  [analyze_url] logs a detection only on its two terminal tiers.
    When the verdict names "local_database" or "urlhaus", exactly one row
    is appended to [detection_history]; it holds the normalized URL, the
    level "critical", the methods of the verdict and the confidence before
    the cap, of which the verdict's confidence is the minimum with 1.  On
    every other path, and when the call fails, the table is left as it
    was. *)
Theorem detection_is_logged_on_terminal_tiers (e : env) (raw : string)
    (st st' : state) (v : verdict) :
  analyze_url e raw st = (Py.Normal v, st') ->
  match v with
  | Analysed r =>
      if list_in "local_database" (detection_methods r)
         || list_in "urlhaus" (detection_methods r)
      then exists ev,
             detection_history (db st') = (detection_history (db st) ++ [ev])%list
             /\ dh_original_url ev = url r
             /\ dh_url_hash ev = _hash_url (url r)
             /\ dh_threat_level ev = "critical"
             /\ dh_detection_methods ev = detection_methods r
             /\ dh_is_suspicious ev = true
             /\ dh_timestamp ev = current_timestamp e
             /\ confidence r = Py.min (dh_confidence ev) 1.0%float
      else detection_history (db st') = detection_history (db st)
  | Failed _ _ => detection_history (db st') = detection_history (db st)
  end.
Proof.
  intros Hrun. rewrite analyze_url_unfold in Hrun.
  destruct (analyze_url_body e raw st) as [[r|ex] st0] eqn:Hbody;
    injection Hrun as <- <-.
  2:{ destruct (analyze_url_body_raises sha256_hexdigest check_bracketed_netloc
                  e raw st st0 ex Hbody) as [_ ->]. reflexivity. }
  destruct (analyze_url_body_run e raw st st0 r Hbody) as (n & parsed & _ & _ & Hpath).
  cbn zeta in Hpath.
  destruct Hpath as [(row & _ & _ & -> & ->)
                    | [(uh & hr & _ & _ & _ & -> & ->)
                      | (hr & pt & s4 & s5 & _ & _ & _ & _ & -> & ->)]].
  - change (list_in "local_database" _) with true. cbn [orb].
    eexists. cbn [db]. unfold log_detection at 1. cbn [detection_history].
    split; [reflexivity|]. cbn. repeat split.
  - destruct (urlhaus_verdict uh hr (initial_results n (time_time e)))
      as (_ & Hlevel & tail & Hmethods & _).
    cbn zeta in Hlevel, Hmethods. rewrite Hmethods.
    change (list_in "urlhaus" (_ ++ _)%list) with true. rewrite orb_true_r.
    eexists. cbn [db]. unfold log_detection at 1. cbn [detection_history].
    split.
    { f_equal.
      pose proof (evolves_add_user_report e n ("Detected by URLhaus: " ++ uh_details uh)
                    None (db st)) as Hev.
      revert Hev. unfold add_user_report.
      destruct (urlparse n) as [p|?]; [|reflexivity].
      destruct (insert_or_ignore_scam_url _ _ _ _ _ _ _ _ _) as [ins d2] eqn:Eins.
      intros _. cbn [snd]. unfold update_seen. cbn [detection_history].
      unfold insert_or_ignore_scam_url in Eins.
      destruct (scam_urls _ !! _); injection Eins as _ <-; reflexivity. }
    cbn [dh_original_url dh_url_hash dh_threat_level dh_detection_methods
         dh_is_suspicious dh_timestamp dh_confidence].
    rewrite url_finish, !method_step_url by constructor.
    rewrite level_finish in Hlevel. rewrite methods_finish in Hmethods.
    rewrite Hlevel, Hmethods.
    repeat split; try reflexivity; unfold method2_host_extra; by_cases.
  - destruct (fallthrough_verdict hr pt s4 s5 (_detect_myanmar_scams n) n (time_time e))
      as (_ & _ & _ & _ & -> & ->).
    reflexivity.
Qed.

(** X9.  The collaborators of one call, in order.  A hit in the local
    store invokes none.  Otherwise the call queries URLhaus for the
    normalized URL and then for its host, each only if a key is configured,
    and, unless URLhaus flagged the URL, goes on to PhishTank and the three
    local analyzers.  Only the normalized URL and its netloc are handed
    over, never the raw input; a failed call invokes none. *)
Theorem collaborators_in_order (e : env) (raw : string) (st st' : state) (v : verdict) :
  analyze_url e raw st = (Py.Normal v, st') ->
  match v with
  | Analysed r =>
      exists parsed,
        urlparse (url r) = Py.Normal parsed
        /\ trace st'
           = (trace st
              ++ if list_in "local_database" (detection_methods r) then []
                 else urlhaus_events e (url r)
                      ++ host_events e (netloc parsed)
                      ++ if list_in "urlhaus" (detection_methods r) then []
                         else fallback_events (url r))%list
  | Failed _ _ => trace st' = trace st
  end.
Proof.
  intros Hrun. rewrite analyze_url_unfold in Hrun.
  destruct (analyze_url_body e raw st) as [[r|ex] st0] eqn:Hbody;
    injection Hrun as <- <-.
  2:{ destruct (analyze_url_body_raises sha256_hexdigest check_bracketed_netloc
                  e raw st st0 ex Hbody) as [_ ->]. reflexivity. }
  destruct (analyze_url_body_run e raw st st0 r Hbody)
    as (n & parsed & _ & Hparse & Hpath).
  cbn zeta in Hpath. exists parsed.
  destruct Hpath as [(row & _ & _ & -> & ->)
                    | [(uh & hr & _ & _ & _ & -> & ->)
                      | (hr & pt & s4 & s5 & _ & _ & _ & _ & -> & ->)]].
  - split; [exact Hparse|]. change (list_in "local_database" _) with true.
    cbn [trace]. rewrite app_nil_r. reflexivity.
  - rewrite url_finish, !method_step_url by constructor.
    split; [exact Hparse|].
    destruct (urlhaus_verdict uh hr (initial_results n (time_time e)))
      as (_ & _ & tail & Hmethods & Htail).
    cbn zeta in Hmethods. rewrite Hmethods. cbn [initial_results detection_methods app trace].
    destruct Htail as [-> | ->]; cbn [list_in existsb String.eqb Ascii.eqb Bool.eqb orb andb];
      rewrite app_nil_r; reflexivity.
  - rewrite url_finish, !method_step_url by constructor.
    split; [exact Hparse|].
    destruct (fallthrough_verdict hr pt s4 s5 (_detect_myanmar_scams n) n (time_time e))
      as (_ & _ & _ & _ & -> & ->).
    reflexivity.
Qed.


(** ** Construction and status *)

(** X10.  [PhishGuardCore(urlhaus_auth_key)] cannot take a key: with a
    non-empty key the constructor raises [AttributeError], because it writes
    into [self.apis] before that attribute exists; otherwise it builds an
    object whose URLhaus key is [None].  So for every constructed object
    [get_detection_status] reports URLhaus as disabled, and no call invokes
    URLhaus. *)
Theorem constructor_never_enables_urlhaus (file : database) (urlhaus_auth_key : option string) :
  match __init__ file urlhaus_auth_key with
  | Built self =>
      key_given urlhaus_auth_key = false
      /\ self_db self = Some file
      /\ self_threat_patterns self = Some threat_patterns
      /\ self_myanmar_scam_keywords self = Some myanmar_scam_keywords
      /\ auth_key_of self = None
      /\ forall e, auth_key e = auth_key_of self ->
           enabled (get_detection_status e) "urlhaus" = false
           /\ (forall n, urlhaus_events e n = [])
           /\ (forall host, host_events e host = [])
  | AttributeError msg =>
      key_given urlhaus_auth_key = true
      /\ msg = "'PhishGuardCore' object has no attribute 'apis'"
  end.
Proof.
  unfold __init__. destruct (key_given urlhaus_auth_key) eqn:E; cbn.
  - split; reflexivity.
  - do 5 (split; [reflexivity|]). intros e He.
    assert (Hkey : auth_key_set e = false) by (unfold auth_key_set; rewrite He; reflexivity).
    unfold enabled, get_detection_status, urlhaus_events, host_events. cbn.
    rewrite Hkey. repeat split. intros host. rewrite andb_false_r. reflexivity.
Qed.

(** ** Reports *)

Lemma report_scam_db (e : env) (url description : string) (user_id : option string)
    (d : database) :
  (report_scam e url description user_id d).2
  = (add_user_report e url description user_id d).2
  /\ rr_success (report_scam e url description user_id d).1
     = rr_success (add_user_report e url description user_id d).1.
Proof.
  unfold report_scam. destruct (add_user_report e url description user_id d) as [res d'].
  destruct (rr_success res) eqn:E; split; cbn; congruence.
Qed.

(** An accepted report leaves a record under the hash of its URL. *)
Lemma add_user_report_present (e : env) (url description : string)
    (user_id : option string) (d : database) :
  rr_success (add_user_report e url description user_id d).1 = true ->
  exists row,
    scam_urls (add_user_report e url description user_id d).2 !! _hash_url url = Some row.
Proof.
  destruct (urlparse url) as [parsed|ex] eqn:Hparse.
  - intros _. destruct (scam_urls d !! _hash_url url) as [old|] eqn:Hold.
    + destruct (add_user_report_known sha256_hexdigest check_bracketed_netloc
                  e url description user_id d parsed old Hparse Hold) as (Hrow & _).
      eauto.
    + destruct (add_user_report_fresh sha256_hexdigest check_bracketed_netloc
                  e url description user_id d parsed Hparse Hold) as (Hrow & _).
      eauto.
  - unfold add_user_report. rewrite Hparse. discriminate.
Qed.

(** X11.  [report_scam] never raises.  It fails exactly when [urlparse]
    rejects the URL, and then leaves the database as it was; otherwise it
    appends one pending report, answers with the hash of the URL, and the
    store holds a record under that hash: the one it held before, counted
    once more, or else a new user report. *)
Theorem report_scam_outcome (e : env) (url description : string)
    (user_id : option string) (d : database) :
  match urlparse url with
  | Py.Raise ex =>
      report_scam e url description user_id d
      = ({| rr_success := false;
            rr_message := "Error adding report: " ++ Py.str_of_exn ex;
            rr_report_id := None;
            rr_url_hash := None |}, d)
  | Py.Normal parsed =>
      exists result d' report row,
        report_scam e url description user_id d = (result, d')
        /\ rr_success result = true
        /\ rr_message result
           = "Scam reported successfully. Thank you for helping protect others!"
        /\ rr_url_hash result = Some (_hash_url url)
        /\ user_reports d' = (user_reports d ++ [report])%list
        /\ ur_url_hash report = _hash_url url
        /\ ur_original_url report = url
        /\ ur_description report = description
        /\ ur_user_id report = user_id
        /\ ur_status report = "pending"
        /\ detection_history d' = detection_history d
        /\ scam_urls d' !! _hash_url url = Some row
        /\ match scam_urls d !! _hash_url url with
           | Some old => row = bump e old
           | None =>
               reported_record row /\ su_original_url row = url
               /\ su_domain row = netloc parsed /\ su_is_active row = true
           end
  end.
Proof.
  unfold report_scam.
  destruct (urlparse url) as [parsed|ex] eqn:Hparse.
  - destruct (scam_urls d !! _hash_url url) as [old|] eqn:Hold.
    + destruct (add_user_report_known sha256_hexdigest check_bracketed_netloc
                  e url description user_id d parsed old Hparse Hold) as (Hrow & _ & Hdh).
      revert Hrow Hdh. unfold add_user_report. rewrite Hparse.
      destruct (insert_or_ignore_scam_url _ _ _ _ _ _ _ _ _) as [ins d2] eqn:Eins.
      cbn [snd rr_success]. intros Hrow Hdh.
      eexists _, _, _, _. split; [reflexivity|].
      cbn [rr_success rr_message rr_url_hash user_reports update_seen].
      unfold insert_or_ignore_scam_url in Eins. cbn [scam_urls] in Eins.
      rewrite Hold in Eins. injection Eins as <- <-. cbn [user_reports].
      repeat split; try reflexivity; assumption.
    + destruct (add_user_report_fresh sha256_hexdigest check_bracketed_netloc
                  e url description user_id d parsed Hparse Hold) as (Hrow & _ & Hdh).
      revert Hrow Hdh. unfold add_user_report. rewrite Hparse.
      destruct (insert_or_ignore_scam_url _ _ _ _ _ _ _ _ _) as [ins d2] eqn:Eins.
      cbn [snd rr_success]. intros Hrow Hdh.
      eexists _, _, _, _. split; [reflexivity|].
      cbn [rr_success rr_message rr_url_hash user_reports update_seen].
      unfold insert_or_ignore_scam_url in Eins. cbn [scam_urls] in Eins.
      rewrite Hold in Eins. injection Eins as <- <-. cbn [user_reports].
      repeat split; try reflexivity; try eassumption; reflexivity.
  - unfold add_user_report. rewrite Hparse. reflexivity.
Qed.

(** X12.  A report is found again.  After [report_scam] has accepted a URL
    in a database that the core built, [analyze_url] answers every input
    whose normalized form hashes like the reported URL from the local store:
    level "critical", the one method "local_database", a confidence in
    [0, 1], and no collaborator invoked, whatever the environment. *)
Theorem reported_url_is_found (e e2 : env) (url description raw n : string)
    (user_id : option string) (d : database) (tr : list event) :
  built sha256_hexdigest check_bracketed_netloc d ->
  rr_success (report_scam e url description user_id d).1 = true ->
  _normalize_url raw = Py.Normal n ->
  _hash_url n = _hash_url url ->
  exists r st',
    analyze_url e2 raw {| db := (report_scam e url description user_id d).2; trace := tr |}
    = (Py.Normal (Analysed r), st')
    /\ threat_level r = critical
    /\ is_suspicious r = true
    /\ detection_methods r = ["local_database"]
    /\ in_unit_interval (confidence r) = true
    /\ trace st' = tr.
Proof.
  intros Hb Hok Hnorm Hhash.
  destruct (report_scam_db e url description user_id d) as [Hdb Hsucc].
  rewrite Hsucc in Hok. rewrite Hdb.
  destruct (add_user_report_present e url description user_id d Hok) as (row & Hrow).
  assert (Hwf : store_wf (add_user_report e url description user_id d).2)
    by (apply built_wf; constructor; exact Hb).
  destruct Hwf as [Hrows _]. destruct (Hrows _ _ Hrow) as (Hactive & _ & _ & _ & Hkind).
  rewrite <- Hhash in Hrow.
  rewrite analyze_url_unfold.
  rewrite (local_hit_run sha256_hexdigest check_bracketed_netloc e2 raw n
             {| db := (add_user_report e url description user_id d).2; trace := tr |}
             row Hnorm Hrow Hactive).
  eexists _, _. split; [reflexivity|].
  repeat split.
  cbn. destruct Hkind as [(? & ? & ? & ? & _ & _ & _ & _ & _ & ->) | (-> & _)];
    vm_compute; reflexivity.
Qed.


(** ** Seeding *)

Lemma default_scams_parse :
  Forall (fun item => exists parsed, urlparse item.1.1.1 = Py.Normal parsed
                                     /\ _normalize_url item.1.1.1 = Py.Normal item.1.1.1)
    default_scams.
Proof.
  unfold default_scams.
  repeat (constructor; [eexists; split; vm_compute; reflexivity|]). constructor.
Qed.

(** One pass of the loop of [add_default_scam_urls] over URLs that parse. *)
(** The sequence of [scam_urls] after an INSERT OR IGNORE: it has moved past
    every id of the table, whether a row was written or not. *)
Lemma largest_scam_url_id_insert (d : database) (h : string) (row : scam_url) :
  scam_urls d !! h = None ->
  map_fold (fun _ row largest => Z.max (su_id row) largest) 0%Z (<[h := row]> (scam_urls d))
  = Z.max (su_id row) (largest_scam_url_id d).
Proof.
  intros Hh. unfold largest_scam_url_id.
  apply (map_fold_insert_L (fun _ row largest => Z.max (su_id row) largest)); [|exact Hh].
  intros j1 j2 z1 z2 y _ _ _. lia.
Qed.

Lemma seq_insert_or_ignore (e : env) (h u dom tt src : string)
    (tags : option (list string)) (c : float) (d : database) :
  let d1 := (insert_or_ignore_scam_url e h u dom tt src tags c d).2 in
  scam_urls_seq d1 = next_scam_url_id d
  /\ (largest_scam_url_id d1 <= scam_urls_seq d1)%Z.
Proof.
  unfold insert_or_ignore_scam_url.
  destruct (scam_urls d !! h) eqn:Hh; cbn [snd scam_urls_seq];
    (split; [reflexivity|]); unfold largest_scam_url_id at 1; cbn [scam_urls].
  - fold (largest_scam_url_id d). unfold next_scam_url_id. lia.
  - rewrite (largest_scam_url_id_insert d h _ Hh). cbn [su_id].
    unfold next_scam_url_id. lia.
Qed.

Lemma seed_fold (e : env) (l : list (string * string * string * list string))
    (d0 : database) :
  Forall (fun item => exists parsed, urlparse item.1.1.1 = Py.Normal parsed
                                     /\ _normalize_url item.1.1.1 = Py.Normal item.1.1.1) l ->
  exists d',
    fold_left
      (fun (acc : Py.outcome database) (item : string * string * string * list string) =>
         match acc with
         | Py.Raise ex => Py.Raise ex
         | Py.Normal d =>
             let '(url, threat_type, source, tags) := item in
             let url_hash := _hash_url url in
             match urlparse url with
             | Py.Raise ex => Py.Raise ex
             | Py.Normal parsed =>
                 Py.Normal (insert_or_ignore_scam_url e url_hash url (netloc parsed)
                              threat_type source (Some tags) 0.9%float d).2
             end
         end) l (Py.Normal d0) = Py.Normal d'
    /\ evolves d0 d'
    /\ user_reports d' = user_reports d0
    /\ detection_history d' = detection_history d0
    /\ (forall item, In item l -> exists row, scam_urls d' !! _hash_url item.1.1.1 = Some row)
    /\ (l <> [] -> (largest_scam_url_id d' <= scam_urls_seq d')%Z)
    /\ ((forall item, In item l ->
           exists row, scam_urls d0 !! _hash_url item.1.1.1 = Some row) ->
        scam_urls d' = scam_urls d0
        /\ ((largest_scam_url_id d0 <= scam_urls_seq d0)%Z ->
            scam_urls_seq d' = (scam_urls_seq d0 + Z.of_nat (length l))%Z)).
Proof.
  intros Hparse. revert d0.
  induction Hparse as [|item l (parsed & Hitem & _) Hl IH]; intros d0.
  - exists d0. cbn [fold_left length Z.of_nat].
    split; [reflexivity|]. split; [apply evolves_refl|].
    do 2 (split; [reflexivity|]). split; [intros ? []|].
    split; [intros Hne; contradiction|].
    intros _. split; [reflexivity|]. intros _. lia.
  - cbn [fold_left]. destruct item as [[[u tt] src] tags]. cbn [fst] in Hitem.
    rewrite Hitem.
    set (d1 := (insert_or_ignore_scam_url e (_hash_url u) u (netloc parsed) tt src
                  (Some tags) 0.9%float d0).2).
    pose proof (seq_insert_or_ignore e (_hash_url u) u (netloc parsed) tt src
                  (Some tags) 0.9%float d0) as Hseq.
    cbv zeta in Hseq. fold d1 in Hseq. destruct Hseq as [Hseq1 Hok1].
    destruct (IH d1) as (d' & Hfold & Hev & Hur & Hdh & Hin & Hok & Hsame).
    exists d'. split; [exact Hfold|].
    assert (Hev1 : evolves d0 d1) by apply evolves_insert_or_ignore.
    split; [eapply evolves_trans; eassumption|].
    split; [rewrite Hur; apply reports_insert_or_ignore|].
    split.
    { rewrite Hdh. subst d1. unfold insert_or_ignore_scam_url.
      destruct (scam_urls d0 !! _hash_url u); reflexivity. }
    split.
    { intros item [<- | Hitem']; [|exact (Hin item Hitem')]. cbn [fst].
      destruct (present_insert_or_ignore e (_hash_url u) u (netloc parsed) tt src
                  (Some tags) 0.9%float d0) as (row & Hrow).
      destruct (proj1 Hev _ _ Hrow) as (row' & Hrow' & _). eauto. }
    assert (Hrows1 : (forall item, In item ((u, tt, src, tags) :: l) ->
                        exists row, scam_urls d0 !! _hash_url item.1.1.1 = Some row) ->
                     scam_urls d1 = scam_urls d0).
    { intros Hall. subst d1. unfold insert_or_ignore_scam_url.
      destruct (Hall (u, tt, src, tags) (or_introl eq_refl)) as (row & Hrow).
      cbn [fst] in Hrow. rewrite Hrow. reflexivity. }
    split.
    + intros _. destruct l as [|item' l'].
      * cbn [fold_left] in Hfold. injection Hfold as <-. exact Hok1.
      * apply Hok. discriminate.
    + intros Hall. pose proof (Hrows1 Hall) as Hd1.
      destruct Hsame as [Hrows Hcount].
      { intros item Hitem'. rewrite Hd1. apply Hall. right. exact Hitem'. }
      split; [congruence|]. intros Hok0.
      rewrite (Hcount Hok1), Hseq1. unfold next_scam_url_id.
      cbn [length]. lia.
Qed.

(** X13.  Seeding again keeps the tables and only takes ids.  After
    [add_default_scam_urls], which [initialize_database] runs and answers
    [True] to, each of the twelve default URLs has a record, and the tables
    of reports and detections are untouched.  Running it again leaves the
    three tables as they are; but each of its twelve INSERT OR IGNORE takes
    an id from the sequence of [scam_urls], which moves on by twelve, so
    that the id of the next new record tells how often the seeding ran. *)
Theorem reseeding_keeps_tables_and_takes_ids (e : env) (d : database) :
  let d' := add_default_scam_urls e d in
  initialize_database e d = (true, d')
  /\ (forall item, In item default_scams ->
        exists row, scam_urls d' !! _hash_url item.1.1.1 = Some row)
  /\ (forall e2,
        let d'' := add_default_scam_urls e2 d' in
        scam_urls d'' = scam_urls d'
        /\ user_reports d'' = user_reports d'
        /\ detection_history d'' = detection_history d'
        /\ scam_urls_seq d'' = (scam_urls_seq d' + 12)%Z
        /\ next_scam_url_id d'' = (next_scam_url_id d' + 12)%Z)
  /\ user_reports d' = user_reports d
  /\ detection_history d' = detection_history d.
Proof.
  cbn zeta. split; [reflexivity|].
  destruct (seed_fold e default_scams d default_scams_parse)
    as (d' & Hfold & _ & Hur & Hdh & Hin & Hok & _).
  assert (Hd' : add_default_scam_urls e d = d').
  { unfold add_default_scam_urls. cbv zeta in Hfold |- *. rewrite Hfold. reflexivity. }
  rewrite Hd'. split; [exact Hin|]. split; [|split; assumption].
  intros e2.
  destruct (seed_fold e2 default_scams d' default_scams_parse)
    as (d'' & Hfold2 & _ & Hur2 & Hdh2 & _ & _ & Hsame).
  assert (Hd'' : add_default_scam_urls e2 d' = d'').
  { unfold add_default_scam_urls. cbv zeta in Hfold2 |- *. rewrite Hfold2. reflexivity. }
  rewrite Hd''. destruct (Hsame Hin) as [Hrows Hcount].
  assert (Hok' : (largest_scam_url_id d' <= scam_urls_seq d')%Z)
    by (apply Hok; discriminate).
  specialize (Hcount Hok'). change (Z.of_nat (length default_scams)) with 12%Z in Hcount.
  do 3 (split; [assumption|]). split; [exact Hcount|].
  unfold next_scam_url_id, largest_scam_url_id. rewrite Hrows, Hcount.
  fold (largest_scam_url_id d'). lia.
Qed.

Lemma seeded_present (e : env) (d : database)
    (item : string * string * string * list string) :
  In item default_scams ->
  exists row, scam_urls (add_default_scam_urls e d) !! _hash_url item.1.1.1 = Some row.
Proof.
  intros Hitem.
  destruct (seed_fold e default_scams d default_scams_parse)
    as (d' & Hfold & _ & _ & _ & Hin & _).
  unfold add_default_scam_urls. cbv zeta in Hfold |- *. rewrite Hfold.
  exact (Hin item Hitem).
Qed.

(** X14.  After seeding a database that the core built, [analyze_url]
    answers each default URL from the local store, in any environment and
    without invoking a collaborator. *)
Theorem seeded_defaults_are_found (e e2 : env) (d : database) (tr : list event)
    (item : string * string * string * list string) :
  built sha256_hexdigest check_bracketed_netloc d ->
  In item default_scams ->
  exists r st',
    analyze_url e2 item.1.1.1 {| db := add_default_scam_urls e d; trace := tr |}
    = (Py.Normal (Analysed r), st')
    /\ url r = item.1.1.1
    /\ threat_level r = critical
    /\ detection_methods r = ["local_database"]
    /\ trace st' = tr.
Proof.
  intros Hb Hitem.
  destruct (seeded_present e d item Hitem) as (row & Hrow).
  assert (Hwf : store_wf (add_default_scam_urls e d))
    by (apply built_wf; constructor; exact Hb).
  destruct (proj1 Hwf _ _ Hrow) as (Hactive & _).
  pose proof default_scams_parse as Hparse.
  rewrite List.Forall_forall in Hparse.
  destruct (Hparse item Hitem) as (parsed & _ & Hnorm).
  rewrite analyze_url_unfold.
  rewrite (local_hit_run sha256_hexdigest check_bracketed_netloc e2 _ _
             {| db := add_default_scam_urls e d; trace := tr |} row Hnorm Hrow Hactive).
  eexists _, _. split; [reflexivity|]. repeat split.
Qed.

(** ** Looking up is not a pure read *)

(** X15.  A hit in [check_url_in_database] answers with the report count as
    it was and then counts the lookup itself: each analysis of a known URL
    raises the [report_count] of its record by one and sets [last_seen],
    and touches no other record. *)
Theorem lookup_counts_as_report (e : env) (raw n : string) (st : state)
    (row : scam_url) :
  _normalize_url raw = Py.Normal n ->
  scam_urls (db st) !! _hash_url n = Some row ->
  su_is_active row = true ->
  let d' := db (analyze_url e raw st).2 in
  (check_url_in_database e n (db st)).1 = Some (db_result_of row)
  /\ dr_report_count (db_result_of row) = su_report_count row
  /\ scam_urls d' !! _hash_url n = Some (bump e row)
  /\ su_report_count (bump e row) = (su_report_count row + 1)%Z
  /\ su_last_seen (bump e row) = current_timestamp e
  /\ (forall h, h <> _hash_url n -> scam_urls d' !! h = scam_urls (db st) !! h)
  /\ user_reports d' = user_reports (db st).
Proof.
  intros Hnorm Hrow Hactive. cbn zeta.
  rewrite analyze_url_unfold.
  rewrite (local_hit_run sha256_hexdigest check_bracketed_netloc e raw n st row
             Hnorm Hrow Hactive).
  cbn [snd db]. unfold check_url_in_database. rewrite Hrow, Hactive. cbn [fst].
  unfold log_detection, update_seen. cbn [scam_urls user_reports].
  repeat split.
  - rewrite lookup_alter_eq, Hrow. reflexivity.
  - intros h Hne. rewrite lookup_alter_ne by congruence. reflexivity.
Qed.


(** ** When the local analyzers fire *)

Lemma add_per_match_count (patterns : list Re.regex) (s : string) (step score : float) :
  add_per_match patterns s step score = add_times (count_matches patterns s) step score.
Proof.
  unfold add_per_match, count_matches. revert score.
  induction patterns as [|p ps IH]; intros score; cbn [fold_left List.filter];
    [reflexivity|].
  destruct (Re.search true p s); cbn [length add_times]; apply IH.
Qed.

Lemma count_matches_le (patterns : list Re.regex) (s : string) :
  count_matches patterns s <= length patterns.
Proof.
  unfold count_matches. induction patterns as [|p ps IH]; cbn [List.filter length]; [lia|].
  destruct (Re.search true p s); cbn [length]; lia.
Qed.

Lemma detect_myanmar_scams_score (u : string) :
  _detect_myanmar_scams u
  = myanmar_score_of
      (existsb (fun keyword => Py.str_in keyword (Py.lower u)) myanmar_scam_keywords)
      (count_matches myanmar_patterns (Py.lower u)).
Proof.
  unfold _detect_myanmar_scams, myanmar_score_of. cbv zeta.
  rewrite add_per_match_count. f_equal. f_equal.
  generalize myanmar_scam_keywords. intros l.
  induction l as [|kw l IH]; [reflexivity|].
  cbn [List.filter existsb]. destruct (Py.str_in kw (Py.lower u)); [reflexivity|].
  exact IH.
Qed.

(** X16.  The Myanmar tier fires exactly when at least two of the five
    Myanmar patterns match the lower-cased URL.  One pattern is never
    enough, with or without a keyword: the score is then 0.4 or 0.7, and the
    tier asks for more than 0.7.  The score always lies in [0, 1]. *)
Theorem myanmar_tier_needs_two_patterns (u : string) :
  (0.7 <? _detect_myanmar_scams u)%float
  = (2 <=? count_matches myanmar_patterns (Py.lower u))%nat
  /\ in_unit_interval (_detect_myanmar_scams u) = true.
Proof.
  rewrite detect_myanmar_scams_score.
  pose proof (count_matches_le myanmar_patterns (Py.lower u)) as Hk.
  change (length myanmar_patterns) with 5 in Hk.
  destruct (existsb _ myanmar_scam_keywords);
    destruct (count_matches myanmar_patterns (Py.lower u)) as [|[|[|[|[|[|k]]]]]];
    try lia; split; vm_compute; reflexivity.
Qed.

Lemma analyze_url_structure_score (u : string) (parsed : ParseResult) :
  urlparse u = Py.Normal parsed ->
  _analyze_url_structure u
  = Py.Normal
      (structure_score_of
         (50 <? String.length (netloc parsed))%nat
         (Re.match_ false dotted_quad (netloc parsed))
         (existsb (fun tld => Py.str_in tld (netloc parsed)) suspicious_tlds)
         (3 <? Py.count_char "." (netloc parsed))%nat).
Proof. intros H. unfold _analyze_url_structure. rewrite H. reflexivity. Qed.

(** X17.  The structure tier fires exactly when the netloc starts like a
    dotted quad and passes one more test, or passes the three other tests
    together.  A dotted quad with only the length test or only the subdomain
    test scores 0.2 + 0.4 = 0.6000000000000001, which passes the threshold
    0.6 by rounding alone.  The analyzer fails only where [urlparse] does. *)
Theorem structure_tier_fires_iff (u : string) :
  match urlparse u with
  | Py.Raise ex => _analyze_url_structure u = Py.Raise ex
  | Py.Normal parsed =>
      let long := (50 <? String.length (netloc parsed))%nat in
      let ip := Re.match_ false dotted_quad (netloc parsed) in
      let tld := existsb (fun tld => Py.str_in tld (netloc parsed)) suspicious_tlds in
      let dots := (3 <? Py.count_char "." (netloc parsed))%nat in
      exists s5,
        _analyze_url_structure u = Py.Normal s5
        /\ (0.6 <? s5)%float = (ip && (long || tld || dots)) || (long && tld && dots)
        /\ (ip && negb tld && xorb long dots = true -> s5 = 0.6000000000000001%float)
  end.
Proof.
  destruct (urlparse u) as [parsed|ex] eqn:Hparse.
  - cbv zeta. rewrite (analyze_url_structure_score u parsed Hparse).
    eexists. split; [reflexivity|].
    destruct (50 <? String.length (netloc parsed))%nat,
      (Re.match_ false dotted_quad (netloc parsed)),
      (existsb (fun tld => Py.str_in tld (netloc parsed)) suspicious_tlds),
      (3 <? Py.count_char "." (netloc parsed))%nat;
      split; try discriminate; vm_compute; reflexivity.
  - unfold _analyze_url_structure. rewrite Hparse. reflexivity.
Qed.

Lemma pattern_thresholds_checked : pattern_thresholds_ok = true.
Proof. vm_compute. reflexivity. Qed.

Lemma pattern_analysis_exact (u : string) :
  String.length u <> 0 ->
  _pattern_analysis u
  = Py.Normal
      (pattern_score_of
         (existsb (fun pattern => Py.str_in pattern (Py.lower u))
            ["bit.ly"; "goo.gl"; "tinyurl.com"; "t.co"])
         (count_matches threat_patterns (Py.lower u))
         (0.3 <? Py.float_of_nat (Py.count_chars special_char u)
                 / Py.float_of_nat (String.length u))%float
         (existsb (fun tld => Py.str_in tld (Py.lower u)) suspicious_tlds)
         (count_matches myanmar_patterns (Py.lower u))).
Proof.
  intros Hlen. unfold _pattern_analysis, pattern_score_of.
  destruct (String.length u) as [|len] eqn:E; [contradiction|].
  cbv zeta. rewrite !add_per_match_count. reflexivity.
Qed.

(** X18.  The pattern tier weighs its tests 3, 2, 2, 4 and 5 tenths: a
    shortener, each matching threat pattern, the special-character test, a
    suspicious TLD and each matching Myanmar pattern.  On a non-empty URL it
    fires exactly when the weights add up to more than 3, and rates the URL
    "high" rather than "medium" exactly when they add up to more than 7; the
    floating-point sums never disagree with the exact ones.  On the empty
    string it raises [ZeroDivisionError]. *)
Theorem pattern_tier_fires_iff (u : string) :
  match String.length u with
  | O => _pattern_analysis u = Py.Raise (Py.ZeroDivisionError "division by zero")
  | S _ =>
      let shortener :=
        existsb (fun pattern => Py.str_in pattern (Py.lower u))
          ["bit.ly"; "goo.gl"; "tinyurl.com"; "t.co"] in
      let k := count_matches threat_patterns (Py.lower u) in
      let special :=
        (0.3 <? Py.float_of_nat (Py.count_chars special_char u)
                / Py.float_of_nat (String.length u))%float in
      let tld := existsb (fun tld => Py.str_in tld (Py.lower u)) suspicious_tlds in
      let j := count_matches myanmar_patterns (Py.lower u) in
      let weight := 3 * b2n shortener + 2 * (k + b2n special) + 4 * b2n tld + 5 * j in
      exists s4,
        _pattern_analysis u = Py.Normal s4
        /\ (0.3 <? s4)%float = (3 <? weight)%nat
        /\ (0.7 <? s4)%float = (7 <? weight)%nat
        /\ in_unit_interval s4 = true
  end.
Proof.
  destruct (String.length u) as [|len] eqn:E.
  - unfold _pattern_analysis. rewrite E. reflexivity.
  - intros shortener k special tld j weight.
    assert (Hs : _pattern_analysis u
                 = Py.Normal (pattern_score_of shortener k special tld j)).
    { rewrite pattern_analysis_exact by (rewrite E; discriminate).
      subst shortener k special tld j. rewrite E. reflexivity. }
    rewrite Hs. eexists. split; [reflexivity|].
    assert (Hk : k <= 8) by apply (count_matches_le threat_patterns).
    assert (Hj : j <= 5) by apply (count_matches_le myanmar_patterns).
    clearbody shortener k special tld j. subst weight.
    pose proof pattern_thresholds_checked as H.
    unfold pattern_thresholds_ok in H.
    rewrite forallb_forall in H. specialize (H shortener (in_bools _)).
    rewrite forallb_forall in H. specialize (H k).
    assert (Hk' : In k (seq 0 9)) by (apply in_seq; lia). specialize (H Hk').
    rewrite forallb_forall in H. specialize (H special (in_bools _)).
    rewrite forallb_forall in H. specialize (H tld (in_bools _)).
    rewrite forallb_forall in H. specialize (H j).
    assert (Hj' : In j (seq 0 6)) by (apply in_seq; lia). specialize (H Hj').
    cbv zeta in H. apply andb_prop in H as [H3 H7].
    apply Bool.eqb_prop in H3, H7. split; [exact H3|]. split; [exact H7|].
    clear - Hk Hj.
    destruct shortener, special, tld;
      destruct k as [|[|[|[|[|[|[|[|[|k]]]]]]]]]; try lia;
      destruct j as [|[|[|[|[|[|j]]]]]]; try lia;
      vm_compute; reflexivity.
Qed.


End MoreProperties.

(* ===================================================================== *)
(** * The URLhaus client                                                  *)
(* ===================================================================== *)

Section ClientProperties.

Variable strptime : string -> option Z.

Local Abbreviation _calculate_confidence := (_calculate_confidence strptime).
Local Abbreviation query_url := (query_url strptime).
Local Abbreviation analyze_url_comprehensive := (analyze_url_comprehensive strptime).

(** Splits on everything [_calculate_confidence] looks at. *)
Ltac confidence_cases now url_status date_added tags :=
  unfold _calculate_confidence;
  rewrite status_modifier_get;
  generalize (existsb (fun tag => list_in tag tags) high_risk_tags); intros risky;
  destruct (String.eqb url_status "online");
    [| destruct (String.eqb url_status "offline")];
    (destruct (nonempty date_added);
     [ destruct (strptime date_added) as [added|];
       [ destruct (timedelta_days now added >? 30)%Z | ] | ]);
    destruct risky.

Lemma calculate_confidence_range (now : Z) (url_status date_added : string)
    (tags : list string) :
  between 0.6 0.95 (_calculate_confidence now url_status date_added tags) = true.
Proof.
  confidence_cases now url_status date_added tags; vm_compute; reflexivity.
Qed.

(** X19.  [query_url] reports one of three statuses, and calls the URL
    malicious exactly when the status is "found".  A found URL has a
    confidence between 0.6 and 0.95, an absent one 0.8, and every failure
    0.  A request that fails, an empty answer, and a [query_status] other
    than "ok" and "no_results" (a null one included) are errors; a missing
    [query_status] counts as "no_results".  The call raises a [TypeError]
    exactly when the answer is "ok" with [tags] null. *)
Theorem query_url_report (c : client) (url : string) :
  let failed r :=
    qr_status r = "error" /\ qr_is_malicious r = false
    /\ qr_confidence r = 0.0%float in
  match _make_request (client_auth_key c) (post_url c) (url_form url) with
  | NoResponse | EmptyDict => exists r, query_url c url = Returns r /\ failed r
  | Dict j =>
      if holds (uj_query_status j) "ok" then
        if is_null (uj_tags j) then query_url c url = TypeError
        else
          exists r, query_url c url = Returns r
            /\ qr_status r = "found" /\ qr_is_malicious r = true
            /\ between 0.6 0.95 (qr_confidence r) = true
      else if is_missing (uj_query_status j) || holds (uj_query_status j) "no_results" then
        exists r, query_url c url = Returns r
          /\ qr_status r = "not_found" /\ qr_is_malicious r = false
          /\ qr_confidence r = 0.8%float
      else exists r, query_url c url = Returns r /\ failed r
  end.
Proof.
  intros failed. unfold failed, query_url. fold (url_form url).
  destruct (_make_request (client_auth_key c) (post_url c) (url_form url)) as [| |j].
  - eexists. split; [reflexivity|]. repeat split.
  - eexists. split; [reflexivity|]. repeat split.
  - destruct (uj_query_status j) as [| |status]; cbn [get holds is_missing orb is_str].
    + change (String.eqb "no_results" "ok") with false. cbv iota.
      rewrite String.eqb_refl. eexists. split; [reflexivity|]. repeat split.
    + eexists. split; [reflexivity|]. repeat split.
    + destruct (String.eqb status "ok").
      * destruct (uj_tags j) as [| |tags]; cbn [get is_null];
          [ | reflexivity | ];
          (eexists; split; [reflexivity|]; repeat split;
           apply calculate_confidence_range).
      * destruct (String.eqb status "no_results");
          eexists; (split; [reflexivity|]); repeat split.
Qed.

(** [min(hi, x) <= hi], whatever [x] is. *)
Lemma min_le_l (hi x : float) :
  is_number hi = true -> (Py.min hi x <=? hi)%float = true.
Proof.
  unfold Py.min, is_number. intros Hhi.
  destruct (x <? hi)%float eqn:Hlt.
  - rewrite FloatAxioms.ltb_spec in Hlt. rewrite FloatAxioms.leb_spec.
    unfold SFltb in Hlt. unfold SFleb.
    destruct (SFcompare (Prim2SF x) (Prim2SF hi)) as [[]|]; congruence.
  - rewrite FloatAxioms.eqb_spec in Hhi. rewrite FloatAxioms.leb_spec.
    unfold SFeqb in Hhi. unfold SFleb.
    destruct (SFcompare (Prim2SF hi) (Prim2SF hi)) as [[]|]; congruence.
Qed.

(** X20.  [query_host] reports an error only when the request fails or the
    answer is empty.  Once the service has answered, every answer but "ok"
    with a non-empty list of URLs, a missing or null list and an unknown
    [query_status] included, is reported as "not_found" with confidence
    0.8.  A found host is malicious, with a confidence of at most 0.9; the
    report counts all its URLs and those online, which are at most as many,
    and carries the first five URLs of the answer. *)
Theorem query_host_report (c : client) (hostname : string) :
  let r := query_host c hostname in
  match _make_request (client_auth_key c) (post_host c) (host_form hostname) with
  | NoResponse | EmptyDict =>
      qh_status r = "error" /\ qh_is_malicious r = false
      /\ qh_confidence r = 0.0%float /\ qh_urls r = []
  | Dict j =>
      match (if holds (hj_query_status j) "ok" then hj_urls j else Missing) with
      | Val (url :: urls) =>
          qh_status r = "found" /\ qh_is_malicious r = true
          /\ (qh_confidence r <=? 0.9)%float = true
          /\ qh_total_urls r = Some (S (length urls))
          /\ (exists active,
                qh_active_threats r = Some active /\ active <= S (length urls)
                /\ active
                   = length (List.filter (fun u => holds (hu_url_status u) "online")
                               (url :: urls)))
          /\ qh_urls r = firstn 5 (url :: urls)
          /\ length (qh_urls r) <= 5
      | _ =>
          qh_status r = "not_found" /\ qh_is_malicious r = false
          /\ qh_confidence r = 0.8%float /\ qh_urls r = []
          /\ qh_total_urls r = None
      end
  end.
Proof.
  intros r. subst r. unfold query_host. fold (host_form hostname).
  destruct (_make_request (client_auth_key c) (post_host c) (host_form hostname))
    as [| |j]; [repeat split .. |].
  cbv zeta.
  destruct (hj_query_status j) as [| |status]; cbn [get holds is_str].
  - change (String.eqb "no_results" "ok") with false. repeat split.
  - repeat split.
  - destruct (String.eqb status "ok"); [|repeat split].
    destruct (hj_urls j) as [| |[|url urls]]; cbn [get]; [repeat split .. |].
    cbn [qh_status qh_is_malicious qh_confidence qh_total_urls qh_active_threats
         qh_urls].
    do 2 (split; [reflexivity|]). split; [apply min_le_l; reflexivity|].
    split; [reflexivity|].
    assert (Hfilter : forall l,
      List.filter (fun u => is_str (get (hu_url_status u) None) "online") l
      = List.filter (fun u => holds (hu_url_status u) "online") l).
    { intros l. apply filter_ext. intros u. destruct (hu_url_status u); reflexivity. }
    split.
    + eexists. split; [reflexivity|]. rewrite Hfilter. split; [|reflexivity].
      apply (filter_length_le _ (url :: urls)).
    + split; [reflexivity|]. rewrite length_firstn. apply Nat.le_min_l.
Qed.

(** ** The pattern analysis and the combined verdict *)

Lemma suspicious_hits_le (url : string) :
  count_matches suspicious_patterns url <= 11.
Proof. apply (count_matches_le suspicious_patterns url). Qed.

Ltac hits_cases n hits :=
  match n with
  | O => try (exfalso; lia)
  | S ?m => destruct hits as [|hits]; [ | hits_cases m hits ]
  end.

(** X21.  [_analyze_patterns] counts the patterns of its list of eleven
    that match somewhere in the URL, case ignored.  It calls the URL
    suspicious exactly when its confidence is positive, that is, when some
    pattern matches; the confidence never exceeds 0.7 and reaches it from
    five matches on. *)
Theorem analyze_patterns_report (url : string) :
  let r := _analyze_patterns url in
  let hits := count_matches suspicious_patterns url in
  pr_suspicious_score r = hits
  /\ length (pr_matched_patterns r) = hits
  /\ hits <= pr_total_patterns_checked r
  /\ pr_total_patterns_checked r = 11
  /\ pr_is_suspicious r = (0 <? hits)%nat
  /\ pr_is_suspicious r = (0 <? pr_confidence r)%float
  /\ (pr_confidence r <=? 0.7)%float = true
  /\ (pr_confidence r =? 0.7)%float = (5 <=? hits)%nat.
Proof.
  intros r hits. subst r. unfold _analyze_patterns. cbv zeta.
  cbn [pr_suspicious_score pr_matched_patterns pr_total_patterns_checked
       pr_is_suspicious pr_confidence].
  fold (count_matches suspicious_patterns url). fold hits.
  pose proof (suspicious_hits_le url) as Hle. fold hits in Hle. clearbody hits.
  do 2 (split; [reflexivity|]). split; [exact Hle|].
  do 2 (split; [reflexivity|]).
  hits_cases 12 hits; vm_compute; repeat split.
Qed.

Lemma query_url_cases (c : client) (url : string) :
  query_url c url = TypeError
  \/ exists r, query_url c url = Returns r
       /\ ((qr_status r = "found" /\ qr_is_malicious r = true
            /\ exists url_status date_added tags,
                 qr_confidence r
                 = _calculate_confidence (datetime_now c) url_status date_added tags)
           \/ (qr_status r = "not_found" /\ qr_is_malicious r = false
               /\ qr_confidence r = 0.8%float)
           \/ (qr_status r = "error" /\ qr_is_malicious r = false
               /\ qr_confidence r = 0.0%float)).
Proof.
  unfold query_url.
  destruct (_make_request (client_auth_key c) (post_url c) _) as [| |j];
    [ right; eexists; split; [reflexivity|]; right; right; repeat split .. | ].
  destruct (is_str _ "ok").
  - destruct (get (uj_tags j) (Some [])) as [tags|]; [|left; reflexivity].
    right. eexists. split; [reflexivity|]. left. do 2 (split; [reflexivity|]).
    eexists _, _, _. reflexivity.
  - destruct (is_str _ "no_results");
      right; eexists; (split; [reflexivity|]); right; [left|right]; repeat split.
Qed.

(** X22.  The recommendation of [analyze_url_comprehensive] is decided by
    the status that URLhaus reports and by whether any pattern matches:
    high risk exactly when URLhaus knows the URL, whose combined confidence
    is then at least 0.85; medium risk when URLhaus does not know it and a
    pattern matches; low risk when the query failed and a pattern matches;
    and unknown when no pattern matches.  The recommendation that the URL
    is safe is never given, and the combined confidence lies in [0, 1].  A
    [TypeError] of [query_url] is passed on. *)
Theorem comprehensive_recommendation (c : client) (url : string) :
  match query_url c url with
  | TypeError => analyze_url_comprehensive c url = TypeError
  | Returns r =>
      exists a, analyze_url_comprehensive c url = Returns a
        /\ ca_urlhaus a = r
        /\ ca_pattern_analysis a = _analyze_patterns url
        /\ ca_is_malicious a
           = (qr_is_malicious r || (0 <? count_matches suspicious_patterns url)%nat)
        /\ ca_recommendation a
           = (if String.eqb (qr_status r) "found" then high_risk
              else if (0 <? count_matches suspicious_patterns url)%nat then
                if String.eqb (qr_status r) "not_found" then medium_risk else low_risk
              else unknown_risk)
        /\ ca_recommendation a <> safe_url
        /\ (if String.eqb (qr_status r) "found"
            then (0.85 <=? ca_confidence a)%float else true) = true
        /\ in_unit_interval (ca_confidence a) = true
  end.
Proof.
  unfold analyze_url_comprehensive.
  destruct (query_url_cases c url) as [Hq | (r & Hq & Hr)]; rewrite Hq; [reflexivity|].
  eexists. split; [reflexivity|].
  cbn [ca_urlhaus ca_pattern_analysis ca_is_malicious ca_recommendation ca_confidence].
  do 2 (split; [reflexivity|]).
  unfold _analyze_patterns. cbv zeta. cbn [pr_is_suspicious pr_confidence].
  fold (count_matches suspicious_patterns url).
  pose proof (suspicious_hits_le url) as Hle.
  generalize dependent (count_matches suspicious_patterns url). intros hits Hle.
  split; [reflexivity|].
  destruct Hr as [(Hstatus & Hmal & s & d & t & Hconf)
                 | [(Hstatus & Hmal & Hconf) | (Hstatus & Hmal & Hconf)]];
    rewrite Hstatus, Hmal, Hconf.
  - confidence_cases (datetime_now c) s d t;
      hits_cases 12 hits; vm_compute;
      (split; [reflexivity|]); (split; [discriminate|]); split; reflexivity.
  - hits_cases 12 hits; vm_compute;
      (split; [reflexivity|]); (split; [discriminate|]); split; reflexivity.
  - hits_cases 12 hits; vm_compute;
      (split; [reflexivity|]); (split; [discriminate|]); split; reflexivity.
Qed.

End ClientProperties.

(* ===================================================================== *)
(** * The core's threat intelligence                                      *)
(* ===================================================================== *)

Section Counters.

Context {K : Type} `{EqDecision K}.

Implicit Types (d : counters K) (k : K).

Lemma sum_counts_increment k d : sum_counts (increment k d) = S (sum_counts d).
Proof.
  induction d as [|[k' n] d IH]; cbn [increment sum_counts fold_right]; [reflexivity|].
  destruct (decide (k' = k)); cbn [sum_counts fold_right snd].
  - lia.
  - fold (sum_counts (increment k d)). fold (sum_counts d). rewrite IH. lia.
Qed.

Lemma keys_increment k d :
  map fst (increment k d) = map fst d \/ map fst (increment k d) = (map fst d ++ [k])%list.
Proof.
  induction d as [|[k' n] d IH]; cbn [increment map fst app]; [right; reflexivity|].
  destruct (decide (k' = k)); cbn [map fst]; [left; reflexivity|].
  destruct IH as [-> | ->]; [left|right]; reflexivity.
Qed.

Lemma In_keys_increment k k' d :
  In k' (map fst (increment k d)) -> k' = k \/ In k' (map fst d).
Proof.
  destruct (keys_increment k d) as [-> | ->]; [right; assumption|].
  rewrite in_app_iff. cbn [In]. intros [Hin | [Heq | []]]; [right; assumption|left; congruence].
Qed.

Lemma counted_nil : counted (@nil (K * nat)).
Proof. split; [constructor | constructor]. Qed.

Lemma counted_increment k d : counted d -> counted (increment k d).
Proof.
  intros [Hkeys Hpos]. split.
  - induction d as [|[k' n] d IH]; cbn [increment map fst].
    + repeat constructor. rewrite list_elem_of_In. intros [].
    + destruct (decide (k' = k)); cbn [map fst]; [exact Hkeys|].
      cbn [map fst] in Hkeys. apply NoDup_cons in Hkeys as [Hnotin Hkeys].
      inversion Hpos as [|? ? _ Hpos']; subst.
      apply NoDup_cons. split; [|apply IH; assumption].
      rewrite list_elem_of_In in *. intros Hin.
      apply In_keys_increment in Hin as [Heq | Hin]; [congruence|contradiction].
  - induction Hpos as [|[k' n] d Hn Hpos IH]; cbn [increment].
    + repeat constructor.
    + cbn [map fst] in Hkeys. apply NoDup_cons in Hkeys as [_ Hkeys].
      destruct (decide (k' = k)); constructor; cbn [snd] in *;
        [lia | assumption | assumption | apply IH; assumption].
Qed.

Lemma length_le_sum_counts d : counted d -> length d <= sum_counts d.
Proof.
  intros [_ Hpos]. induction Hpos as [|item d Hn Hpos IH];
    cbn [length sum_counts fold_right]; [lia|].
  fold (sum_counts d). lia.
Qed.

(** ** Sorting by count *)

Lemma insert_item_perm (x : K * nat) (l : counters K) :
  Permutation (insert_item x l) (x :: l).
Proof.
  induction l as [|y l IH]; cbn [insert_item]; [reflexivity|].
  destruct (y.2 <=? x.2)%nat; [reflexivity|].
  rewrite IH. apply perm_swap.
Qed.

Lemma sorted_by_count_perm d : Permutation (sorted_by_count d) d.
Proof.
  induction d as [|x d IH]; cbn [sorted_by_count fold_right]; [reflexivity|].
  fold (sorted_by_count d). rewrite insert_item_perm, IH. reflexivity.
Qed.

Lemma falling_insert_item (x : K * nat) (l : counters K) :
  falling l -> falling (insert_item x l).
Proof.
  induction l as [|y l IH]; cbn [insert_item falling]; [intros _; split; constructor|].
  intros [Hy Hl]. destruct (y.2 <=? x.2)%nat eqn:Hle.
  - apply Nat.leb_le in Hle. cbn [falling]. split; [|split; assumption].
    constructor; [exact Hle|].
    eapply Forall_impl; [exact Hy|]. cbn beta. intros z Hz. lia.
  - apply Nat.leb_gt in Hle. cbn [falling]. split; [|apply IH; assumption].
    rewrite (insert_item_perm x l). constructor; [lia|exact Hy].
Qed.

Lemma falling_sorted_by_count d : falling (sorted_by_count d).
Proof.
  induction d as [|x d IH]; cbn [sorted_by_count fold_right]; [exact I|].
  apply falling_insert_item. exact IH.
Qed.

Lemma falling_app_l (l1 l2 : counters K) : falling (l1 ++ l2)%list -> falling l1.
Proof.
  induction l1 as [|x l1 IH]; cbn [app falling]; [intros _; exact I|].
  intros [Hx Hl]. split; [|apply IH; exact Hl].
  apply Forall_app in Hx as [Hx _]. exact Hx.
Qed.

Lemma top_leading (n : nat) d : leading n d (top n d).
Proof.
  unfold leading, top. split.
  - rewrite length_firstn, (Permutation_length (sorted_by_count_perm d)). reflexivity.
  - exists (skipn n (sorted_by_count d)). rewrite firstn_skipn.
    split; [symmetry; apply sorted_by_count_perm | apply falling_sorted_by_count].
Qed.

Lemma sum_counts_app (l1 l2 : counters K) :
  sum_counts (l1 ++ l2)%list = sum_counts l1 + sum_counts l2.
Proof.
  induction l1 as [|x l1 IH]; cbn [app sum_counts fold_right]; [reflexivity|].
  fold (sum_counts (l1 ++ l2)%list). fold (sum_counts l1). rewrite IH. lia.
Qed.

Lemma sum_counts_perm (l1 l2 : counters K) :
  Permutation l1 l2 -> sum_counts l1 = sum_counts l2.
Proof.
  induction 1 as [|x l1 l2 _ IH|x y l|l1 l2 l3 _ IH1 _ IH2];
    cbn [sum_counts fold_right]; [reflexivity| | |congruence].
  - fold (sum_counts l1). fold (sum_counts l2). rewrite IH. reflexivity.
  - lia.
Qed.

Lemma counted_perm (l1 l2 : counters K) :
  Permutation l1 l2 -> counted l1 -> counted l2.
Proof.
  intros Hperm [Hkeys Hpos]. split.
  - rewrite <- (fmap_Permutation fst _ _ Hperm). exact Hkeys.
  - rewrite <- Hperm. exact Hpos.
Qed.

Lemma counted_app_l (l1 l2 : counters K) : counted (l1 ++ l2)%list -> counted l1.
Proof.
  intros [Hkeys Hpos]. split.
  - rewrite map_app in Hkeys. apply NoDup_app in Hkeys as [Hkeys _]. exact Hkeys.
  - apply Forall_app in Hpos as [Hpos _]. exact Hpos.
Qed.

(** What a table of the summary keeps of the dictionary it is cut from. *)
Lemma top_table (n : nat) d :
  counted d ->
  leading n d (top n d) /\ table n (top n d)
  /\ sum_counts (top n d) <= sum_counts d.
Proof.
  intros Hd. pose proof (top_leading n d) as Hlead.
  split; [exact Hlead|]. destruct Hlead as [Hlen (others & Hperm & Hfall)].
  split; [split; [lia|split]|].
  - eapply falling_app_l; exact Hfall.
  - eapply counted_app_l, counted_perm; [exact Hperm|exact Hd].
  - rewrite (sum_counts_perm _ _ Hperm), sum_counts_app. lia.
Qed.

Lemma counted_fold_increment (keys : list K) d :
  counted d -> counted (fold_left (fun d k => increment k d) keys d).
Proof.
  revert d. induction keys as [|k keys IH]; intros d Hd; cbn [fold_left]; [exact Hd|].
  apply IH, counted_increment, Hd.
Qed.

End Counters.

(** ** The loops of the summary *)

Lemma process_urls_counts (urls : list UrlData) (acc out : url_counts) (n : nat) :
  counted (uc_threats acc) -> counted (uc_domains acc) -> counted (uc_tags acc) ->
  sum_counts (uc_threats acc) = n -> sum_counts (uc_domains acc) <= n ->
  process_urls acc urls = Some out ->
  counted (uc_threats out) /\ counted (uc_domains out) /\ counted (uc_tags out)
  /\ sum_counts (uc_threats out) = n + length urls
  /\ sum_counts (uc_domains out) <= n + length urls.
Proof.
  revert acc n. induction urls as [|u urls IH]; intros acc n Ht Hd Hg Hsum Hdom;
    cbn [process_urls length].
  - intros [= <-]. rewrite Nat.add_0_r. do 4 (split; [assumption|]). assumption.
  - unfold process_url. cbv zeta.
    destruct (get (ud_tags u) (Some [])) as [url_tags|]; [|discriminate].
    intros Hout. replace (n + S (length urls)) with (S n + length urls) by lia.
    eapply (IH _ (S n)); [ | | | | | exact Hout]; cbn [uc_threats uc_domains uc_tags].
    + apply counted_increment, Ht.
    + destruct (get (ud_host u) (Some "")) as [host|]; [|exact Hd].
      destruct (nonempty host); [apply counted_increment|]; exact Hd.
    + apply counted_fold_increment, Hg.
    + rewrite sum_counts_increment. lia.
    + destruct (get (ud_host u) (Some "")) as [host|]; [|lia].
      destruct (nonempty host); [rewrite sum_counts_increment|]; lia.
Qed.

Lemma process_urls_raises (urls : list UrlData) (acc : url_counts) :
  match process_urls acc urls with
  | Some _ => existsb untagged urls = false
  | None => existsb untagged urls = true
  end.
Proof.
  revert acc. induction urls as [|u urls IH]; intros acc;
    cbn [process_urls existsb]; [reflexivity|].
  unfold process_url, untagged at 1 3. cbv zeta.
  destruct (ud_tags u) as [| |url_tags]; cbn [get is_null orb]; [apply IH|reflexivity|apply IH].
Qed.

Lemma process_payloads_counts (payloads : list PayloadData) (acc : payload_counts)
    (n : nat) :
  counted (pc_file_types acc) -> counted (pc_signatures acc) ->
  sum_counts (pc_file_types acc) = n -> sum_counts (pc_signatures acc) <= n ->
  let out := fold_left process_payload payloads acc in
  counted (pc_file_types out) /\ counted (pc_signatures out)
  /\ sum_counts (pc_file_types out) = n + length payloads
  /\ sum_counts (pc_signatures out) <= n + length payloads.
Proof.
  revert acc n. induction payloads as [|p payloads IH]; intros acc n Hf Hs Hsum Hsig;
    cbn [fold_left length].
  - rewrite Nat.add_0_r. do 3 (split; [assumption|]). assumption.
  - replace (n + S (length payloads)) with (S n + length payloads) by lia.
    apply (IH _ (S n)); unfold process_payload; cbn [pc_file_types pc_signatures].
    + apply counted_increment, Hf.
    + destruct (get (pd_signature p) None) as [sig|]; [|exact Hs].
      destruct (nonempty sig); [apply counted_increment|]; exact Hs.
    + rewrite sum_counts_increment. lia.
    + destruct (get (pd_signature p) None) as [sig|]; [|lia].
      destruct (nonempty sig); [rewrite sum_counts_increment|]; lia.
Qed.

Lemma fetched_urls_count (w : feeds) (self : object) (limit : Z)
    (urls : list UrlData) (count : nat) :
  get_recent_urlhaus_urls w self limit = Fetched urls count -> count = length urls.
Proof.
  unfold get_recent_urlhaus_urls.
  repeat match goal with
         | |- context [match ?x with _ => _ end] => destruct x
         end; try discriminate.
  intros [= <- <-]. reflexivity.
Qed.

(** X23.  A summary that [get_urlhaus_intelligence_summary] returns counts
    every recent URL under exactly one threat type, so that its
    [total_threats] is its [recent_urls], and counts no more hosts than
    URLs.  Each of its five tables is cut from a dictionary of counters with
    distinct keys and positive counts: it holds the leading ten (five for
    the payloads) by count, falling, and all of them when there are no
    more. *)
Theorem intelligence_summary_counts (w : feeds) (self : object) (s : Summary) :
  get_urlhaus_intelligence_summary w self = Summarized s ->
  st_total_threats s = st_recent_urls s
  /\ st_unique_domains s <= st_recent_urls s
  /\ (exists threats domains tags,
        counted threats /\ counted domains /\ counted tags
        /\ sum_counts threats = st_recent_urls s
        /\ sum_counts domains <= st_recent_urls s
        /\ length domains = st_unique_domains s
        /\ length tags = st_unique_tags s
        /\ leading 10 threats (sm_threats s)
        /\ leading 10 domains (sm_top_domains s)
        /\ leading 10 tags (sm_top_tags s))
  /\ (exists file_types signatures,
        counted file_types /\ counted signatures
        /\ sum_counts file_types = st_recent_payloads s
        /\ sum_counts signatures <= st_recent_payloads s
        /\ leading 5 file_types (sm_file_types s)
        /\ leading 5 signatures (sm_signatures s))
  /\ table 10 (sm_threats s) /\ table 10 (sm_top_domains s)
  /\ table 10 (sm_top_tags s) /\ table 5 (sm_file_types s)
  /\ table 5 (sm_signatures s).
Proof.
  unfold get_urlhaus_intelligence_summary. cbv zeta.
  destruct (get_recent_urlhaus_urls w self 50) as [urls count|]; [|discriminate].
  destruct (get_recent_urlhaus_payloads w self 20) as [payloads pcount|]; [|discriminate].
  destruct (process_urls _ urls) as [out|] eqn:Hout; [|discriminate].
  intros [= <-].
  cbn [st_total_threats st_recent_urls st_unique_domains st_unique_tags
       st_recent_payloads sm_threats sm_top_domains sm_top_tags sm_file_types
       sm_signatures].
  apply (process_urls_counts urls _ out 0) in Hout;
    [ | apply counted_nil | apply counted_nil | apply counted_nil | reflexivity
      | cbn; lia ].
  destruct Hout as (Ht & Hd & Hg & Hsum & Hdom). cbn [Nat.add] in Hsum, Hdom.
  pose proof (process_payloads_counts payloads
                {| pc_file_types := []; pc_signatures := [] |} 0
                counted_nil counted_nil eq_refl (Nat.le_0_l _)) as Hp.
  cbv zeta in Hp. destruct Hp as (Hf & Hs & Hfsum & Hssum). cbn [Nat.add] in Hfsum, Hssum.
  pose proof (length_le_sum_counts _ Hd) as Hlen.
  split; [exact Hsum|]. split; [lia|].
  split.
  { exists (uc_threats out), (uc_domains out), (uc_tags out).
    do 5 (split; [assumption|]). do 2 (split; [reflexivity|]).
    split; [|split]; apply top_leading. }
  split.
  { eexists _, _. do 4 (split; [eassumption|]). split; apply top_leading. }
  split; [|split; [|split; [|split]]]; apply top_table; assumption.
Qed.

(** X24.  The summary needs every recent URL to carry a list of tags.  When
    both feeds were fetched, the summary fails with the message of the
    [TypeError] exactly when some URL of the feed has [tags] null; whatever
    was counted up to that URL is lost.  Otherwise it succeeds. *)
Theorem untagged_url_fails_summary (w : feeds) (self : object)
    (urls : list UrlData) (n : nat) (payloads : list PayloadData) (m : nat) :
  get_recent_urlhaus_urls w self 50 = Fetched urls n ->
  get_recent_urlhaus_payloads w self 20 = Fetched payloads m ->
  if existsb untagged urls
  then get_urlhaus_intelligence_summary w self
       = NotSummarized "'NoneType' object is not iterable"
  else exists s, get_urlhaus_intelligence_summary w self = Summarized s
         /\ st_recent_urls s = n /\ st_recent_payloads s = m.
Proof.
  intros Hurls Hpayloads. unfold get_urlhaus_intelligence_summary. cbv zeta.
  rewrite Hurls, Hpayloads.
  apply fetched_urls_count in Hurls.
  pose proof (process_urls_raises urls {| uc_threats := []; uc_domains := []; uc_tags := [] |})
    as Hraise.
  destruct (process_urls _ urls) as [out|]; rewrite Hraise; [|reflexivity].
  eexists. split; [reflexivity|]. cbn [st_recent_urls st_recent_payloads].
  split; [congruence|].
  revert Hpayloads. unfold get_recent_urlhaus_payloads.
  repeat match goal with
         | |- context [match ?x with _ => _ end] => destruct x
         end; try discriminate.
  intros [= <- <-]. reflexivity.
Qed.

(** X25.  A core that its constructor has built holds no URLhaus key, so
    its intelligence is switched off whatever the service would answer:
    both feeds report that there is no key, for every limit, and the
    summary reports that it could not fetch. *)
Theorem constructed_core_has_no_intelligence (file : database)
    (urlhaus_auth_key : option string) (self : object) (w : feeds) (limit : Z) :
  __init__ file urlhaus_auth_key = Built self ->
  get_recent_urlhaus_urls w self limit = NotFetched "No URLhaus auth key"
  /\ get_recent_urlhaus_payloads w self limit = NotFetched "No URLhaus auth key"
  /\ get_urlhaus_intelligence_summary w self
     = NotSummarized "Failed to fetch threat intelligence".
Proof.
  unfold __init__. cbv zeta. cbn [self_apis].
  destruct (key_given urlhaus_auth_key); [discriminate|].
  intros [= <-].
  unfold get_urlhaus_intelligence_summary, get_recent_urlhaus_urls,
    get_recent_urlhaus_payloads, auth_key_of. cbn [set_apis self_apis].
  repeat split.
Qed.


(* ===================================================================== *)
(** * Concrete instances of the further properties                        *)
(* ===================================================================== *)

(** A host name in capitals, padded with blanks. *)
Lemma hash_url_default_scheme_witness :
  Py.startswith (Py.strip (Py.lower " Example.COM ")) "http://"
  || Py.startswith (Py.strip (Py.lower " Example.COM ")) "https://" = false
  /\ _hash_url sample_digest ("https://" ++ Py.strip " Example.COM ")
     = _hash_url sample_digest " Example.COM ".
Proof.
  split; [reflexivity|].
  apply (hash_url_default_scheme sample_digest " Example.COM "). reflexivity.
Defined.

(** A URL with parameters, a tracking parameter and a fragment. *)
Lemma normalize_url_idempotent_witness :
  _normalize_url sample_bracket_check "Example.com/a;x?utm_source=1&q=2#frag"
  = Py.Normal "https://Example.com/a?q=2"
  /\ _normalize_url sample_bracket_check "https://Example.com/a?q=2"
     = Py.Normal "https://Example.com/a?q=2"
  /\ exists parsed,
       urlparse sample_bracket_check "https://Example.com/a?q=2" = Py.Normal parsed
       /\ http_prefix (scheme parsed)
       /\ params parsed = ""
       /\ fragment parsed = "".
Proof.
  split; [vm_compute; reflexivity|].
  apply (normalize_url_idempotent sample_bracket_check
           "Example.com/a;x?utm_source=1&q=2#frag").
  vm_compute. reflexivity.
Defined.

Lemma seeded_and_reported_built :
  built sample_digest sample_bracket_check seeded_and_reported.
Proof. apply built_report, built_seed, built_empty. Defined.

(** Ids that were taken without a row being written.  Seeding an empty
    database twice leaves twelve records and the sequence at 24, so that
    the first report of a new URL is answered with the id 25.  Reporting one
    URL twice and then another gives the second record the id 3. *)
Lemma ignored_inserts_take_ids_example :
  let seed := add_default_scam_urls sample_digest sample_bracket_check offline_env in
  let report url d :=
    add_user_report sample_digest sample_bracket_check offline_env url "fake login" None d in
  size (scam_urls (seed (seed empty_database))) = 12
  /\ scam_urls_seq (seed empty_database) = 12%Z
  /\ scam_urls_seq (seed (seed empty_database)) = 24%Z
  /\ rr_report_id (report "https://fresh.example" (seed (seed empty_database))).1
     = Some 25%Z
  /\ rr_report_id
       (report "https://b.example"
          (report "https://a.example" (report "https://a.example" empty_database).2).2).1
     = Some 3%Z.
Proof. repeat split; vm_compute; reflexivity. Qed.

Lemma built_store_invariant_witness :
  built sample_digest sample_bracket_check seeded_and_reported
  /\ (forall h row, scam_urls seeded_and_reported !! h = Some row ->
        su_is_active row = true
        /\ su_url_hash row = h
        /\ h = _hash_url sample_digest (su_original_url row)
        /\ (1 <= su_report_count row)%Z
        /\ (default_record row \/ reported_record row))
  /\ (forall r, In r (user_reports seeded_and_reported) ->
        ur_status r = "pending" /\ ur_report_type r = "scam"
        /\ exists row, scam_urls seeded_and_reported !! ur_url_hash r = Some row).
Proof.
  split; [exact seeded_and_reported_built|].
  apply (built_store_invariant sample_digest sample_bracket_check seeded_and_reported).
  exact seeded_and_reported_built.
Defined.

Lemma database_stats_consistent_witness :
  built sample_digest sample_bracket_check seeded_and_reported
  /\ total_scam_urls (get_database_stats offline_env seeded_and_reported) = 13
  /\ let stats := get_database_stats offline_env seeded_and_reported in
     sum_values (by_source stats) = total_scam_urls stats
     /\ total_scam_urls stats = size (scam_urls seeded_and_reported)
     /\ pending_user_reports stats = length (user_reports seeded_and_reported).
Proof.
  split; [exact seeded_and_reported_built|].
  split; [vm_compute; reflexivity|].
  apply (database_stats_consistent sample_digest sample_bracket_check offline_env
           seeded_and_reported).
  exact seeded_and_reported_built.
Defined.

(** A shortener link with every service unreachable. *)
Lemma verdict_is_coherent_witness :
  exists r st',
    analyze_url sample_digest sample_bracket_check offline_env
      "https://bit.ly/xyz" empty_state = (Py.Normal (Analysed r), st')
    /\ is_suspicious r = true
    /\ (is_suspicious r = true <-> detection_methods r <> [])
    /\ (is_suspicious r = true <-> threat_level r <> safe)
    /\ threat_level r <> unknown
    /\ (list_in "local_database" (detection_methods r) = true
        \/ list_in "urlhaus" (detection_methods r) = true ->
        threat_level r = critical)
    /\ message r = Some (_generate_response_message r)
    /\ (message r = Some safe_message <-> is_suspicious r = false)
    /\ message r <> Some urlhaus_safe_message
    /\ message r <> Some unknown_message.
Proof.
  eexists _, (analyze_url sample_digest sample_bracket_check offline_env
                "https://bit.ly/xyz" empty_state).2.
  split; [vm_compute; reflexivity|].
  split; [reflexivity|].
  eapply (verdict_is_coherent sample_digest sample_bracket_check offline_env
            "https://bit.ly/xyz" empty_state).
  vm_compute. reflexivity.
Defined.

(** A URL and a host that URLhaus knows: the logged confidence is 1.05, the
    returned one 1. *)
Lemma detection_is_logged_on_terminal_tiers_witness :
  exists r st' ev,
    analyze_url sample_digest sample_bracket_check hostile_env
      "http://malware.example/payload.exe" empty_state
    = (Py.Normal (Analysed r), st')
    /\ detection_methods r = ["urlhaus"; "urlhaus_host"]
    /\ detection_history (db st') = [ev]
    /\ dh_confidence ev = 1.05%float
    /\ confidence r = 1%float
    /\ if list_in "local_database" (detection_methods r)
          || list_in "urlhaus" (detection_methods r)
       then exists ev,
              detection_history (db st')
              = (detection_history (db empty_state) ++ [ev])%list
              /\ dh_original_url ev = url r
              /\ dh_url_hash ev = _hash_url sample_digest (url r)
              /\ dh_threat_level ev = "critical"
              /\ dh_detection_methods ev = detection_methods r
              /\ dh_is_suspicious ev = true
              /\ dh_timestamp ev = current_timestamp hostile_env
              /\ confidence r = Py.min (dh_confidence ev) 1.0%float
       else detection_history (db st') = detection_history (db empty_state).
Proof.
  eexists _, (analyze_url sample_digest sample_bracket_check hostile_env
                "http://malware.example/payload.exe" empty_state).2, _.
  split; [vm_compute; reflexivity|].
  split; [reflexivity|].
  split; [vm_compute; reflexivity|].
  split; [reflexivity|].
  split; [reflexivity|].
  eapply (detection_is_logged_on_terminal_tiers sample_digest sample_bracket_check
            hostile_env "http://malware.example/payload.exe" empty_state _ (Analysed _)).
  vm_compute. reflexivity.
Defined.

(** The same URL without a key: no URLhaus query, then the four fallbacks. *)
Lemma collaborators_in_order_witness :
  exists r st',
    analyze_url sample_digest sample_bracket_check offline_env
      "http://malware.example/payload.exe?ref=mail" empty_state
    = (Py.Normal (Analysed r), st')
    /\ trace st' = fallback_events "http://malware.example/payload.exe"
    /\ exists parsed,
         urlparse sample_bracket_check (url r) = Py.Normal parsed
         /\ trace st'
            = (trace empty_state
               ++ if list_in "local_database" (detection_methods r) then []
                  else urlhaus_events offline_env (url r)
                       ++ host_events offline_env (netloc parsed)
                       ++ if list_in "urlhaus" (detection_methods r) then []
                          else fallback_events (url r))%list.
Proof.
  eexists _, (analyze_url sample_digest sample_bracket_check offline_env
                "http://malware.example/payload.exe?ref=mail" empty_state).2.
  split; [vm_compute; reflexivity|].
  split; [vm_compute; reflexivity|].
  eapply (collaborators_in_order sample_digest sample_bracket_check offline_env
            "http://malware.example/payload.exe?ref=mail" empty_state _ (Analysed _)).
  vm_compute. reflexivity.
Defined.

(** A host reported without a scheme, then met in a link with a tracking
    parameter. *)
Lemma reported_url_is_found_witness :
  built sample_digest sample_bracket_check empty_database
  /\ rr_success (report_scam sample_digest sample_bracket_check offline_env
                   "Scam.Example/login" "fake login" None empty_database).1 = true
  /\ _normalize_url sample_bracket_check "https://scam.example/login?utm_source=sms"
     = Py.Normal "https://scam.example/login"
  /\ exists r st',
       analyze_url sample_digest sample_bracket_check hostile_env
         "https://scam.example/login?utm_source=sms"
         {| db := (report_scam sample_digest sample_bracket_check offline_env
                     "Scam.Example/login" "fake login" None empty_database).2;
            trace := [] |}
       = (Py.Normal (Analysed r), st')
       /\ threat_level r = critical
       /\ is_suspicious r = true
       /\ detection_methods r = ["local_database"]
       /\ in_unit_interval (confidence r) = true
       /\ trace st' = [].
Proof.
  split; [apply built_empty|].
  split; [vm_compute; reflexivity|].
  split; [vm_compute; reflexivity|].
  apply (reported_url_is_found sample_digest sample_bracket_check offline_env hostile_env
           "Scam.Example/login" "fake login" "https://scam.example/login?utm_source=sms"
           "https://scam.example/login" None empty_database []).
  - apply built_empty.
  - vm_compute. reflexivity.
  - vm_compute. reflexivity.
  - reflexivity.
Defined.

(** The PayPal lure, after seeding an empty database. *)
Lemma seeded_defaults_are_found_witness :
  built sample_digest sample_bracket_check empty_database
  /\ In ("https://paypal-secure-login.ml", "phishing", "paypal",
         ["payment"; "paypal"; "fake"]) default_scams
  /\ exists r st',
       analyze_url sample_digest sample_bracket_check hostile_env
         "https://paypal-secure-login.ml"
         {| db := add_default_scam_urls sample_digest sample_bracket_check offline_env
                    empty_database;
            trace := [] |}
       = (Py.Normal (Analysed r), st')
       /\ url r = "https://paypal-secure-login.ml"
       /\ threat_level r = critical
       /\ detection_methods r = ["local_database"]
       /\ trace st' = [].
Proof.
  split; [apply built_empty|].
  assert (Hin : In ("https://paypal-secure-login.ml", "phishing", "paypal",
                    ["payment"; "paypal"; "fake"]) default_scams)
    by (unfold default_scams; cbn; tauto).
  split; [exact Hin|].
  exact (seeded_defaults_are_found sample_digest sample_bracket_check offline_env
           hostile_env empty_database []
           ("https://paypal-secure-login.ml", "phishing", "paypal",
            ["payment"; "paypal"; "fake"])
           (built_empty _ _) Hin).
Defined.

(** The reported URL, analysed once. *)
Lemma lookup_counts_as_report_witness :
  scam_urls (db reported_state) !! _hash_url sample_digest "https://scam.example"
  = Some (bump offline_env
            {| su_id := 1;
               su_url_hash := "https://scam.example";
               su_original_url := "https://scam.example";
               su_domain := "scam.example";
               su_threat_type := "user_reported";
               su_confidence := 0.7%float;
               su_source := "user_report";
               su_tags := None;
               su_first_seen := 1700000000;
               su_last_seen := 1700000000;
               su_report_count := 1;
               su_is_active := true |})
  /\ exists row,
       let d' := db (analyze_url sample_digest sample_bracket_check hostile_env
                       "https://scam.example" reported_state).2 in
       (check_url_in_database sample_digest hostile_env "https://scam.example"
          (db reported_state)).1 = Some (db_result_of row)
       /\ dr_report_count (db_result_of row) = su_report_count row
       /\ scam_urls d' !! _hash_url sample_digest "https://scam.example"
          = Some (bump hostile_env row)
       /\ su_report_count (bump hostile_env row) = (su_report_count row + 1)%Z
       /\ su_last_seen (bump hostile_env row) = current_timestamp hostile_env
       /\ (forall h, h <> _hash_url sample_digest "https://scam.example" ->
             scam_urls d' !! h = scam_urls (db reported_state) !! h)
       /\ user_reports d' = user_reports (db reported_state).
Proof.
  assert (Hrow : scam_urls (db reported_state)
                 !! _hash_url sample_digest "https://scam.example"
                 = Some (bump offline_env
                           {| su_id := 1;
                              su_url_hash := "https://scam.example";
                              su_original_url := "https://scam.example";
                              su_domain := "scam.example";
                              su_threat_type := "user_reported";
                              su_confidence := 0.7%float;
                              su_source := "user_report";
                              su_tags := None;
                              su_first_seen := 1700000000;
                              su_last_seen := 1700000000;
                              su_report_count := 1;
                              su_is_active := true |}))
    by (vm_compute; reflexivity).
  split; [exact Hrow|].
  eexists.
  apply (lookup_counts_as_report sample_digest sample_bracket_check hostile_env
           "https://scam.example" "https://scam.example" reported_state).
  - vm_compute. reflexivity.
  - exact Hrow.
  - reflexivity.
Defined.

(** A feed of four URLs and three payloads. *)
Lemma intelligence_summary_counts_witness :
  exists s,
    get_urlhaus_intelligence_summary sample_feeds keyed_core = Summarized s
    /\ sm_threats s = [(Some "malware_download", 2); (None, 1); (Some "unknown", 1)]
    /\ st_total_threats s = st_recent_urls s
    /\ st_unique_domains s <= st_recent_urls s
    /\ table 10 (sm_threats s) /\ table 5 (sm_signatures s).
Proof.
  eexists. split; [vm_compute; reflexivity|]. split; [vm_compute; reflexivity|].
  match goal with
  | |- context [st_total_threats ?s] =>
      pose proof (intelligence_summary_counts sample_feeds keyed_core s) as H
  end.
  destruct H as (Htotal & Hdomains & _ & _ & Hthreats & _ & _ & _ & Hsignatures);
    [vm_compute; reflexivity|].
  split; [exact Htotal|]. split; [exact Hdomains|].
  split; [exact Hthreats|exact Hsignatures].
Defined.

(** The same feed with an untagged URL at its end. *)
Lemma untagged_url_fails_summary_witness :
  exists urls,
    get_recent_urlhaus_urls untagged_feeds keyed_core 50 = Fetched urls 5
    /\ get_recent_urlhaus_payloads untagged_feeds keyed_core 20
       = Fetched sample_payloads 3
    /\ get_urlhaus_intelligence_summary untagged_feeds keyed_core
       = NotSummarized "'NoneType' object is not iterable".
Proof.
  eexists. split; [reflexivity|]. split; [reflexivity|].
  exact (untagged_url_fails_summary untagged_feeds keyed_core _ 5 sample_payloads 3
           eq_refl eq_refl).
Defined.

(** A core built on an empty database, without a key. *)
Lemma constructed_core_has_no_intelligence_witness :
  exists self,
    __init__ empty_database None = Built self
    /\ get_recent_urlhaus_urls sample_feeds self 50 = NotFetched "No URLhaus auth key"
    /\ get_recent_urlhaus_payloads sample_feeds self 20 = NotFetched "No URLhaus auth key"
    /\ get_urlhaus_intelligence_summary sample_feeds self
       = NotSummarized "Failed to fetch threat intelligence".
Proof.
  eexists. split; [reflexivity|].
  split.
  - apply (constructed_core_has_no_intelligence empty_database None _ sample_feeds 50).
    reflexivity.
  - split.
    + apply (constructed_core_has_no_intelligence empty_database None _ sample_feeds 20).
      reflexivity.
    + apply (constructed_core_has_no_intelligence empty_database None _ sample_feeds 0).
      reflexivity.
Defined.
